(** * Terminal core: write path, cursor adjustment, scrolling, resize,
      key input and settings

    A shallow embedding of [src/cascadia/TerminalCore/Terminal.cpp]
    (class [Microsoft::Terminal::Core::Terminal]) together with the parts of
    its collaborators ([Viewport], [TextBuffer], [Cursor]) that the
    orchestrator relies on.

    Conventions.
    - [SHORT] and [size_t] values are integers of [Z]; every assignment the
      source makes to such a variable is wrapped explicitly ([to_short],
      [to_size_t]).  [int] arithmetic is kept in [Z]: signed overflow is
      undefined in C++ and the operands are [SHORT]-sized.
    - A C++ exception (here only [gsl::narrowing_error] and the range
      check of [at]) is the [Throws] outcome; inside a [noexcept] function
      it ends the program, which is the same outcome here.
    - Calls made to the outside (the render target, the scroll callback, the
      reader/writer lock) and the evictions of the ring buffer are recorded,
      in order, in the [trace] of the terminal. *)

From Stdlib Require Import ZArith Lia Bool.
From stdpp Require Import base list.

Local Open Scope Z_scope.

(** ** Machine integers *)

Definition SHRT_MIN : Z := -32768.
Definition SHRT_MAX : Z := 32767.

Definition is_short (z : Z) : Prop := SHRT_MIN <= z <= SHRT_MAX.

(** Conversion of an [int] to [SHORT] (two's complement wrap-around). *)
Definition to_short (z : Z) : Z := (z + 32768) mod 65536 - 32768.

(** [::base::saturated_cast<short>]. *)
Definition saturated_short (z : Z) : Z := Z.max SHRT_MIN (Z.min SHRT_MAX z).

(** Arithmetic on [size_t] is modulo [2^64]. *)
Definition SIZE_MOD : Z := 2 ^ 64.
Definition to_size_t (z : Z) : Z := z mod SIZE_MOD.

(** ** Outcomes: a value, or an exception thrown *)

Inductive outcome (A : Type) : Type :=
| Returns (a : A)
| Throws.
Arguments Returns {A} a.
Arguments Throws {A}.

Definition obind {A B : Type} (m : outcome A) (k : A -> outcome B) : outcome B :=
  match m with
  | Returns a => k a
  | Throws => Throws
  end.

Notation "'do' x <- m ; k" := (obind m (fun x => k))
  (at level 10, x name, m at level 100, k at level 200).

(** [gsl::narrow<short>]: throws when the value does not fit. *)
Definition narrow_short (z : Z) : outcome Z :=
  if (SHRT_MIN <=? z) && (z <=? SHRT_MAX) then Returns z else Throws.

(** Modelled from the spec: [Utils::ClampToShortMax(value, min)], whose code
    is not in this file.  Section 3 makes the capacity of the buffer the
    viewport height plus the scrollback depth; the helper keeps that sum
    within [[min, SHRT_MAX]]. *)
Definition ClampToShortMax (value min : Z) : Z :=
  Z.max min (Z.min SHRT_MAX value).

(** ** Coordinates and viewports *)

Record COORD : Type := mkCOORD { X : Z; Y : Z }.

Definition COORD_eqb (a b : COORD) : bool :=
  (X a =? X b) && (Y a =? Y b).

(** Modelled from the spec: the [Viewport] value type, whose code is not in
    this file.  Section 3 gives it as [{ top, width, height }] standing for
    the rows [[top, top+height)], with [bottomInclusive = top+height-1] and
    [bottomExclusive = top+height]; every viewport built here has its left
    edge in column 0. *)
Module Viewport.
Record t : Type := mk { Top : Z; Width : Z; Height : Z }.

Definition Empty : t := mk 0 0 0.

Definition FromDimensions (origin dimensions : COORD) : t :=
  mk (Y origin) (X dimensions) (Y dimensions).

Definition Dimensions (v : t) : COORD := mkCOORD (Width v) (Height v).
Definition BottomInclusive (v : t) : Z := Top v + Height v - 1.
Definition BottomExclusive (v : t) : Z := Top v + Height v.
End Viewport.

(** ** The cell buffer *)

(** A UTF-16 code unit, and the attributes of a cell (kept opaque). *)
Abbreviation wchar := Z (only parsing).
Abbreviation TextAttribute := Z (only parsing).

(** Modelled from the spec: the data of the cell buffer (section 3), whose
    code is not in this file: rows of cells with a forced-wrap flag, and
    one cursor.  A cell holds one character unit (one UTF-16 code unit, or a
    surrogate pair) and the attributes it was written with; the empty unit
    is a blank. *)
Record Cell : Type := mkCell { glyph : list wchar; cellAttr : TextAttribute }.

Record ROW : Type := mkROW { cells : list Cell; wrapForced : bool }.

Record Cursor : Type := mkCursor { position : COORD; deferDepth : Z }.

Record TextBuffer : Type := mkTextBuffer {
  rows : list ROW;
  bufferSize : COORD;
  cursor : Cursor;
  currentAttributes : TextAttribute
}.

Definition blankCell (attr : TextAttribute) : Cell := mkCell [] attr.

Definition blankROW (width : Z) (attr : TextAttribute) : ROW :=
  mkROW (replicate (Z.to_nat width) (blankCell attr)) false.

(** Modelled from the spec: the [TextBuffer] constructor (section 3: a
    fixed-capacity sequence of rows of cells plus one cursor); the cursor
    starts in the top left corner. *)
Definition make_TextBuffer (size : COORD) (attr : TextAttribute) : TextBuffer :=
  mkTextBuffer (replicate (Z.to_nat (Y size)) (blankROW (X size) attr))
               size (mkCursor (mkCOORD 0 0) 0) attr.

Definition bufWidth (b : TextBuffer) : Z := X (bufferSize b).
Definition bufHeight (b : TextBuffer) : Z := Y (bufferSize b).

Definition GetPosition (b : TextBuffer) : COORD := position (cursor b).

Definition set_rows (b : TextBuffer) (rs : list ROW) : TextBuffer :=
  mkTextBuffer rs (bufferSize b) (cursor b) (currentAttributes b).

Definition set_cursor (b : TextBuffer) (c : Cursor) : TextBuffer :=
  mkTextBuffer (rows b) (bufferSize b) c (currentAttributes b).

(** Modelled from the spec: [Cursor::SetPosition] stores the position it is
    given (section 4.3: "set the cursor to the position"). *)
Definition SetPosition (b : TextBuffer) (p : COORD) : TextBuffer :=
  set_cursor b (mkCursor p (deferDepth (cursor b))).

(** Modelled from the spec: the deferred-draw scope of the cursor (section 3
    lists a [deferDepth]); it only brackets the run. *)
Definition StartDeferDrawing (b : TextBuffer) : TextBuffer :=
  set_cursor b (mkCursor (position (cursor b)) (deferDepth (cursor b) + 1)).

Definition EndDeferDrawing (b : TextBuffer) : TextBuffer :=
  set_cursor b (mkCursor (position (cursor b)) (deferDepth (cursor b) - 1)).

(** *** Character units *)

Definition is_high_surrogate (wch : wchar) : bool :=
  (0xD800 <=? wch) && (wch <=? 0xDBFF).
Definition is_low_surrogate (wch : wchar) : bool :=
  (0xDC00 <=? wch) && (wch <=? 0xDFFF).

(** Modelled from the spec: how the cell buffer cuts a run of UTF-16 code
    units into whole character units.  A high surrogate followed by a low
    surrogate is one unit of two code units; any other code unit is a unit
    of its own. *)
Fixpoint character_units (view : list wchar) : list (list wchar) :=
  match view with
  | [] => []
  | h :: rest =>
      match rest with
      | l :: rest' =>
          if is_high_surrogate h && is_low_surrogate l
          then [h; l] :: character_units rest'
          else [h] :: character_units rest
      | [] => [[h]]
      end
  end.

(** Modelled from the spec: the row write behind [TextBuffer::Write].  It
    writes units into the cells of one row from column [col] on, one cell
    per unit, while a column remains, and returns the row, the number of
    cells filled and the number of code units consumed. *)
Fixpoint WriteLine (us : list (list wchar)) (attr : TextAttribute)
    (width col : Z) (cs : list Cell) : list Cell * Z * Z :=
  match us with
  | [] => (cs, 0, 0)
  | u :: rest =>
      if col <? width then
        let '(cs', c, n) :=
          WriteLine rest attr width (col + 1)
                    (<[Z.to_nat col := mkCell u attr]> cs) in
        (cs', c + 1, n + Z.of_nat (length u))
      else (cs, 0, 0)
  end.

(** Modelled from the spec: [TextBuffer::Write] (section 4.2), whose code is
    not in this file: "writes as many whole character units as fit on the
    cursor's current row starting at the cursor's column; returns zero
    consumed-input if the row has no remaining columns".  The result is the
    buffer with [(cellDistance, inputDistance)].  The cursor itself is not
    moved: the caller does that. *)
Definition TextBuffer_Write (b : TextBuffer) (view : list wchar)
    : TextBuffer * Z * Z :=
  let pos := GetPosition b in
  if (0 <=? Y pos) && (Y pos <? bufHeight b) && (0 <=? X pos) then
    match rows b !! Z.to_nat (Y pos) with
    | Some r =>
        let '(cs, c, n) :=
          WriteLine (character_units view) (currentAttributes b)
                    (bufWidth b) (X pos) (cells r) in
        (set_rows b (<[Z.to_nat (Y pos) := mkROW cs (wrapForced r)]> (rows b)), c, n)
    | None => (b, 0, 0)
    end
  else (b, 0, 0).

(** Modelled from the spec: [incrementCircularBuffer] (section 4.2) evicts
    the oldest row and appends a blank one; the rows that remain move down
    by one index. *)
Definition IncrementCircularBuffer (b : TextBuffer) : TextBuffer :=
  set_rows b (tail (rows b) ++ [blankROW (bufWidth b) (currentAttributes b)]).

(** Modelled from the spec: [rowAt(offset)] followed by [SetWrapForced]
    (section 4.2: "for marking forced wrap"). *)
Definition SetWrapForced (b : TextBuffer) (y : Z) (w : bool) : TextBuffer :=
  if (0 <=? y) then
    match rows b !! Z.to_nat y with
    | Some r => set_rows b (<[Z.to_nat y := mkROW (cells r) w]> (rows b))
    | None => b
    end
  else b.

(** The forced-wrap flag of row [y]. *)
Definition rowWrapForced (b : TextBuffer) (y : Z) : bool :=
  if (0 <=? y) then
    match rows b !! Z.to_nat y with
    | Some r => wrapForced r
    | None => false
    end
  else false.

(** ** The terminal *)

(** What the terminal does to its surroundings, in the order it does it. *)
Inductive Event : Type :=
| LockForWriting_acquired
| Lock_released
| IncrementCircularBuffer_called
| TriggerRedrawAll
| ScrollPositionChanged (top height bottom : Z).

(** The fields of [Terminal] that the write, scroll and resize paths use.
    [_pfnScrollPositionChanged] tells whether the single callback slot holds
    a callback. *)
Record Terminal : Type := mkTerminal {
  _mutableViewport : Viewport.t;
  _scrollbackLines : Z;
  _buffer : TextBuffer;
  _scrollOffset : Z;
  _snapOnInput : bool;
  _pfnScrollPositionChanged : bool;
  trace : list Event
}.

Definition set_buffer (t : Terminal) (b : TextBuffer) : Terminal :=
  mkTerminal (_mutableViewport t) (_scrollbackLines t) b (_scrollOffset t)
             (_snapOnInput t) (_pfnScrollPositionChanged t) (trace t).

Definition set_mutableViewport (t : Terminal) (v : Viewport.t) : Terminal :=
  mkTerminal v (_scrollbackLines t) (_buffer t) (_scrollOffset t)
             (_snapOnInput t) (_pfnScrollPositionChanged t) (trace t).

Definition set_scrollOffset (t : Terminal) (o : Z) : Terminal :=
  mkTerminal (_mutableViewport t) (_scrollbackLines t) (_buffer t) o
             (_snapOnInput t) (_pfnScrollPositionChanged t) (trace t).

Definition emit (t : Terminal) (e : Event) : Terminal :=
  mkTerminal (_mutableViewport t) (_scrollbackLines t) (_buffer t)
             (_scrollOffset t) (_snapOnInput t) (_pfnScrollPositionChanged t)
             (trace t ++ [e]).

(** The constructor followed by [Terminal::Create]. *)
Definition Create (viewportSize : COORD) (scrollbackLines : Z) : Terminal :=
  let bufferSize :=
    mkCOORD (X viewportSize)
            (ClampToShortMax (Y viewportSize + scrollbackLines) 1) in
  mkTerminal (Viewport.FromDimensions (mkCOORD 0 0) viewportSize)
             scrollbackLines
             (make_TextBuffer bufferSize 0)
             0 true false [].

(** [pfn] tells whether the function object handed over holds a callback. *)
Definition SetScrollPositionChangedCallback (t : Terminal) (pfn : bool) : Terminal :=
  mkTerminal (_mutableViewport t) (_scrollbackLines t) (_buffer t)
             (_scrollOffset t) (_snapOnInput t) pfn (trace t).

(** The function returns [short]: the bottom of the viewport is converted
    to it. *)
Definition GetBufferHeight (t : Terminal) : Z :=
  to_short (Viewport.BottomExclusive (_mutableViewport t)).

Definition ViewStartIndex (t : Terminal) : Z :=
  Viewport.Top (_mutableViewport t).

Definition ViewEndIndex (t : Terminal) : Z :=
  Viewport.BottomInclusive (_mutableViewport t).

Definition _VisibleStartIndex (t : Terminal) : Z :=
  Z.max 0 (ViewStartIndex t - _scrollOffset t).

Definition _VisibleEndIndex (t : Terminal) : Z :=
  Z.max 0 (ViewEndIndex t - _scrollOffset t).

Definition _GetVisibleViewport (t : Terminal) : outcome Viewport.t :=
  do top <- narrow_short (_VisibleStartIndex t);
  Returns (Viewport.FromDimensions (mkCOORD 0 top)
             (Viewport.Dimensions (_mutableViewport t))).

Definition GetScrollOffset (t : Terminal) : Z := _VisibleStartIndex t.

(** [_GetVisibleViewport] is [noexcept]: a narrowing error in it ends the
    program before the callback is reached. *)
Definition _NotifyScrollEvent (t : Terminal) : outcome Terminal :=
  if _pfnScrollPositionChanged t then
    do visible <- _GetVisibleViewport t;
    let top := Viewport.Top visible in
    let height := Viewport.Height visible in
    let bottom := GetBufferHeight t in
    Returns (emit t (ScrollPositionChanged top height bottom))
  else Returns t.

Definition UserScrollViewport (t : Terminal) (viewTop : Z) : Terminal :=
  let clampedNewTop := Z.max 0 viewTop in
  let realTop := ViewStartIndex t in
  let newDelta := realTop - clampedNewTop in
  emit (set_scrollOffset t (Z.max 0 newDelta)) TriggerRedrawAll.

Definition TrySnapOnInput (t : Terminal) : outcome Terminal :=
  if _snapOnInput t && negb (_scrollOffset t =? 0) then
    let t1 := emit t LockForWriting_acquired in
    let t2 := set_scrollOffset t1 0 in
    do t3 <- _NotifyScrollEvent t2;
    Returns (emit t3 Lock_released)
  else Returns t.

(** *** Cursor adjustment *)

(** The loop [for (dy = 0; dy < newRows; dy++)] of [_AdjustCursorPosition]. *)
Fixpoint cycle_rows (n : nat) (t : Terminal) (p : COORD) : Terminal * COORD :=
  match n with
  | O => (t, p)
  | S n' =>
      cycle_rows n'
        (emit (set_buffer t (IncrementCircularBuffer (_buffer t)))
              IncrementCircularBuffer_called)
        (mkCOORD (X p) (to_short (Y p - 1)))
  end.

Definition _AdjustCursorPosition (t : Terminal) (proposedPosition : COORD)
    : outcome Terminal :=
  let newRows := Y proposedPosition - bufHeight (_buffer t) + 1 in
  let '(t1, proposedCursorPosition, scrolled) :=
    if 0 <? newRows then
      let '(t', p') := cycle_rows (Z.to_nat newRows) t proposedPosition in
      (t', p', true)
    else (t, proposedPosition, false) in
  let t2 := set_buffer t1 (SetPosition (_buffer t1) proposedCursorPosition) in
  let cursorPosAfter := GetPosition (_buffer t2) in
  let vp := _mutableViewport t2 in
  do moved <-
    (if Viewport.BottomInclusive vp <? Y cursorPosAfter then
       let newViewTop := Z.max 0 (Y cursorPosAfter - (Viewport.Height vp - 1)) in
       if newViewTop =? Viewport.Top vp then Returns (t2, scrolled)
       else
         do top <- narrow_short newViewTop;
         Returns (set_mutableViewport t2
                    (Viewport.FromDimensions (mkCOORD 0 top)
                       (Viewport.Dimensions vp)), true)
     else Returns (t2, scrolled));
  let '(t3, notifyScroll) := moved in
  if notifyScroll : bool then _NotifyScrollEvent (emit t3 TriggerRedrawAll)
  else Returns t3.

(** *** The write loop *)

(** [std::wstring_view::substr(pos, count)], for [pos] within the string. *)
Definition substr (s : list wchar) (pos : Z) (count : nat) : list wchar :=
  take count (drop (Z.to_nat pos) s).

(** What one pass through the body of the loop of [_WriteBuffer] has worked
    out when it reaches the call of [_AdjustCursorPosition]. *)
Record Attempt : Type := mkAttempt {
  view : list wchar;
  inputDistance : Z;
  proposedCursorPosition : COORD;
  index : Z;
  written : Terminal
}.

Definition _WriteBuffer_attempt (stringView : list wchar) (i : Z) (t : Terminal)
    : outcome Attempt :=
  match stringView !! Z.to_nat i with
  | None => Throws
  | Some wch =>
      let cursorPosBefore := GetPosition (_buffer t) in
      let isSurrogate := (0xD800 <=? wch) && (wch <=? 0xDFFF) in
      let view := substr stringView i (if isSurrogate then 2%nat else 1%nat) in
      let '(b, cellDistance, inputDistance) := TextBuffer_Write (_buffer t) view in
      if 0 <? inputDistance then
        do cells <- narrow_short cellDistance;
        Returns (mkAttempt view inputDistance
                   (mkCOORD (to_short (X cursorPosBefore + cells)) (Y cursorPosBefore))
                   (to_size_t (i + (inputDistance - 1)))
                   (set_buffer t b))
      else
        Returns (mkAttempt view inputDistance
                   (mkCOORD 0 (to_short (Y cursorPosBefore + 1)))
                   (to_size_t (i - 1))
                   (set_buffer t (SetWrapForced b (Y cursorPosBefore) true)))
  end.

(** One pass through the body: the index as the body leaves it, and the
    terminal after [_AdjustCursorPosition] has returned. *)
Definition _WriteBuffer_iteration (stringView : list wchar) (i : Z) (t : Terminal)
    : outcome (Z * Terminal) :=
  do a <- _WriteBuffer_attempt stringView i t;
  do t' <- _AdjustCursorPosition (written a) (proposedCursorPosition a);
  Returns (index a, t').

(** The loop [for (size_t i = 0; i < stringView.size(); i++)].  Nothing in
    its shape bounds the number of passes, so the model counts them down
    from [fuel]; [None] says the fuel ran out. *)
Fixpoint _WriteBuffer_loop (fuel : nat) (stringView : list wchar) (i : Z)
    (t : Terminal) : option (outcome Terminal) :=
  if i <? Z.of_nat (length stringView) then
    match fuel with
    | O => None
    | S fuel' =>
        match _WriteBuffer_iteration stringView i t with
        | Returns (i', t') =>
            _WriteBuffer_loop fuel' stringView (to_size_t (i' + 1)) t'
        | Throws => Some Throws
        end
    end
  else Some (Returns t).

Definition _WriteBuffer (fuel : nat) (stringView : list wchar) (t : Terminal)
    : option (outcome Terminal) :=
  let t0 := set_buffer t (StartDeferDrawing (_buffer t)) in
  match _WriteBuffer_loop fuel stringView 0 t0 with
  | Some (Returns t1) => Some (Returns (set_buffer t1 (EndDeferDrawing (_buffer t1))))
  | r => r
  end.

(** Modelled from the spec: the parser and its dispatcher, which are outside
    this file.  Sections 4.3 and 6 have them decode the input and call back
    into [bufferWrite] for text.  The model is for strings of printable
    characters, which are one run of text; what the parser makes of control
    characters and escape sequences is not part of it. *)
Definition ProcessString (fuel : nat) (stringView : list wchar) (t : Terminal)
    : option (outcome Terminal) :=
  _WriteBuffer fuel stringView t.

Definition Write (fuel : nat) (stringView : list wchar) (t : Terminal)
    : option (outcome Terminal) :=
  let t1 := emit t LockForWriting_acquired in
  match ProcessString fuel stringView t1 with
  | Some (Returns t2) => Some (Returns (emit t2 Lock_released))
  | r => r
  end.

(** *** Resize *)

(** Statuses: [FAILED] is the test of [RETURN_IF_FAILED]. *)
Definition HRESULT : Type := Z.
Definition S_OK : HRESULT := 0.
Definition S_FALSE : HRESULT := 1.
Definition E_OUTOFMEMORY : HRESULT := -2147024882.
Definition FAILED (hr : HRESULT) : bool := hr <? 0.

Section Resize.
(** [TextBuffer::Reflow(old, new, viewport, &scrollbackLines)] is outside
    this file and its algorithm outside the spec: it is taken as given.
    It reads the old buffer and yields a status, the new buffer as it
    filled it and the value it left in [scrollbackLines]. *)
Variable Reflow :
  TextBuffer -> TextBuffer -> Viewport.t -> Z -> HRESULT * TextBuffer * Z.

(** Whether constructing a [TextBuffer] of the given size throws
    [std::bad_alloc], which [CATCH_RETURN] turns into [E_OUTOFMEMORY]. *)
Variable allocation_fails : COORD -> bool.

(** [Terminal::UserResize].  The source also works out the height of the
    cursor within the old viewport; nothing uses it. *)
Definition UserResize (t : Terminal) (viewportSize : COORD)
    : outcome (HRESULT * Terminal) :=
  let oldDimensions := Viewport.Dimensions (_mutableViewport t) in
  if COORD_eqb viewportSize oldDimensions then Returns (S_FALSE, t)
  else
    let newBufferHeight := to_short (Y viewportSize + _scrollbackLines t) in
    let bufferSize := mkCOORD (X viewportSize) newBufferHeight in
    let scrollbackLines :=
      saturated_short (Viewport.Top (_mutableViewport t) - 1) in
    if allocation_fails bufferSize then Returns (E_OUTOFMEMORY, t)
    else
      let newTextBuffer :=
        make_TextBuffer bufferSize (currentAttributes (_buffer t)) in
      let '(hr, reflowed, scrollbackLines') :=
        Reflow (_buffer t) newTextBuffer (_mutableViewport t) scrollbackLines in
      if FAILED hr then Returns (hr, t)
      else
        let t1 :=
          set_mutableViewport t
            (Viewport.FromDimensions
               (mkCOORD 0 (saturated_short (scrollbackLines' + 1)))
               viewportSize) in
        let t2 := set_buffer t1 reflowed in
        let t3 := set_scrollOffset t2 0 in
        do t4 <- _NotifyScrollEvent t3;
        Returns (S_OK, t4).
End Resize.

(** ** Key input *)

(** Virtual-key codes and characters of the Windows headers that
    [SendKeyEvent] and [_CharacterFromKeyEvent] name. *)
Definition VK_SHIFT : Z := 0x10.
Definition VK_CONTROL : Z := 0x11.
Definition VK_MENU : Z := 0x12.
Definition VK_ESCAPE : Z := 0x1B.
Definition VK_SPACE : Z := 0x20.
Definition UNICODE_NULL : wchar := 0.
Definition UNICODE_BACKSPACE : wchar := 0x08.
Definition UNICODE_ESC : wchar := 0x1b.
Definition UNICODE_SPACE : wchar := 0x20.

(** [ControlKeyStates] is declared outside this file.  The terminal asks it
    three things, [IsAltPressed()], [IsCtrlPressed()] and
    [IsShiftPressed()], and hands its [Value()] on: the record holds the
    three answers. *)
Record ControlKeyStates : Type := mkControlKeyStates {
  IsAltPressed : bool;
  IsCtrlPressed : bool;
  IsShiftPressed : bool
}.

(** [KeyEvent] is declared outside this file.  The record holds the
    arguments of the constructor call in [SendKeyEvent], in its order;
    [GetCharData()] reads [charData]. *)
Record KeyEvent : Type := mkKeyEvent {
  keyDown : bool;
  repeatCount : Z;
  virtualKeyCode : Z;
  virtualScanCode : Z;
  charData : wchar;
  activeModifierKeys : ControlKeyStates
}.

(** What [_KeyEventsToText] asks of an [IInputEvent]: whether its
    [EventType()] is [InputEventType::KeyEvent], in which case it is a
    [KeyEvent], or another type, of which nothing else is used. *)
Inductive IInputEvent : Type :=
| KeyInput (k : KeyEvent)
| OtherInput (eventType : Z).

(** The loop of [_KeyEventsToText], which appends to [wstr]. *)
Fixpoint _KeyEventsToText_from (wstr : list wchar) (inEventsToWrite : list IInputEvent)
    : list wchar :=
  match inEventsToWrite with
  | [] => wstr
  | KeyInput k :: rest => _KeyEventsToText_from (wstr ++ [charData k]) rest
  | OtherInput _ :: rest => _KeyEventsToText_from wstr rest
  end.

Definition _KeyEventsToText (inEventsToWrite : list IInputEvent) : list wchar :=
  _KeyEventsToText_from [] inEventsToWrite.

(** The lambda [passAlongInput] of the constructor.  [_pfnWriteInput] tells
    whether the write-input slot holds a callback; the result lists the
    strings the callback was called with. *)
Definition passAlongInput (_pfnWriteInput : bool) (inEventsToWrite : list IInputEvent)
    : list (list wchar) :=
  if negb _pfnWriteInput then []
  else [_KeyEventsToText inEventsToWrite].

Section KeyInput.
(** [MapVirtualKeyW(vkey, MAPVK_VK_TO_VSC)] and
    [ToUnicodeEx(vkey, sc, keyState, buffer, 2, 0b101, nullptr)] belong to
    the platform: they are taken as given.  [ToUnicodeEx] yields its result
    and the two code units of the buffer. *)
Variable MapVirtualKeyW : Z -> Z.
Variable ToUnicodeEx : Z -> Z -> list Z -> Z -> Z * (wchar * wchar).

(** [_terminalInput->HandleKey(&keyEv)]: whether the translator outside this
    file made an outbound sequence of the key event. *)
Variable HandleKey : KeyEvent -> bool.

Definition LOWORD (z : Z) : Z := Z.land z 0xFFFF.

Definition _ScanCodeFromVirtualKey (vkey : Z) : Z :=
  LOWORD (MapVirtualKeyW vkey).

(** The array [keyState]: 256 bytes, value-initialised to 0, then the
    three modifiers stored with [at], in the order of the source. *)
Definition keyState_of (states : ControlKeyStates) : list Z :=
  <[Z.to_nat VK_MENU := if IsAltPressed states then 0x80 else 0]>
    (<[Z.to_nat VK_CONTROL := if IsCtrlPressed states then 0x80 else 0]>
       (<[Z.to_nat VK_SHIFT := if IsShiftPressed states then 0x80 else 0]>
          (replicate 256 0))).

(** [Terminal::_CharacterFromKeyEvent].  Every [at] of its body has a
    constant index inside its array and the platform calls are C functions,
    so nothing in the [try] block throws and the handler that returns
    [UNICODE_INVALID] is not reached. *)
Definition _CharacterFromKeyEvent (vkey scanCode : Z) (states : ControlKeyStates)
    : wchar :=
  let sc := if negb (scanCode =? 0) then scanCode
            else _ScanCodeFromVirtualKey vkey in
  let keyState := keyState_of states in
  let '(result, buffer) := ToUnicodeEx vkey sc keyState 5 in
  if (result =? 1) || (result =? -1) then fst buffer else 0.

(** [Terminal::SendKeyEvent]: the answer and the terminal. *)
Definition SendKeyEvent (t : Terminal) (vkey scanCode : Z)
    (states : ControlKeyStates) : outcome (bool * Terminal) :=
  do t1 <- TrySnapOnInput t;
  let ch0 := UNICODE_NULL in
  let ch1 :=
    if IsAltPressed states && negb (vkey =? VK_SPACE)
    then _CharacterFromKeyEvent vkey scanCode states
    else ch0 in
  let ch2 :=
    if IsCtrlPressed states then
      if vkey =? 0x48 then UNICODE_BACKSPACE
      else if vkey =? VK_SPACE then UNICODE_SPACE
      else ch1
    else ch1 in
  let ch := if vkey =? VK_ESCAPE then UNICODE_ESC else ch2 in
  let manuallyHandled := negb (ch =? UNICODE_NULL) in
  let keyEv := mkKeyEvent true 0 vkey scanCode ch states in
  let translated := HandleKey keyEv in
  Returns (translated && manuallyHandled, t1).
End KeyInput.

(** ** Settings *)

(** The cursor styles of the settings, and any other value of the
    enumeration's type. *)
Inductive CursorStyle : Type :=
| Style_Vintage | Style_Bar | Style_Underscore | Style_FilledBox
| Style_EmptyBox | Style_other (value : Z).

Inductive CursorType : Type :=
| Type_Legacy | Type_VerticalBar | Type_Underscore | Type_EmptyBox
| Type_FullBox.

(** [ICoreSettings] is declared outside this file: the record holds what
    the getters called in [CreateFromSettings] and [UpdateSettings]
    return. *)
Record ICoreSettings : Type := mkICoreSettings {
  DefaultForeground : Z;
  DefaultBackground : Z;
  CursorShape : CursorStyle;
  CursorHeight : Z;
  CursorColor : Z;
  GetColorTableEntry : Z -> Z;
  SnapOnInput : bool;
  WordDelimiters : list wchar;
  CopyOnSelect : bool;
  SuppressApplicationTitle : bool;
  StartingTitle : list wchar;
  InitialCols : Z;
  InitialRows : Z;
  HistorySize : Z
}.

(** The terminal together with the members that only [UpdateSettings] and
    [CreateFromSettings] write: colours, colour table, word delimiters,
    titles, and the style that [SetStyle] gives the cursor of the buffer
    (height, colour, shape). *)
Record ConfiguredTerminal : Type := mkConfiguredTerminal {
  core : Terminal;
  _defaultFg : Z;
  _defaultBg : Z;
  cursorStyle : Z * Z * CursorType;
  _colorTable : list Z;
  _wordDelimiters : list wchar;
  _copyOnSelect : bool;
  _suppressApplicationTitle : bool;
  _startingTitle : list wchar;
  _title : list wchar
}.

Definition set_snapOnInput (t : Terminal) (snap : bool) : Terminal :=
  mkTerminal (_mutableViewport t) (_scrollbackLines t) (_buffer t)
             (_scrollOffset t) snap (_pfnScrollPositionChanged t) (trace t).

(** The [switch] of [UpdateSettings]. *)
Definition cursorShape_of (style : CursorStyle) : CursorType :=
  match style with
  | Style_Underscore => Type_Underscore
  | Style_FilledBox => Type_FullBox
  | Style_EmptyBox => Type_EmptyBox
  | Style_Vintage => Type_Legacy
  | _ => Type_VerticalBar
  end.

(** [_colorTable.at(i) = v]: [at] throws past the end of the table. *)
Definition colorTable_set (table : list Z) (i : Z) (v : Z) : outcome (list Z) :=
  if (0 <=? i) && (i <? Z.of_nat (length table))
  then Returns (<[Z.to_nat i := v]> table) else Throws.

(** The loop [for (int i = 0; i < 16; i++)] of [UpdateSettings], with
    [n] entries still to copy from [i] on. *)
Fixpoint copy_color_entries (n : nat) (i : Z) (entry : Z -> Z) (table : list Z)
    : outcome (list Z) :=
  match n with
  | O => Returns table
  | S n' =>
      do table' <- colorTable_set table i (entry i);
      copy_color_entries n' (i + 1) entry table'
  end.

Definition UpdateSettings (ct : ConfiguredTerminal) (settings : ICoreSettings)
    : outcome ConfiguredTerminal :=
  let cursorShape := cursorShape_of (CursorShape settings) in
  do table <- copy_color_entries 16 0 (GetColorTableEntry settings) (_colorTable ct);
  Returns (mkConfiguredTerminal
             (set_snapOnInput (core ct) (SnapOnInput settings))
             (DefaultForeground settings)
             (DefaultBackground settings)
             (CursorHeight settings, CursorColor settings, cursorShape)
             table
             (WordDelimiters settings)
             (CopyOnSelect settings)
             (SuppressApplicationTitle settings)
             (StartingTitle settings)
             (_title ct)).



(** * Predicates and auxiliary definitions *)

(** ** Well-formed buffers and terminals *)

Definition buffer_ok (b : TextBuffer) : Prop :=
  1 <= bufWidth b <= SHRT_MAX /\
  1 <= bufHeight b <= SHRT_MAX /\
  Z.of_nat (length (rows b)) = bufHeight b.

(** Where the write path leaves the cursor: on a row of the buffer, in one
    of its columns or just past the last one. *)
Definition cursor_within (b : TextBuffer) : Prop :=
  0 <= X (GetPosition b) <= bufWidth b /\
  0 <= Y (GetPosition b) < bufHeight b.

Definition Terminal_ok (t : Terminal) : Prop :=
  buffer_ok (_buffer t) /\
  1 <= Viewport.Height (_mutableViewport t) /\
  0 <= Viewport.Top (_mutableViewport t) <= SHRT_MAX /\
  0 <= _scrollOffset t.

(** ** Traces *)

Definition append_trace (t : Terminal) (es : list Event) : Terminal :=
  mkTerminal (_mutableViewport t) (_scrollbackLines t) (_buffer t)
             (_scrollOffset t) (_snapOnInput t) (_pfnScrollPositionChanged t)
             (trace t ++ es).

(** The call that [_NotifyScrollEvent] makes on a terminal in state [t]: one
    call of the registered callback, none when the slot is empty. *)
Definition scroll_notification (t : Terminal) : list Event :=
  if _pfnScrollPositionChanged t then
    [ScrollPositionChanged (_VisibleStartIndex t)
       (Viewport.Height (_mutableViewport t)) (GetBufferHeight t)]
  else [].

Definition lock_event (e : Event) : bool :=
  match e with
  | LockForWriting_acquired | Lock_released => true
  | _ => false
  end.

(** [t'] has gone on from [t] without touching the lock. *)
Definition continues_unlocked (t t' : Terminal) : Prop :=
  exists es, trace t' = trace t ++ es /\ Forall (fun e => lock_event e = false) es.

(** ** The write path *)

(** The rows by which a proposed position lies past the last row of the
    buffer. *)
Definition overflowing_rows (t : Terminal) (p : COORD) : Z :=
  Z.max 0 (Y p - bufHeight (_buffer t) + 1).

(** Passes still to come, at most: two for each code unit left, and one
    more when the cursor sits past the last column. *)
Definition passes_left (s : list wchar) (i : Z) (t : Terminal) : Z :=
  2 * (Z.of_nat (length s) - i) +
  (if X (GetPosition (_buffer t)) <? bufWidth (_buffer t) then 0 else 1).

(** The terminals a series of [_WriteBuffer] calls goes through from [t0]:
    a call opens and closes the deferred-draw scope of the cursor, and each
    pass of its loop ends with the return of [_AdjustCursorPosition]. *)
Inductive written_from (t0 : Terminal) : Terminal -> Prop :=
| written_start : written_from t0 t0
| written_enter (t : Terminal) :
    written_from t0 t ->
    written_from t0 (set_buffer t (StartDeferDrawing (_buffer t)))
| written_pass (t : Terminal) (s : list wchar) (i i' : Z) (t' : Terminal) :
    written_from t0 t ->
    0 <= i < Z.of_nat (length s) -> Z.of_nat (length s) < SIZE_MOD ->
    _WriteBuffer_iteration s i t = Returns (i', t') ->
    written_from t0 t'
| written_leave (t : Terminal) :
    written_from t0 t ->
    written_from t0 (set_buffer t (EndDeferDrawing (_buffer t))).

(** The test [isSurrogate] of [_WriteBuffer]. *)
Definition is_surrogate (wch : wchar) : bool :=
  (0xD800 <=? wch) && (wch <=? 0xDFFF).

(** Well-formed UTF-16: every surrogate is half of a pair, high then low. *)
Inductive well_formed_utf16 : list wchar -> Prop :=
| wf_end : well_formed_utf16 []
| wf_single (c : wchar) (s : list wchar) :
    is_surrogate c = false -> well_formed_utf16 s ->
    well_formed_utf16 (c :: s)
| wf_pair (h l : wchar) (s : list wchar) :
    is_high_surrogate h = true -> is_low_surrogate l = true ->
    well_formed_utf16 s ->
    well_formed_utf16 (h :: l :: s).

(** The indices and terminals at which the loop of [_WriteBuffer], started
    on [s] in [t0], begins a pass. *)
Inductive loop_reaches (s : list wchar) (t0 : Terminal) : Z -> Terminal -> Prop :=
| loop_start : loop_reaches s t0 0 t0
| loop_pass (i : Z) (t : Terminal) (i' : Z) (t' : Terminal) :
    loop_reaches s t0 i t ->
    i < Z.of_nat (length s) ->
    _WriteBuffer_iteration s i t = Returns (i', t') ->
    loop_reaches s t0 (to_size_t (i' + 1)) t'.

(** ** Resize *)

(** The size of the buffer that [UserResize] allocates. *)
Definition resized_bufferSize (t : Terminal) (viewportSize : COORD) : COORD :=
  mkCOORD (X viewportSize) (to_short (Y viewportSize + _scrollbackLines t)).

(** A reflow that leaves the new buffer blank and reports no scrollback. *)
Definition blank_Reflow (old new : TextBuffer) (vp : Viewport.t) (lines : Z)
    : HRESULT * TextBuffer * Z := (S_OK, new, 0).

(** ** A terminal scrolled back *)

(** A terminal two columns wide, two rows high and with five rows of
    scrollback, after eleven characters and a scroll back to row 1. *)
Definition scrolled_back_terminal : Terminal :=
  Eval vm_compute in
    match _WriteBuffer 30 [97; 98; 99; 100; 101; 102; 103; 104; 105; 106; 107]
            (SetScrollPositionChangedCallback (Create (mkCOORD 2 2) 5) true) with
    | Some (Returns t) => UserScrollViewport t 1
    | _ => Create (mkCOORD 2 2) 5
    end.

(** ** Key input *)

(** The key chords for which [SendKeyEvent] has a character of its own. *)
Definition resolves_character (vkeyCharacter : wchar) (vkey : Z)
    (states : ControlKeyStates) : bool :=
  (vkey =? VK_ESCAPE)
  || (IsCtrlPressed states && ((vkey =? 0x48) || (vkey =? VK_SPACE)))
  || (IsAltPressed states && negb (vkey =? VK_SPACE)
      && negb (vkeyCharacter =? UNICODE_NULL)).

(** ** Settings *)



(** ** The viewport and the cursor *)

(** The mutable viewport holds the row of the cursor and lies inside the
    buffer. *)
Definition cursor_in_viewport (t : Terminal) : Prop :=
  Viewport.Top (_mutableViewport t) <= Y (GetPosition (_buffer t))
    <= Viewport.BottomInclusive (_mutableViewport t) /\
  Viewport.BottomExclusive (_mutableViewport t) <= bufHeight (_buffer t).

(** ** Reading the buffer back *)

(** The cell at a position of the buffer. *)
Definition cell_at (b : TextBuffer) (p : COORD) : option Cell :=
  match rows b !! Z.to_nat (Y p) with
  | Some r => cells r !! Z.to_nat (X p)
  | None => None
  end.

(** Every row has a cell for each column of the buffer. *)
Definition rows_ok (b : TextBuffer) : Prop :=
  Forall (fun r => Z.of_nat (length (cells r)) = bufWidth b) (rows b).

(** The cells of a row after the code units of [s] were put into it one to
    a cell, from column [col] on. *)
Fixpoint put_text (cs : list Cell) (col : nat) (attr : TextAttribute)
    (s : list wchar) : list Cell :=
  match s with
  | [] => cs
  | c :: rest => put_text (<[col := mkCell [c] attr]> cs) (S col) attr rest
  end.

(** ** Terminals with a full row *)

(** A terminal two columns wide and two rows high with one row of
    scrollback, after two characters: the cursor is past the last column of
    row 0. *)
Definition first_row_full_terminal : Terminal :=
  Eval vm_compute in
    match _WriteBuffer 5 [97; 98]
            (SetScrollPositionChangedCallback (Create (mkCOORD 2 2) 1) true) with
    | Some (Returns t) => t
    | _ => Create (mkCOORD 2 2) 1
    end.

(** The same terminal after six characters: the cursor is past the last
    column of the last row of the buffer. *)
Definition last_row_full_terminal : Terminal :=
  Eval vm_compute in
    match _WriteBuffer 13 [97; 98; 99; 100; 101; 102]
            (SetScrollPositionChangedCallback (Create (mkCOORD 2 2) 1) true) with
    | Some (Returns t) => t
    | _ => Create (mkCOORD 2 2) 1
    end.

(** ** The terminal in use *)

(** The terminals that calls of [Write], [UserScrollViewport],
    [SendKeyEvent] and [SetScrollPositionChangedCallback] lead to from
    [t0], whatever the platform and the input translator answer. *)
Inductive api_reachable (t0 : Terminal) : Terminal -> Prop :=
| api_start : api_reachable t0 t0
| api_Write (t : Terminal) (fuel : nat) (s : list wchar) (t' : Terminal) :
    api_reachable t0 t ->
    Z.of_nat (length s) < SIZE_MOD ->
    Write fuel s t = Some (Returns t') ->
    api_reachable t0 t'
| api_UserScrollViewport (t : Terminal) (viewTop : Z) :
    api_reachable t0 t ->
    api_reachable t0 (UserScrollViewport t viewTop)
| api_SendKeyEvent (t : Terminal) (MapVirtualKeyW : Z -> Z)
    (ToUnicodeEx : Z -> Z -> list Z -> Z -> Z * (wchar * wchar))
    (HandleKey : KeyEvent -> bool) (vkey scanCode : Z)
    (states : ControlKeyStates) (handled : bool) (t' : Terminal) :
    api_reachable t0 t ->
    SendKeyEvent MapVirtualKeyW ToUnicodeEx HandleKey t vkey scanCode states
      = Returns (handled, t') ->
    api_reachable t0 t'
| api_SetScrollPositionChangedCallback (t : Terminal) (pfn : bool) :
    api_reachable t0 t ->
    api_reachable t0 (SetScrollPositionChangedCallback t pfn).

(** A terminal two columns wide and two rows high with five rows of
    scrollback, after [Write] of seven characters. *)
Definition seven_characters_terminal : Terminal :=
  Eval vm_compute in
    match Write 15 [97; 98; 99; 100; 101; 102; 103] (Create (mkCOORD 2 2) 5) with
    | Some (Returns t) => t
    | _ => Create (mkCOORD 2 2) 5
    end.

(** * Properties *)

(** ** Machine arithmetic *)

Lemma to_short_id (z : Z) : is_short z -> to_short z = z.
Proof.
  unfold is_short, SHRT_MIN, SHRT_MAX, to_short. intros Hz.
  rewrite Z.mod_small by lia. lia.
Qed.

Lemma to_size_t_id (z : Z) : 0 <= z < SIZE_MOD -> to_size_t z = z.
Proof. intros Hz. unfold to_size_t. now apply Z.mod_small. Qed.

(** Decrementing the index and letting the loop increment it again gives the
    index back, also at index 0, where the decrement wraps around. *)
Lemma to_size_t_retry (i : Z) :
  0 <= i < SIZE_MOD -> to_size_t (to_size_t (i - 1) + 1) = i.
Proof.
  intros Hi. unfold to_size_t. rewrite Zplus_mod_idemp_l.
  replace (i - 1 + 1) with i by lia. now apply Z.mod_small.
Qed.

Lemma narrow_short_fits (z : Z) : is_short z -> narrow_short z = Returns z.
Proof.
  unfold is_short, narrow_short. intros Hz.
  destruct (Z.leb_spec SHRT_MIN z), (Z.leb_spec z SHRT_MAX); simpl; trivial; lia.
Qed.

(** [GetBufferHeight] is the row below the mutable viewport when that row
    fits a [short]. *)
Lemma GetBufferHeight_fits (t : Terminal) :
  is_short (Viewport.BottomExclusive (_mutableViewport t)) ->
  GetBufferHeight t =
    Viewport.Top (_mutableViewport t) + Viewport.Height (_mutableViewport t).
Proof. intros Hfits. unfold GetBufferHeight. now rewrite to_short_id. Qed.

(** ** Character units and the row write *)

Lemma character_units_cons (h : wchar) (rest : list wchar) :
  exists u us, character_units (h :: rest) = u :: us /\ (1 <= length u)%nat.
Proof.
  simpl. destruct rest as [|l rest'].
  - exists [h], []. split; [reflexivity | simpl; lia].
  - destruct (is_high_surrogate h && is_low_surrogate l).
    + eexists _, _. split; [reflexivity | simpl; lia].
    + eexists _, _. split; [reflexivity | simpl; lia].
Qed.

(** The units of a view give back its code units, in order. *)
Lemma character_units_concat (view : list wchar) :
  concat (character_units view) = view.
Proof.
  induction view as [view IH] using (induction_ltof1 _ (@length wchar)).
  unfold ltof in IH.
  destruct view as [|h [|l rest]]; try reflexivity.
  simpl. destruct (is_high_surrogate h && is_low_surrogate l); simpl.
  - f_equal. f_equal. apply IH. simpl. lia.
  - f_equal. change (concat (character_units (l :: rest)) = l :: rest).
    apply IH. simpl. lia.
Qed.

Lemma WriteLine_length us attr width col cs :
  length (WriteLine us attr width col cs).1.1 = length cs.
Proof.
  revert col cs. induction us as [|u rest IH]; intros col cs; simpl; trivial.
  destruct (col <? width); simpl; trivial.
  specialize (IH (col + 1) (<[Z.to_nat col := mkCell u attr]> cs)).
  destruct (WriteLine rest attr width (col + 1) _) as [[cs' c] n]. simpl in *.
  now rewrite IH, length_insert.
Qed.

(** The cells filled stay within the row, and the code units consumed are
    those of the units written. *)
Lemma WriteLine_bounds us attr width col cs :
  let '(_, c, n) := WriteLine us attr width col cs in
  0 <= c /\ c <= Z.max 0 (width - col) /\ c <= Z.of_nat (length us) /\
  0 <= n <= Z.of_nat (length (concat us)).
Proof.
  revert col cs. induction us as [|u rest IH]; intros col cs; simpl.
  - lia.
  - destruct (Z.ltb_spec col width); simpl; [|lia].
    specialize (IH (col + 1) (<[Z.to_nat col := mkCell u attr]> cs)).
    destruct (WriteLine rest attr width (col + 1) _) as [[cs' c] n].
    rewrite length_app. lia.
Qed.

Lemma WriteLine_full us attr width col cs :
  width <= col -> WriteLine us attr width col cs = (cs, 0, 0).
Proof.
  intros Hfull. destruct us as [|u rest]; simpl; trivial.
  destruct (Z.ltb_spec col width); trivial; lia.
Qed.

(** With a column left, the first unit is written whole. *)
Lemma WriteLine_room u us attr width col cs :
  col < width ->
  let '(_, c, n) := WriteLine (u :: us) attr width col cs in
  1 <= c /\ Z.of_nat (length u) <= n.
Proof.
  intros Hroom. simpl. destruct (Z.ltb_spec col width); [|lia].
  pose proof (WriteLine_bounds us attr width (col + 1)
                (<[Z.to_nat col := mkCell u attr]> cs)) as Hb.
  destruct (WriteLine us attr width (col + 1) _) as [[cs' c] n]. lia.
Qed.

Lemma character_units_length (view : list wchar) :
  (length (character_units view) <= length view)%nat.
Proof.
  induction view as [view IH] using (induction_ltof1 _ (@length wchar)).
  unfold ltof in IH.
  destruct view as [|h [|l rest]]; simpl; try lia.
  destruct (is_high_surrogate h && is_low_surrogate l); simpl.
  - specialize (IH rest). simpl in IH. lia.
  - specialize (IH (l :: rest)). simpl in IH. lia.
Qed.

(** ** The buffer write *)

Lemma TextBuffer_Write_frame (b : TextBuffer) (view : list wchar) :
  let b' := (TextBuffer_Write b view).1.1 in
  bufferSize b' = bufferSize b /\ cursor b' = cursor b /\
  currentAttributes b' = currentAttributes b /\
  length (rows b') = length (rows b).
Proof.
  unfold TextBuffer_Write.
  destruct ((0 <=? Y (GetPosition b)) && (Y (GetPosition b) <? bufHeight b)
            && (0 <=? X (GetPosition b))); simpl; auto.
  destruct (rows b !! Z.to_nat (Y (GetPosition b))) as [r|]; simpl; auto.
  destruct (WriteLine _ _ _ _ _) as [[cs c] n]. simpl.
  rewrite length_insert. auto.
Qed.

Lemma TextBuffer_Write_bounds (b : TextBuffer) (view : list wchar) :
  let '(_, c, n) := TextBuffer_Write b view in
  0 <= c <= Z.of_nat (length view) /\
  0 <= n <= Z.of_nat (length view) /\
  c <= Z.max 0 (bufWidth b - X (GetPosition b)).
Proof.
  unfold TextBuffer_Write.
  destruct ((0 <=? Y (GetPosition b)) && (Y (GetPosition b) <? bufHeight b)
            && (0 <=? X (GetPosition b))); [|lia].
  destruct (rows b !! Z.to_nat (Y (GetPosition b))) as [r|]; [|lia].
  pose proof (WriteLine_bounds (character_units view) (currentAttributes b)
                (bufWidth b) (X (GetPosition b)) (cells r)) as Hb.
  pose proof (character_units_length view) as Hl.
  rewrite character_units_concat in Hb.
  destruct (WriteLine _ _ _ _ _) as [[cs c] n]. lia.
Qed.

(** Zero input is consumed when the cursor's row has no column left. *)
Lemma TextBuffer_Write_full (b : TextBuffer) (view : list wchar) :
  bufWidth b <= X (GetPosition b) ->
  (TextBuffer_Write b view).2 = 0.
Proof.
  intros Hfull. unfold TextBuffer_Write.
  destruct ((0 <=? Y (GetPosition b)) && (Y (GetPosition b) <? bufHeight b)
            && (0 <=? X (GetPosition b))); trivial.
  destruct (rows b !! Z.to_nat (Y (GetPosition b))) as [r|]; trivial.
  now rewrite WriteLine_full.
Qed.

(** With a column left on the cursor's row, input is consumed. *)
Lemma TextBuffer_Write_room (b : TextBuffer) (view : list wchar) :
  buffer_ok b -> cursor_within b -> X (GetPosition b) < bufWidth b ->
  view <> [] ->
  let '(_, c, n) := TextBuffer_Write b view in 1 <= c /\ 1 <= n.
Proof.
  intros (HW & HH & Hrows) (HX & HY) Hroom Hview. unfold TextBuffer_Write.
  destruct (Z.leb_spec 0 (Y (GetPosition b))); [|lia].
  destruct (Z.ltb_spec (Y (GetPosition b)) (bufHeight b)); [|lia].
  destruct (Z.leb_spec 0 (X (GetPosition b))); [|lia]. simpl.
  destruct (lookup_lt_is_Some_2 (rows b) (Z.to_nat (Y (GetPosition b))))
    as [r ->]; [lia|].
  destruct view as [|h rest]; [congruence|].
  destruct (character_units_cons h rest) as (u & us & -> & Hu).
  pose proof (WriteLine_room u us (currentAttributes b) (bufWidth b)
                (X (GetPosition b)) (cells r) Hroom) as Hr.
  destruct (WriteLine _ _ _ _ _) as [[cs c] n]. lia.
Qed.

(** A surrogate pair is one unit: it is consumed whole or not at all. *)
Lemma TextBuffer_Write_pair (b : TextBuffer) (h l : wchar) :
  is_high_surrogate h = true -> is_low_surrogate l = true ->
  let n := (TextBuffer_Write b [h; l]).2 in n = 0 \/ n = 2.
Proof.
  intros Hh Hl. unfold TextBuffer_Write.
  destruct ((0 <=? Y (GetPosition b)) && (Y (GetPosition b) <? bufHeight b)
            && (0 <=? X (GetPosition b))); simpl; auto.
  destruct (rows b !! Z.to_nat (Y (GetPosition b))) as [r|]; simpl; auto.
  rewrite Hh, Hl. simpl.
  destruct (X (GetPosition b) <? bufWidth b); simpl; auto.
Qed.

(** ** Notifications and cursor adjustment *)

Lemma to_short_range (z : Z) : is_short (to_short z).
Proof.
  unfold is_short, to_short, SHRT_MIN, SHRT_MAX.
  pose proof (Z.mod_pos_bound (z + 32768) 65536). lia.
Qed.

Lemma to_short_sub (z k : Z) : to_short (to_short z - k) = to_short (z - k).
Proof.
  unfold to_short.
  replace ((z + 32768) mod 65536 - 32768 - k + 32768)
    with ((z + 32768) mod 65536 + (- k)) by lia.
  rewrite Zplus_mod_idemp_l. f_equal. f_equal. lia.
Qed.

Lemma append_trace_nil (t : Terminal) : append_trace t [] = t.
Proof. destruct t. unfold append_trace. simpl. now rewrite app_nil_r. Qed.

Lemma _NotifyScrollEvent_spec (t : Terminal) :
  _VisibleStartIndex t <= SHRT_MAX ->
  _NotifyScrollEvent t = Returns (append_trace t (scroll_notification t)).
Proof.
  intros Hv. unfold _NotifyScrollEvent, scroll_notification, _GetVisibleViewport.
  destruct (_pfnScrollPositionChanged t); [|now rewrite append_trace_nil].
  rewrite narrow_short_fits; [reflexivity|].
  unfold is_short, SHRT_MIN, _VisibleStartIndex in *. lia.
Qed.

Lemma cycle_rows_spec (n : nat) (t : Terminal) (p : COORD) :
  is_short (Y p) ->
  cycle_rows n t p =
    (append_trace (set_buffer t (Nat.iter n IncrementCircularBuffer (_buffer t)))
                  (replicate n IncrementCircularBuffer_called),
     mkCOORD (X p) (to_short (Y p - Z.of_nat n))).
Proof.
  revert t p. induction n as [|n IH]; intros t p Hp.
  - simpl. rewrite Z.sub_0_r, to_short_id by assumption.
    destruct t, p. unfold append_trace, set_buffer. simpl. now rewrite app_nil_r.
  - cbn [cycle_rows]. rewrite IH by apply to_short_range.
    cbn [X Y]. rewrite to_short_sub. f_equal.
    + rewrite Nat.iter_succ_r. unfold append_trace, set_buffer, emit. simpl.
      f_equal. now rewrite <- app_assoc.
    + f_equal. f_equal. lia.
Qed.

Lemma _AdjustCursorPosition_returns (t : Terminal) (p : COORD) :
  Terminal_ok t -> is_short (Y p) ->
  let n := overflowing_rows t p in
  let row := Y p - n in
  let vp := _mutableViewport t in
  let below := Viewport.BottomInclusive vp <? row in
  exists t',
    _AdjustCursorPosition t p = Returns t' /\
    _buffer t' =
      SetPosition (Nat.iter (Z.to_nat n) IncrementCircularBuffer (_buffer t))
                  (mkCOORD (X p) row) /\
    _mutableViewport t' =
      (if below
       then Viewport.mk (row - (Viewport.Height vp - 1))
                        (Viewport.Width vp) (Viewport.Height vp)
       else vp) /\
    trace t' =
      trace t ++ replicate (Z.to_nat n) IncrementCircularBuffer_called
              ++ (if (0 <? n) || below
                  then TriggerRedrawAll :: scroll_notification t' else []) /\
    _scrollOffset t' = _scrollOffset t /\
    _scrollbackLines t' = _scrollbackLines t /\
    _snapOnInput t' = _snapOnInput t /\
    _pfnScrollPositionChanged t' = _pfnScrollPositionChanged t.
Proof.
  intros (Hbuf & Hh & Htop & Hoff) Hp. cbv zeta.
  destruct Hbuf as (HW & HH & Hrows).
  unfold overflowing_rows.
  set (n := Z.max 0 (Y p - bufHeight (_buffer t) + 1)).
  set (row := Y p - n).
  assert (Hrow : row <= bufHeight (_buffer t) - 1) by (subst row n; lia).
  unfold _AdjustCursorPosition.
  assert (Hphase :
    (if 0 <? Y p - bufHeight (_buffer t) + 1
     then let '(t', p') :=
            cycle_rows (Z.to_nat (Y p - bufHeight (_buffer t) + 1)) t p in
          (t', p', true)
     else (t, p, false)) =
    (append_trace
       (set_buffer t (Nat.iter (Z.to_nat n) IncrementCircularBuffer (_buffer t)))
       (replicate (Z.to_nat n) IncrementCircularBuffer_called),
     mkCOORD (X p) row, 0 <? n)).
  { destruct (Z.ltb_spec 0 (Y p - bufHeight (_buffer t) + 1)) as [Hpos|Hneg].
    - rewrite cycle_rows_spec by assumption.
      assert (Hn : n = Y p - bufHeight (_buffer t) + 1) by (subst n; lia).
      rewrite <- Hn. rewrite Z2Nat.id by lia.
      rewrite to_short_id
        by (unfold is_short, SHRT_MIN, SHRT_MAX in *; subst row; lia).
      destruct (Z.ltb_spec 0 n); [reflexivity | lia].
    - assert (Hn : n = 0) by (subst n; lia).
      subst row. rewrite Hn. simpl. rewrite Z.sub_0_r.
      destruct t, p. unfold append_trace, set_buffer. simpl.
      now rewrite app_nil_r. }
  rewrite Hphase. clear Hphase.
  cbn [_mutableViewport _buffer set_buffer append_trace SetPosition GetPosition
       set_cursor cursor position Y].
  unfold SHRT_MAX in *.
  destruct (Z.ltb_spec (Viewport.BottomInclusive (_mutableViewport t)) row)
    as [Hbelow|Hin].
  - unfold Viewport.BottomInclusive in Hbelow.
    rewrite Z.max_r by lia.
    destruct (Z.eqb_spec (row - (Viewport.Height (_mutableViewport t) - 1))
                (Viewport.Top (_mutableViewport t))) as [Heq|_]; [lia|].
    rewrite narrow_short_fits by (unfold is_short, SHRT_MIN, SHRT_MAX; lia).
    cbn [obind]. rewrite orb_true_r.
    rewrite _NotifyScrollEvent_spec
      by (unfold _VisibleStartIndex, ViewStartIndex, SHRT_MAX; simpl; lia).
    eexists. split; [reflexivity|].
    cbn. repeat split; trivial.
    now rewrite <- !app_assoc.
  - cbn [obind]. rewrite orb_false_r.
    destruct (0 <? n).
    + rewrite _NotifyScrollEvent_spec
        by (unfold _VisibleStartIndex, ViewStartIndex, SHRT_MAX; simpl; lia).
      eexists. split; [reflexivity|].
      cbn. repeat split; trivial.
      now rewrite <- !app_assoc.
    + eexists. split; [reflexivity|].
      cbn. repeat split; trivial.
      now rewrite app_nil_r.
Qed.

Lemma IncrementCircularBuffer_ok (b : TextBuffer) :
  buffer_ok b ->
  buffer_ok (IncrementCircularBuffer b) /\
  bufferSize (IncrementCircularBuffer b) = bufferSize b.
Proof.
  intros (HW & HH & Hrows). split; [|reflexivity].
  unfold buffer_ok, bufWidth, bufHeight, IncrementCircularBuffer in *. simpl.
  repeat split; try lia.
  rewrite length_app. destruct (rows b); simpl in *; lia.
Qed.

Lemma IncrementCircularBuffer_iter_ok (n : nat) (b : TextBuffer) :
  buffer_ok b ->
  buffer_ok (Nat.iter n IncrementCircularBuffer b) /\
  bufferSize (Nat.iter n IncrementCircularBuffer b) = bufferSize b.
Proof.
  intros Hb. induction n as [|n [IHok IHsize]]; [now split|].
  simpl. destruct (IncrementCircularBuffer_ok _ IHok) as [Hok Hsize].
  split; [exact Hok | congruence].
Qed.

(** What the write path needs of [_AdjustCursorPosition]: handed a position
    at most one row past the buffer and at most one column past the row, it
    returns with the cursor on a row of the buffer. *)
Lemma _AdjustCursorPosition_write_path (t : Terminal) (p : COORD) :
  Terminal_ok t ->
  0 <= X p <= bufWidth (_buffer t) -> 0 <= Y p <= bufHeight (_buffer t) ->
  exists t',
    _AdjustCursorPosition t p = Returns t' /\
    Terminal_ok t' /\ cursor_within (_buffer t') /\
    X (GetPosition (_buffer t')) = X p /\
    bufferSize (_buffer t') = bufferSize (_buffer t) /\
    _scrollOffset t' = _scrollOffset t /\
    _snapOnInput t' = _snapOnInput t.
Proof.
  intros Hok HX HY.
  assert (Hshort : is_short (Y p)).
  { destruct Hok as ((_ & HH & _) & _).
    unfold is_short, SHRT_MIN, SHRT_MAX in *. lia. }
  destruct (_AdjustCursorPosition_returns t p Hok Hshort)
    as (t' & Hret & Hbuf & Hvp & _ & Hoff & _ & Hsnap & _).
  exists t'. split; [exact Hret|].
  destruct Hok as (Hb & Hh & Htop & Ho).
  destruct (IncrementCircularBuffer_iter_ok
              (Z.to_nat (overflowing_rows t p)) (_buffer t) Hb) as (Hb' & Hsize).
  assert (Hsz : bufferSize (_buffer t') = bufferSize (_buffer t))
    by (rewrite Hbuf; exact Hsize).
  assert (Hpos : GetPosition (_buffer t') =
                 mkCOORD (X p) (Y p - overflowing_rows t p))
    by (rewrite Hbuf; reflexivity).
  assert (Hlen : length (rows (_buffer t')) =
                 length (rows (Nat.iter (Z.to_nat (overflowing_rows t p))
                                 IncrementCircularBuffer (_buffer t))))
    by (rewrite Hbuf; reflexivity).
  unfold Terminal_ok, buffer_ok, cursor_within, bufWidth, bufHeight in *.
  rewrite Hsz, Hvp, Hoff, Hsnap, Hpos, Hlen. rewrite Hsize in Hb'. simpl.
  unfold overflowing_rows, bufHeight, SHRT_MAX in *.
  destruct Hb as (HW & HH & Hrows).
  destruct (Z.ltb_spec (Viewport.BottomInclusive (_mutableViewport t))
              (Y p - Z.max 0 (Y p - Y (bufferSize (_buffer t)) + 1)));
    unfold Viewport.BottomInclusive in *; simpl;
    repeat split; try tauto; lia.
Qed.

(** ** One pass of the write loop *)

Lemma SetWrapForced_frame (b : TextBuffer) (y : Z) (w : bool) :
  bufferSize (SetWrapForced b y w) = bufferSize b /\
  cursor (SetWrapForced b y w) = cursor b /\
  length (rows (SetWrapForced b y w)) = length (rows b).
Proof.
  unfold SetWrapForced. destruct (0 <=? y); auto.
  destruct (rows b !! Z.to_nat y); simpl; auto.
  rewrite length_insert. auto.
Qed.

Lemma SetWrapForced_marks (b : TextBuffer) (y : Z) :
  0 <= y < Z.of_nat (length (rows b)) ->
  rowWrapForced (SetWrapForced b y true) y = true.
Proof.
  intros Hy. unfold rowWrapForced, SetWrapForced.
  destruct (Z.leb_spec 0 y); [|lia].
  destruct (lookup_lt_is_Some_2 (rows b) (Z.to_nat y)) as [r Hr]; [lia|].
  rewrite Hr. simpl. rewrite list_lookup_insert_eq by lia. reflexivity.
Qed.

Lemma substr_length (s : list wchar) (i : Z) (k : nat) :
  0 <= i < Z.of_nat (length s) -> (1 <= k)%nat ->
  (1 <= length (substr s i k))%nat /\
  Z.of_nat (length (substr s i k)) <= Z.of_nat (length s) - i.
Proof.
  intros Hi Hk. unfold substr. rewrite length_take, length_drop. lia.
Qed.

(** With a column left on the cursor's row the pass consumes input: the
    index moves on by what was consumed and the column by the cells filled. *)
Lemma _WriteBuffer_attempt_room (s : list wchar) (i : Z) (t : Terminal) :
  Terminal_ok t -> cursor_within (_buffer t) ->
  0 <= i < Z.of_nat (length s) -> Z.of_nat (length s) < SIZE_MOD ->
  X (GetPosition (_buffer t)) < bufWidth (_buffer t) ->
  exists a,
    _WriteBuffer_attempt s i t = Returns a /\
    1 <= inputDistance a /\
    i + inputDistance a <= Z.of_nat (length s) /\
    index a = i + inputDistance a - 1 /\
    Y (proposedCursorPosition a) = Y (GetPosition (_buffer t)) /\
    X (GetPosition (_buffer t)) < X (proposedCursorPosition a)
      <= bufWidth (_buffer t) /\
    Terminal_ok (written a) /\
    bufferSize (_buffer (written a)) = bufferSize (_buffer t) /\
    _scrollOffset (written a) = _scrollOffset t /\
    _snapOnInput (written a) = _snapOnInput t.
Proof.
  intros Hok Hcur Hi Hlen Hroom. unfold _WriteBuffer_attempt.
  destruct (lookup_lt_is_Some_2 s (Z.to_nat i)) as [wch Hw]; [lia|].
  rewrite Hw.
  set (k := if (55296 <=? wch) && (wch <=? 57343) then 2%nat else 1%nat).
  assert (Hk : (1 <= k)%nat) by (subst k; destruct (_ && _); lia).
  destruct (substr_length s i k Hi Hk) as [Hv1 Hv2].
  assert (Hview : substr s i k <> []).
  { intros E. rewrite E in Hv1. simpl in Hv1. lia. }
  destruct Hok as (Hb & Hvp).
  pose proof (TextBuffer_Write_frame (_buffer t) (substr s i k)) as Hframe.
  pose proof (TextBuffer_Write_bounds (_buffer t) (substr s i k)) as Hbounds.
  pose proof (TextBuffer_Write_room (_buffer t) (substr s i k)
                Hb Hcur Hroom Hview) as Hr.
  destruct (TextBuffer_Write (_buffer t) (substr s i k)) as [[b c] n].
  cbv zeta in Hframe. simpl in Hframe.
  destruct Hframe as (Hsize & Hcursor & _ & Hrows).
  destruct (Z.ltb_spec 0 n); [|lia].
  destruct Hb as (HW & HH & Hlr). destruct Hcur as (HX & HY).
  unfold SHRT_MAX in *.
  rewrite narrow_short_fits by (unfold is_short, SHRT_MIN, SHRT_MAX; lia).
  cbn [obind]. eexists. split; [reflexivity|]. cbn.
  rewrite to_size_t_id by (unfold SIZE_MOD in *; lia).
  rewrite to_short_id by (unfold is_short, SHRT_MIN, SHRT_MAX; lia).
  unfold Terminal_ok, buffer_ok, bufWidth, bufHeight in *. simpl.
  rewrite Hsize, Hrows.
  repeat split; try tauto; lia.
Qed.

(** With no column left the pass consumes nothing: it proposes the start of
    the next row, marks the row it was on and steps the index back. *)
Lemma _WriteBuffer_attempt_full (s : list wchar) (i : Z) (t : Terminal) :
  Terminal_ok t -> cursor_within (_buffer t) ->
  0 <= i < Z.of_nat (length s) ->
  bufWidth (_buffer t) <= X (GetPosition (_buffer t)) ->
  exists a,
    _WriteBuffer_attempt s i t = Returns a /\
    inputDistance a = 0 /\
    index a = to_size_t (i - 1) /\
    proposedCursorPosition a = mkCOORD 0 (Y (GetPosition (_buffer t)) + 1) /\
    rowWrapForced (_buffer (written a)) (Y (GetPosition (_buffer t))) = true /\
    Terminal_ok (written a) /\
    bufferSize (_buffer (written a)) = bufferSize (_buffer t) /\
    _scrollOffset (written a) = _scrollOffset t /\
    _snapOnInput (written a) = _snapOnInput t.
Proof.
  intros Hok Hcur Hi Hfull. unfold _WriteBuffer_attempt.
  destruct (lookup_lt_is_Some_2 s (Z.to_nat i)) as [wch Hw]; [lia|].
  rewrite Hw.
  set (k := if (55296 <=? wch) && (wch <=? 57343) then 2%nat else 1%nat).
  destruct Hok as (Hb & Hvp).
  pose proof (TextBuffer_Write_frame (_buffer t) (substr s i k)) as Hframe.
  pose proof (TextBuffer_Write_full (_buffer t) (substr s i k) Hfull) as Hn.
  destruct (TextBuffer_Write (_buffer t) (substr s i k)) as [[b c] n].
  cbv zeta in Hframe. simpl in Hframe, Hn. subst n.
  destruct Hframe as (Hsize & Hcursor & _ & Hrows).
  destruct Hb as (HW & HH & Hlr). destruct Hcur as (HX & HY).
  cbn [Z.ltb Z.compare]. eexists. split; [reflexivity|]. cbn.
  destruct (SetWrapForced_frame b (Y (GetPosition (_buffer t))) true)
    as (Hs' & Hc' & Hr').
  rewrite to_short_id by (unfold is_short, SHRT_MIN, SHRT_MAX in *; lia).
  rewrite SetWrapForced_marks by lia.
  unfold Terminal_ok, buffer_ok, bufWidth, bufHeight in *.
  cbn [_buffer set_buffer _mutableViewport _scrollOffset].
  rewrite Hs', Hr', Hsize, Hrows.
  repeat split; try tauto; lia.
Qed.

(** Every pass returns, keeps the terminal well formed and the cursor on a
    row of the buffer, and either moves the index on or, when the row was
    full, leaves the index where it was with the cursor in column 0. *)
Lemma _WriteBuffer_iteration_spec (s : list wchar) (i : Z) (t : Terminal) :
  Terminal_ok t -> cursor_within (_buffer t) ->
  0 <= i < Z.of_nat (length s) -> Z.of_nat (length s) < SIZE_MOD ->
  exists i' t',
    _WriteBuffer_iteration s i t = Returns (i', t') /\
    Terminal_ok t' /\ cursor_within (_buffer t') /\
    bufferSize (_buffer t') = bufferSize (_buffer t) /\
    _scrollOffset t' = _scrollOffset t /\
    _snapOnInput t' = _snapOnInput t /\
    ((X (GetPosition (_buffer t)) < bufWidth (_buffer t) /\
      i < to_size_t (i' + 1) <= Z.of_nat (length s))
     \/
     (X (GetPosition (_buffer t)) = bufWidth (_buffer t) /\
      to_size_t (i' + 1) = i /\ X (GetPosition (_buffer t')) = 0)).
Proof.
  intros Hok Hcur Hi Hlen. unfold _WriteBuffer_iteration.
  pose proof Hcur as (HX0 & HY0). unfold bufWidth, bufHeight in HX0, HY0.
  destruct (Z.lt_ge_cases (X (GetPosition (_buffer t))) (bufWidth (_buffer t)))
    as [Hroom|Hfull].
  - destruct (_WriteBuffer_attempt_room s i t Hok Hcur Hi Hlen Hroom)
      as (a & -> & Hn & Hadv & Hidx & HpY & HpX & Hok' & Hsize & Hoff & Hsnap).
    cbn [obind].
    destruct (_AdjustCursorPosition_write_path (written a) (proposedCursorPosition a))
      as (t' & -> & Hok'' & Hcur' & HX' & Hsize' & Hoff' & Hsnap'); trivial.
    { unfold bufWidth in *. rewrite Hsize. lia. }
    { unfold bufHeight. rewrite Hsize, HpY. lia. }
    cbn [obind]. exists (index a), t'. split; [reflexivity|].
    split; [exact Hok''|]. split; [exact Hcur'|].
    do 3 (split; [congruence|]).
    left. rewrite Hidx.
    replace (i + inputDistance a - 1 + 1) with (i + inputDistance a) by lia.
    rewrite to_size_t_id by lia. lia.
  - destruct (_WriteBuffer_attempt_full s i t Hok Hcur Hi Hfull)
      as (a & -> & Hn & Hidx & Hp & _ & Hok' & Hsize & Hoff & Hsnap).
    cbn [obind].
    assert (HWH : 1 <= bufWidth (_buffer t) /\
                  0 <= Y (GetPosition (_buffer t)) < bufHeight (_buffer t)).
    { destruct Hok as ((HW & _) & _). destruct Hcur as [_ HY]. lia. }
    destruct (_AdjustCursorPosition_write_path (written a) (proposedCursorPosition a))
      as (t' & -> & Hok'' & Hcur' & HX' & Hsize' & Hoff' & Hsnap'); trivial.
    { unfold bufWidth in *. rewrite Hsize, Hp. simpl. lia. }
    { unfold bufHeight in *. rewrite Hsize, Hp. simpl. lia. }
    cbn [obind]. exists (index a), t'. split; [reflexivity|].
    split; [exact Hok''|]. split; [exact Hcur'|].
    do 3 (split; [congruence|]).
    right. rewrite Hidx, HX', Hp. simpl.
    rewrite to_size_t_retry by lia.
    unfold bufWidth in *. repeat split; lia.
Qed.

(** ** Termination of the write loop *)

Lemma _WriteBuffer_loop_returns (fuel : nat) :
  forall (s : list wchar) (i : Z) (t : Terminal),
    Terminal_ok t -> cursor_within (_buffer t) ->
    Z.of_nat (length s) < SIZE_MOD -> 0 <= i <= Z.of_nat (length s) ->
    passes_left s i t <= Z.of_nat fuel ->
    exists t',
      _WriteBuffer_loop fuel s i t = Some (Returns t') /\
      Terminal_ok t' /\ cursor_within (_buffer t') /\
      bufferSize (_buffer t') = bufferSize (_buffer t) /\
      _scrollOffset t' = _scrollOffset t /\
      _snapOnInput t' = _snapOnInput t.
Proof.
  induction fuel as [|fuel IH]; intros s i t Hok Hcur Hlen Hi Hfuel.
  - assert (Hend : i = Z.of_nat (length s)).
    { unfold passes_left in Hfuel.
      destruct (X (GetPosition (_buffer t)) <? bufWidth (_buffer t)); lia. }
    simpl. destruct (Z.ltb_spec i (Z.of_nat (length s))); [lia|].
    exists t. split; [reflexivity|]. split; [exact Hok|].
      split; [exact Hcur|]. auto.
  - cbn [_WriteBuffer_loop].
    destruct (Z.ltb_spec i (Z.of_nat (length s))) as [Hlt|Hge].
    + destruct (_WriteBuffer_iteration_spec s i t Hok Hcur) as
        (i' & t1 & -> & Hok1 & Hcur1 & Hsize1 & Hoff1 & Hsnap1 & Hcase);
        [lia | assumption |].
      destruct (IH s (to_size_t (i' + 1)) t1) as
        (t' & Hrun & Hok' & Hcur' & Hsize' & Hoff' & Hsnap'); trivial.
      * destruct Hcase as [(_ & Hadv) | (_ & Hsame & _)]; lia.
      * unfold passes_left, bufWidth in *. rewrite Hsize1.
        destruct Hcase as [(Hroom & Hadv) | (Hfull & Hsame & Hzero)].
        -- destruct (Z.ltb_spec (X (GetPosition (_buffer t)))
                       (X (bufferSize (_buffer t)))); [|lia].
           destruct (X (GetPosition (_buffer t1)) <? X (bufferSize (_buffer t))); lia.
        -- destruct (Z.ltb_spec (X (GetPosition (_buffer t)))
                       (X (bufferSize (_buffer t)))); [lia|].
           rewrite Hsame, Hzero.
           destruct Hok as ((HW & _) & _). unfold bufWidth in HW.
           destruct (Z.ltb_spec 0 (X (bufferSize (_buffer t)))); lia.
      * exists t'. split; [exact Hrun|]. split; [exact Hok'|].
        split; [exact Hcur'|]. repeat split; congruence.
    + exists t. split; [reflexivity|]. split; [exact Hok|].
      split; [exact Hcur|]. auto.
Qed.

Lemma _WriteBuffer_returns (fuel : nat) (s : list wchar) (t : Terminal) :
  Terminal_ok t -> cursor_within (_buffer t) ->
  Z.of_nat (length s) < SIZE_MOD ->
  (2 * length s + 1 <= fuel)%nat ->
  exists t',
    _WriteBuffer fuel s t = Some (Returns t') /\
    Terminal_ok t' /\ cursor_within (_buffer t') /\
    bufferSize (_buffer t') = bufferSize (_buffer t) /\
    _scrollOffset t' = _scrollOffset t /\
    _snapOnInput t' = _snapOnInput t.
Proof.
  intros Hok Hcur Hlen Hfuel. unfold _WriteBuffer.
  destruct (_WriteBuffer_loop_returns fuel s 0
              (set_buffer t (StartDeferDrawing (_buffer t)))) as
    (t1 & -> & Hok1 & Hcur1 & Hsize1 & Hoff1 & Hsnap1); trivial; try lia.
  { unfold passes_left.
    destruct (_ <? _); lia. }
  eexists. split; [reflexivity|]. split; [exact Hok1|].
  split; [exact Hcur1|]. auto.
Qed.

(** ** The terminal as [Create] leaves it *)

Lemma Create_ok (viewportSize : COORD) (scrollbackLines : Z) :
  1 <= X viewportSize <= SHRT_MAX -> 1 <= Y viewportSize ->
  Terminal_ok (Create viewportSize scrollbackLines) /\
  cursor_within (_buffer (Create viewportSize scrollbackLines)).
Proof.
  intros HX HY.
  unfold Terminal_ok, buffer_ok, cursor_within, Create, bufWidth, bufHeight,
    ClampToShortMax, SHRT_MAX in *.
  simpl. rewrite length_replicate. repeat split; lia.
Qed.

(** ** What the write path records *)

Lemma continues_unlocked_refl (t t' : Terminal) :
  trace t' = trace t -> continues_unlocked t t'.
Proof. intros E. exists []. rewrite app_nil_r. split; [exact E | constructor]. Qed.

Lemma continues_unlocked_trans (t1 t2 t3 : Terminal) :
  continues_unlocked t1 t2 -> continues_unlocked t2 t3 -> continues_unlocked t1 t3.
Proof.
  intros (es1 & E1 & F1) (es2 & E2 & F2). exists (es1 ++ es2).
  rewrite E2, E1, app_assoc. split; [reflexivity|]. now apply Forall_app.
Qed.

Lemma continues_unlocked_emit (t : Terminal) (e : Event) :
  lock_event e = false -> continues_unlocked t (emit t e).
Proof. intros He. exists [e]. split; [reflexivity|]. now repeat constructor. Qed.

Lemma _NotifyScrollEvent_unlocked (t t' : Terminal) :
  _NotifyScrollEvent t = Returns t' -> continues_unlocked t t'.
Proof.
  unfold _NotifyScrollEvent.
  destruct (_pfnScrollPositionChanged t).
  - destruct (_GetVisibleViewport t) as [visible|]; cbn [obind]; [|discriminate].
    intros [= <-]. now apply continues_unlocked_emit.
  - intros [= <-]. now apply continues_unlocked_refl.
Qed.

Lemma cycle_rows_unlocked (n : nat) :
  forall (t : Terminal) (p : COORD), continues_unlocked t (cycle_rows n t p).1.
Proof.
  induction n as [|n IH]; intros t p; cbn [cycle_rows].
  - now apply continues_unlocked_refl.
  - eapply continues_unlocked_trans; [|apply IH].
    exists [IncrementCircularBuffer_called]. split; [reflexivity|].
    now repeat constructor.
Qed.

Lemma _AdjustCursorPosition_unlocked (t : Terminal) (p : COORD) (t' : Terminal) :
  _AdjustCursorPosition t p = Returns t' -> continues_unlocked t t'.
Proof.
  unfold _AdjustCursorPosition.
  set (phase := if 0 <? Y p - bufHeight (_buffer t) + 1 then _ else _).
  assert (Hphase : continues_unlocked t phase.1.1).
  { subst phase. destruct (0 <? Y p - bufHeight (_buffer t) + 1).
    - pose proof (cycle_rows_unlocked
                    (Z.to_nat (Y p - bufHeight (_buffer t) + 1)) t p) as Hc.
      destruct (cycle_rows _ t p) as [t1 p1]. exact Hc.
    - now apply continues_unlocked_refl. }
  destruct phase as [[t1 p1] scrolled]. cbn [fst] in Hphase.
  set (t2 := set_buffer t1 (SetPosition (_buffer t1) p1)).
  assert (H2 : continues_unlocked t t2).
  { eapply continues_unlocked_trans; [exact Hphase|].
    now apply continues_unlocked_refl. }
  clearbody t2.
  destruct (Viewport.BottomInclusive (_mutableViewport t2)
            <? Y (GetPosition (_buffer t2))).
  - destruct (_ =? _); cbn [obind].
    + destruct scrolled; [|intros [= <-]; exact H2].
      intros Hn. apply _NotifyScrollEvent_unlocked in Hn.
      eapply continues_unlocked_trans; [exact H2|].
      eapply continues_unlocked_trans; [|exact Hn].
      now apply continues_unlocked_emit.
    + destruct (narrow_short _) as [top|]; cbn [obind]; [|discriminate].
      intros Hn. apply _NotifyScrollEvent_unlocked in Hn.
      eapply continues_unlocked_trans; [exact H2|].
      eapply continues_unlocked_trans; [|exact Hn].
      exists [TriggerRedrawAll]. split; [reflexivity|]. now repeat constructor.
  - cbn [obind]. destruct scrolled; [|intros [= <-]; exact H2].
    intros Hn. apply _NotifyScrollEvent_unlocked in Hn.
    eapply continues_unlocked_trans; [exact H2|].
    eapply continues_unlocked_trans; [|exact Hn].
    now apply continues_unlocked_emit.
Qed.

Lemma _WriteBuffer_attempt_trace (s : list wchar) (i : Z) (t : Terminal)
    (a : Attempt) :
  _WriteBuffer_attempt s i t = Returns a -> trace (written a) = trace t.
Proof.
  unfold _WriteBuffer_attempt.
  destruct (s !! Z.to_nat i) as [wch|]; [|discriminate].
  destruct (TextBuffer_Write _ _) as [[b c] n].
  destruct (0 <? n).
  - destruct (narrow_short c); cbn [obind]; [|discriminate].
    now intros [= <-].
  - now intros [= <-].
Qed.

Lemma _WriteBuffer_iteration_unlocked (s : list wchar) (i i' : Z)
    (t t' : Terminal) :
  _WriteBuffer_iteration s i t = Returns (i', t') -> continues_unlocked t t'.
Proof.
  unfold _WriteBuffer_iteration.
  destruct (_WriteBuffer_attempt s i t) as [a|] eqn:Ha; cbn [obind]; [|discriminate].
  destruct (_AdjustCursorPosition _ _) as [t1|] eqn:Hadj; cbn [obind];
    [|discriminate].
  intros [= _ <-].
  eapply continues_unlocked_trans;
    [|exact (_AdjustCursorPosition_unlocked _ _ _ Hadj)].
  apply continues_unlocked_refl. exact (_WriteBuffer_attempt_trace _ _ _ _ Ha).
Qed.

Lemma _WriteBuffer_loop_unlocked (fuel : nat) :
  forall (s : list wchar) (i : Z) (t t' : Terminal),
    _WriteBuffer_loop fuel s i t = Some (Returns t') -> continues_unlocked t t'.
Proof.
  induction fuel as [|fuel IH]; intros s i t t' Hrun;
    cbn [_WriteBuffer_loop] in Hrun;
    destruct (i <? Z.of_nat (length s)); try discriminate;
    try (injection Hrun as <-; now apply continues_unlocked_refl).
  destruct (_WriteBuffer_iteration s i t) as [[i' t1]|] eqn:Hit; [|discriminate].
  eapply continues_unlocked_trans;
    [exact (_WriteBuffer_iteration_unlocked _ _ _ _ _ Hit) | exact (IH _ _ _ _ Hrun)].
Qed.

(** The more fuel, the same result. *)
Lemma _WriteBuffer_loop_fuel (fuel : nat) :
  forall (s : list wchar) (i : Z) (t : Terminal) (r : outcome Terminal),
    _WriteBuffer_loop fuel s i t = Some r ->
    _WriteBuffer_loop (S fuel) s i t = Some r.
Proof.
  induction fuel as [|fuel IH]; intros s i t r Hrun.
  - cbn [_WriteBuffer_loop] in *.
    destruct (i <? Z.of_nat (length s)); [discriminate | exact Hrun].
  - remember (S fuel) as f eqn:Hf. cbn [_WriteBuffer_loop].
    subst f. cbn [_WriteBuffer_loop] in Hrun.
    destruct (i <? Z.of_nat (length s)); [|exact Hrun].
    destruct (_WriteBuffer_iteration s i t) as [[i' t1]|]; [|exact Hrun].
    exact (IH _ _ _ _ Hrun).
Qed.

Lemma Write_brackets_with_lock (fuel : nat) (s : list wchar) (t t' : Terminal) :
  Write fuel s t = Some (Returns t') ->
  exists es,
    trace t' = trace t ++ [LockForWriting_acquired] ++ es ++ [Lock_released] /\
    Forall (fun e => lock_event e = false) es.
Proof.
  unfold Write, ProcessString, _WriteBuffer. intros Hrun.
  destruct (_WriteBuffer_loop fuel s 0 _) as [[t1|]|] eqn:Hloop; try discriminate.
  injection Hrun as <-.
  destruct (_WriteBuffer_loop_unlocked _ _ _ _ _ Hloop) as (es & Hes & Hfree).
  exists es. split; [|exact Hfree]. cbn in *. rewrite Hes.
  now rewrite <- !app_assoc.
Qed.

(** ** Scrolling keeps the terminal well formed *)

Lemma UserScrollViewport_ok (t : Terminal) (viewTop : Z) :
  Terminal_ok t ->
  Terminal_ok (UserScrollViewport t viewTop) /\
  0 <= _scrollOffset (UserScrollViewport t viewTop)
    <= Viewport.Top (_mutableViewport t).
Proof.
  intros (Hb & Hh & Htop & Hoff).
  unfold Terminal_ok, UserScrollViewport, ViewStartIndex. cbn.
  split; [split; [exact Hb|]|]; repeat split; trivial; lia.
Qed.

(** ** C1: the retry of a unit that found its row full *)



(** ** C2: cursor adjustment *)

(** C2. [_AdjustCursorPosition], handed a proposed position, evicts one row
    of the ring for each row by which the position lies past the last row
    of the buffer, taking one off the proposed row each time, and sets the
    cursor there.  When the cursor's row is then below the bottom of the
    mutable viewport, the viewport moves down until its bottom row is the
    cursor's row, keeping its size; otherwise it stays.  A redraw of
    everything is requested and the scroll position is notified when a row
    was evicted or the viewport moved, and only then; the notification is
    one call of the scroll callback, made if one is registered. *)
Theorem C2_adjust_cursor_position (t : Terminal) (p : COORD) :
  Terminal_ok t -> is_short (Y p) ->
  let n := overflowing_rows t p in
  let row := Y p - n in
  let vp := _mutableViewport t in
  let moved := Viewport.BottomInclusive vp <? row in
  exists t',
    _AdjustCursorPosition t p = Returns t' /\
    _buffer t' =
      SetPosition (Nat.iter (Z.to_nat n) IncrementCircularBuffer (_buffer t))
                  (mkCOORD (X p) row) /\
    GetPosition (_buffer t') = mkCOORD (X p) row /\
    (moved = true ->
       Viewport.BottomInclusive (_mutableViewport t') = row /\
       Viewport.Dimensions (_mutableViewport t') = Viewport.Dimensions vp /\
       Viewport.Top vp < Viewport.Top (_mutableViewport t')) /\
    (moved = false -> _mutableViewport t' = vp) /\
    trace t' =
      trace t ++ replicate (Z.to_nat n) IncrementCircularBuffer_called
              ++ (if (0 <? n) || moved
                  then TriggerRedrawAll :: scroll_notification t' else []) /\
    (_pfnScrollPositionChanged t = true ->
     scroll_notification t' =
       [ScrollPositionChanged (_VisibleStartIndex t')
          (Viewport.Height vp) (GetBufferHeight t')]).
Proof.
  intros Hok Hp. cbv zeta.
  destruct (_AdjustCursorPosition_returns t p Hok Hp)
    as (t' & Hret & Hbuf & Hvp & Htrace & _ & _ & _ & Hpfn).
  exists t'. split; [exact Hret|]. split; [exact Hbuf|].
  split; [rewrite Hbuf; reflexivity|].
  split; [|split; [|split; [exact Htrace|]]].
  - intros Hmoved. rewrite Hmoved in Hvp. rewrite Hvp.
    apply Z.ltb_lt in Hmoved.
    unfold Viewport.BottomInclusive, Viewport.Dimensions in *. simpl.
    repeat split; lia.
  - intros Hstays. rewrite Hstays in Hvp. exact Hvp.
  - intros Hset. unfold scroll_notification. rewrite Hpfn, Hset, Hvp.
    now destruct (_ <? _).
Qed.

Lemma C2_adjust_cursor_position_witness :
  let t := SetScrollPositionChangedCallback (Create (mkCOORD 2 2) 1) true in
  Terminal_ok t /\ is_short 3 /\
  exists t', _AdjustCursorPosition t (mkCOORD 0 3) = Returns t'.
Proof.
  cbv zeta.
  assert (Hok : Terminal_ok
                  (SetScrollPositionChangedCallback (Create (mkCOORD 2 2) 1) true)).
  { apply (Create_ok (mkCOORD 2 2) 1); vm_compute; intuition discriminate. }
  assert (Hp : is_short 3) by (vm_compute; intuition discriminate).
  split; [exact Hok|]. split; [exact Hp|].
  destruct (C2_adjust_cursor_position _ (mkCOORD 0 3) Hok Hp) as (t' & Hret & _).
  exists t'. exact Hret.
Defined.

(** ** C3: where the cursor can be *)

(** The runs of the loop, and so the calls of [_WriteBuffer], stay within
    [written_from]. *)
Lemma _WriteBuffer_loop_written_from (t0 : Terminal) (fuel : nat) :
  forall (s : list wchar) (i : Z) (t t' : Terminal),
    Z.of_nat (length s) < SIZE_MOD -> 0 <= i ->
    written_from t0 t ->
    _WriteBuffer_loop fuel s i t = Some (Returns t') ->
    written_from t0 t'.
Proof.
  induction fuel as [|fuel IH]; intros s i t t' Hlen Hi Hfrom Hrun;
    cbn [_WriteBuffer_loop] in Hrun;
    destruct (Z.ltb_spec i (Z.of_nat (length s))) as [Hlt|Hge];
    try discriminate; try (injection Hrun as <-; exact Hfrom).
  destruct (_WriteBuffer_iteration s i t) as [[i' t1]|] eqn:Hit; [|discriminate].
  apply (IH s (to_size_t (i' + 1)) t1 t'); trivial.
  - unfold to_size_t, SIZE_MOD. apply Z.mod_pos_bound. reflexivity.
  - apply (written_pass t0 t s i i' t1); trivial. lia.
Qed.

Lemma _WriteBuffer_written_from (t0 : Terminal) (fuel : nat) (s : list wchar)
    (t t' : Terminal) :
  Z.of_nat (length s) < SIZE_MOD ->
  written_from t0 t ->
  _WriteBuffer fuel s t = Some (Returns t') ->
  written_from t0 t'.
Proof.
  intros Hlen Hfrom Hrun. unfold _WriteBuffer in Hrun.
  destruct (_WriteBuffer_loop fuel s 0 _) as [[t1|]|] eqn:Hloop; try discriminate.
  injection Hrun as <-. apply written_leave.
  apply (_WriteBuffer_loop_written_from t0 fuel s 0 _ t1 Hlen ltac:(lia)
           (written_enter t0 t Hfrom) Hloop).
Qed.

(** C3 (amended). Through every series of [_WriteBuffer] calls, whenever
    [_AdjustCursorPosition] has returned, the cursor's row lies in
    [[0, bufferHeight)] and its column in [[0, width]]: the column equals
    the width when the last column of the row has just been written.  The
    dimensions of the buffer do not change on the way. *)
Theorem C3_cursor_stays_within (t0 t : Terminal) :
  Terminal_ok t0 -> cursor_within (_buffer t0) ->
  written_from t0 t ->
  bufferSize (_buffer t) = bufferSize (_buffer t0) /\
  0 <= X (GetPosition (_buffer t)) <= bufWidth (_buffer t0) /\
  0 <= Y (GetPosition (_buffer t)) < bufHeight (_buffer t0).
Proof.
  intros Hok0 Hcur0 Hfrom.
  assert (Hinv : Terminal_ok t /\ cursor_within (_buffer t) /\
                 bufferSize (_buffer t) = bufferSize (_buffer t0)).
  { induction Hfrom as [|t _ IH|t s i i' t' _ IH Hi Hlen Hit|t _ IH].
    - auto.
    - exact IH.
    - destruct IH as (Hok & Hcur & Hsize).
      destruct (_WriteBuffer_iteration_spec s i t Hok Hcur Hi Hlen)
        as (i1 & t1 & Hit1 & Hok1 & Hcur1 & Hsize1 & _).
      rewrite Hit in Hit1. injection Hit1 as <- <-.
      split; [exact Hok1|]. split; [exact Hcur1|]. congruence.
    - exact IH. }
  destruct Hinv as (_ & Hcur & Hsize).
  unfold cursor_within, bufWidth, bufHeight in *. rewrite Hsize in Hcur.
  split; [exact Hsize | exact Hcur].
Qed.

Lemma C3_cursor_stays_within_witness :
  let t0 := Create (mkCOORD 2 2) 0 in
  Terminal_ok t0 /\ cursor_within (_buffer t0) /\
  exists t, written_from t0 t /\
            0 <= X (GetPosition (_buffer t)) <= bufWidth (_buffer t0) /\
            0 <= Y (GetPosition (_buffer t)) < bufHeight (_buffer t0).
Proof.
  cbv zeta.
  destruct (Create_ok (mkCOORD 2 2) 0) as [Hok Hcur];
    [vm_compute; intuition discriminate | vm_compute; discriminate |].
  split; [exact Hok|]. split; [exact Hcur|].
  destruct (_WriteBuffer_iteration [97; 98] 0 (Create (mkCOORD 2 2) 0))
    as [[i' t]|] eqn:Hit; [|discriminate Hit].
  exists t.
  assert (Hfrom : written_from (Create (mkCOORD 2 2) 0) t).
  { apply (written_pass _ _ [97; 98] 0 i' t (written_start _)); trivial.
    - vm_compute. intuition discriminate.
    - reflexivity. }
  split; [exact Hfrom|].
  apply (C3_cursor_stays_within _ t Hok Hcur Hfrom).
Defined.

(** C3 as first stated, with the column below the width, fails: two
    characters written to a fresh terminal two columns wide leave the cursor
    in column 2. *)
Lemma C3_column_reaches_width :
  GetPosition (_buffer (Create (mkCOORD 2 2) 0)) = mkCOORD 0 0 /\
  exists t,
    _WriteBuffer 2 [97; 98] (Create (mkCOORD 2 2) 0) = Some (Returns t) /\
    bufWidth (_buffer t) = 2 /\
    X (GetPosition (_buffer t)) = 2 /\
    (X (GetPosition (_buffer t)) <? bufWidth (_buffer t)) = false.
Proof.
  split; [reflexivity|]. eexists. split; [vm_compute; reflexivity|].
  repeat split.
Qed.

(** ** C4: surrogate pairs *)

Lemma substr_pair (s : list wchar) (i : Z) (h l : wchar) :
  0 <= i ->
  s !! Z.to_nat i = Some h -> s !! Z.to_nat (i + 1) = Some l ->
  substr s i 2 = [h; l].
Proof.
  intros Hi Hh Hl. unfold substr.
  replace (Z.to_nat (i + 1)) with (S (Z.to_nat i)) in Hl by lia.
  rewrite (drop_S s h (Z.to_nat i) Hh), (drop_S s l (S (Z.to_nat i)) Hl).
  reflexivity.
Qed.

Lemma substr_single (s : list wchar) (i : Z) (c : wchar) :
  s !! Z.to_nat i = Some c -> substr s i 1 = [c].
Proof.
  intros Hc. unfold substr. rewrite (drop_S s c (Z.to_nat i) Hc). reflexivity.
Qed.

(** A pass that begins at a high surrogate followed by a low one. *)
Lemma _WriteBuffer_attempt_pair (s : list wchar) (i : Z) (t : Terminal)
    (h l : wchar) :
  0 <= i -> Z.of_nat (length s) < SIZE_MOD ->
  s !! Z.to_nat i = Some h -> s !! Z.to_nat (i + 1) = Some l ->
  is_high_surrogate h = true -> is_low_surrogate l = true ->
  exists a,
    _WriteBuffer_attempt s i t = Returns a /\
    view a = [h; l] /\
    (inputDistance a = 2 /\ to_size_t (index a + 1) = i + 2 \/
     inputDistance a = 0 /\ to_size_t (index a + 1) = i).
Proof.
  intros Hi Hlen Hh Hl Hhigh Hlow.
  assert (Hin : i + 1 < Z.of_nat (length s)).
  { apply lookup_lt_Some in Hl. lia. }
  unfold _WriteBuffer_attempt. rewrite Hh.
  assert (Hsur : (55296 <=? h) && (h <=? 57343) = true).
  { unfold is_high_surrogate in Hhigh.
    apply andb_true_iff in Hhigh as [H1 H2].
    apply Z.leb_le in H1, H2. apply andb_true_iff.
    split; apply Z.leb_le; lia. }
  rewrite Hsur, (substr_pair s i h l Hi Hh Hl).
  pose proof (TextBuffer_Write_pair (_buffer t) h l Hhigh Hlow) as Hn.
  pose proof (TextBuffer_Write_bounds (_buffer t) [h; l]) as Hb.
  destruct (TextBuffer_Write (_buffer t) [h; l]) as [[b c] n].
  cbv zeta in Hn. simpl in Hn, Hb.
  destruct Hn as [-> | ->]; cbn [Z.ltb Z.compare].
  - eexists. split; [reflexivity|]. cbn. split; [reflexivity|].
    right. split; [reflexivity|]. apply to_size_t_retry. lia.
  - rewrite narrow_short_fits
      by (unfold is_short, SHRT_MIN, SHRT_MAX; lia).
    cbn [obind]. eexists. split; [reflexivity|]. cbn. split; [reflexivity|].
    left. split; [reflexivity|].
    replace (i + (2 - 1)) with (i + 1) by lia.
    rewrite (to_size_t_id (i + 1)) by lia.
    replace (i + 1 + 1) with (i + 2) by lia.
    apply to_size_t_id. lia.
Qed.

(** A pass that begins at a code unit that is no surrogate. *)
Lemma _WriteBuffer_attempt_single (s : list wchar) (i : Z) (t : Terminal)
    (c : wchar) :
  0 <= i -> Z.of_nat (length s) < SIZE_MOD ->
  s !! Z.to_nat i = Some c -> is_surrogate c = false ->
  exists a,
    _WriteBuffer_attempt s i t = Returns a /\
    view a = [c] /\
    (inputDistance a = 1 /\ to_size_t (index a + 1) = i + 1 \/
     inputDistance a = 0 /\ to_size_t (index a + 1) = i).
Proof.
  intros Hi Hlen Hc Hsur.
  assert (Hin : i < Z.of_nat (length s)).
  { apply lookup_lt_Some in Hc. lia. }
  unfold _WriteBuffer_attempt. rewrite Hc.
  unfold is_surrogate in Hsur. rewrite Hsur, (substr_single s i c Hc).
  pose proof (TextBuffer_Write_bounds (_buffer t) [c]) as Hb.
  destruct (TextBuffer_Write (_buffer t) [c]) as [[b k] n]. simpl in Hb.
  destruct (Z.ltb_spec 0 n).
  - assert (n = 1) as -> by lia.
    rewrite narrow_short_fits
      by (unfold is_short, SHRT_MIN, SHRT_MAX; lia).
    cbn [obind]. eexists. split; [reflexivity|]. cbn. split; [reflexivity|].
    left. split; [reflexivity|].
    replace (i + (1 - 1) + 1) with (i + 1) by lia.
    replace (i + (1 - 1)) with i by lia.
    rewrite (to_size_t_id i) by lia. apply to_size_t_id. lia.
  - assert (n = 0) as -> by lia.
    eexists. split; [reflexivity|]. cbn. split; [reflexivity|].
    right. split; [reflexivity|]. apply to_size_t_retry. lia.
Qed.

Lemma _WriteBuffer_iteration_index (s : list wchar) (i i' : Z) (t t' : Terminal) :
  _WriteBuffer_iteration s i t = Returns (i', t') ->
  exists a, _WriteBuffer_attempt s i t = Returns a /\ i' = index a.
Proof.
  unfold _WriteBuffer_iteration.
  destruct (_WriteBuffer_attempt s i t) as [a|]; cbn [obind]; [|discriminate].
  destruct (_AdjustCursorPosition _ _); cbn [obind]; [|discriminate].
  intros [= <- _]. now exists a.
Qed.

Lemma well_formed_utf16_cons (c : wchar) (rest : list wchar) :
  well_formed_utf16 (c :: rest) ->
  (is_surrogate c = false /\ well_formed_utf16 rest) \/
  (exists l rest',
     rest = l :: rest' /\ is_high_surrogate c = true /\
     is_low_surrogate l = true /\ well_formed_utf16 rest').
Proof.
  inversion 1; subst; [left; now split | right; eauto 6].
Qed.

(** On well-formed input every pass begins where a character unit begins. *)
Lemma loop_reaches_unit_start (s : list wchar) (t0 : Terminal) (i : Z)
    (t : Terminal) :
  well_formed_utf16 s -> Z.of_nat (length s) < SIZE_MOD ->
  loop_reaches s t0 i t ->
  0 <= i <= Z.of_nat (length s) /\ well_formed_utf16 (drop (Z.to_nat i) s).
Proof.
  intros Hwf Hlen Hreach.
  induction Hreach as [|i t i' t' _ [Hi IH] Hlt Hit].
  - split; [lia | exact Hwf].
  - destruct (_WriteBuffer_iteration_index _ _ _ _ _ Hit) as (a & Ha & ->).
    destruct (lookup_lt_is_Some_2 s (Z.to_nat i)) as [c Hc]; [lia|].
    rewrite (drop_S s c (Z.to_nat i) Hc) in IH.
    destruct (well_formed_utf16_cons _ _ IH)
      as [(Hsur & Hrest) | (l & rest & Heq & Hhigh & Hlow & Hrest)].
    + destruct (_WriteBuffer_attempt_single s i t c) as (a' & Ha' & _ & Hcase);
        trivial; [lia|].
      rewrite Ha in Ha'. injection Ha' as <-.
      destruct Hcase as [(_ & ->) | (_ & ->)].
      * split; [lia|]. replace (Z.to_nat (i + 1)) with (S (Z.to_nat i)) by lia.
        exact Hrest.
      * split; [lia|]. rewrite (drop_S s c (Z.to_nat i) Hc).
        now apply wf_single.
    + assert (Hl : s !! Z.to_nat (i + 1) = Some l).
      { replace (Z.to_nat (i + 1)) with (S (Z.to_nat i)) by lia.
        rewrite <- (Nat.add_0_r (S (Z.to_nat i))), <- lookup_drop, Heq.
        reflexivity. }
      destruct (_WriteBuffer_attempt_pair s i t c l) as (a' & Ha' & _ & Hcase);
        trivial; [lia|].
      rewrite Ha in Ha'. injection Ha' as <-.
      apply lookup_lt_Some in Hl.
      destruct Hcase as [(_ & ->) | (_ & ->)].
      * split; [lia|].
        replace (Z.to_nat (i + 2)) with (S (Z.to_nat i) + 1)%nat by lia.
        rewrite <- drop_drop, Heq. exact Hrest.
      * split; [lia|]. rewrite (drop_S s c (Z.to_nat i) Hc), Heq.
        now apply wf_pair.
Qed.

(** C4 (amended). On well-formed UTF-16 input, where every surrogate is
    half of a pair, high then low, a pass of the loop of [_WriteBuffer]
    that comes upon a surrogate finds the high surrogate of a pair: the
    view handed to the buffer holds both code units of the pair, the buffer
    consumes both or neither, and the pass moves the index on by 2 or by
    0, never by 1.  So no pass begins at the low surrogate of a pair, and
    no pair is divided between two writes. *)
Theorem C4_surrogate_pair_atomic (s : list wchar) (t0 : Terminal) (i : Z)
    (t : Terminal) (c : wchar) :
  well_formed_utf16 s -> Z.of_nat (length s) < SIZE_MOD ->
  loop_reaches s t0 i t ->
  s !! Z.to_nat i = Some c -> is_surrogate c = true ->
  exists l a,
    is_high_surrogate c = true /\
    s !! Z.to_nat (i + 1) = Some l /\ is_low_surrogate l = true /\
    _WriteBuffer_attempt s i t = Returns a /\
    view a = [c; l] /\
    (inputDistance a = 2 /\ to_size_t (index a + 1) = i + 2 \/
     inputDistance a = 0 /\ to_size_t (index a + 1) = i) /\
    (forall (i' : Z) (t' : Terminal),
       _WriteBuffer_iteration s i t = Returns (i', t') ->
       to_size_t (i' + 1) = i + 2 \/ to_size_t (i' + 1) = i).
Proof.
  intros Hwf Hlen Hreach Hc Hsur.
  destruct (loop_reaches_unit_start s t0 i t Hwf Hlen Hreach) as [Hi Hdrop].
  rewrite (drop_S s c (Z.to_nat i) Hc) in Hdrop.
  destruct (well_formed_utf16_cons _ _ Hdrop)
    as [(Hno & _) | (l & rest & Heq & Hhigh & Hlow & _)]; [congruence|].
  assert (Hl : s !! Z.to_nat (i + 1) = Some l).
  { replace (Z.to_nat (i + 1)) with (S (Z.to_nat i)) by lia.
    rewrite <- (Nat.add_0_r (S (Z.to_nat i))), <- lookup_drop, Heq.
    reflexivity. }
  destruct (_WriteBuffer_attempt_pair s i t c l (proj1 Hi) Hlen Hc Hl Hhigh Hlow)
    as (a & Ha & Hview & Hcase).
  exists l, a. do 6 (split; [assumption|]).
  intros i' t' Hit.
  destruct (_WriteBuffer_iteration_index _ _ _ _ _ Hit) as (a' & Ha' & ->).
  rewrite Ha in Ha'. injection Ha' as <-. tauto.
Qed.

Lemma C4_surrogate_pair_atomic_witness :
  let s := [97; 0xD83D; 0xDE00; 98] in
  let t0 := Create (mkCOORD 2 2) 1 in
  well_formed_utf16 s /\ Z.of_nat (length s) < SIZE_MOD /\
  exists t,
    loop_reaches s t0 1 t /\
    s !! Z.to_nat 1 = Some 0xD83D /\ is_surrogate 0xD83D = true /\
    exists a, _WriteBuffer_attempt s 1 t = Returns a /\ view a = [0xD83D; 0xDE00].
Proof.
  cbv zeta.
  assert (Hwf : well_formed_utf16 [97; 0xD83D; 0xDE00; 98]).
  { apply wf_single; [reflexivity|]. apply wf_pair; try reflexivity.
    apply wf_single; [reflexivity|]. apply wf_end. }
  assert (Hlen : Z.of_nat (length [97; 0xD83D; 0xDE00; 98]) < SIZE_MOD)
    by reflexivity.
  split; [exact Hwf|]. split; [exact Hlen|].
  destruct (_WriteBuffer_iteration [97; 0xD83D; 0xDE00; 98] 0
              (Create (mkCOORD 2 2) 1)) as [[i' t]|] eqn:Hit;
    [|discriminate Hit].
  assert (Hi' : to_size_t (i' + 1) = 1).
  { vm_compute in Hit. injection Hit as <- _. reflexivity. }
  exists t.
  assert (H0 : 0 < Z.of_nat (length [97; 0xD83D; 0xDE00; 98])) by reflexivity.
  pose proof (loop_pass _ _ 0 (Create (mkCOORD 2 2) 1) i' t (loop_start _ _)
                H0 Hit) as Hreach.
  rewrite Hi' in Hreach.
  assert (Hc : [97; 0xD83D; 0xDE00; 98] !! Z.to_nat 1 = Some 0xD83D)
    by reflexivity.
  assert (Hsur : is_surrogate 0xD83D = true) by reflexivity.
  split; [exact Hreach|]. split; [exact Hc|]. split; [exact Hsur|].
  destruct (C4_surrogate_pair_atomic _ _ 1 t 0xD83D Hwf Hlen Hreach Hc Hsur)
    as (l & a & _ & Hl & _ & Ha & Hview & _).
  exists a. split; [exact Ha|].
  vm_compute in Hl. injection Hl as <-. exact Hview.
Defined.

(** C4 as first stated fails on input that is not well formed.  The loop
    takes two code units after any surrogate, high or low: on a lone low
    surrogate followed by a pair, the first view holds the lone surrogate
    and the high surrogate of the pair, and the low surrogate of the pair
    is handed over in a write of its own, a pass that moves the index on
    by 1. *)
Lemma C4_pair_divided_after_lone_surrogate :
  is_high_surrogate 0xD83D = true /\ is_low_surrogate 0xDE00 = true /\
  exists a1 t1 a2,
    _WriteBuffer_attempt [0xDC00; 0xD83D; 0xDE00] 0 (Create (mkCOORD 4 2) 0)
      = Returns a1 /\
    view a1 = [0xDC00; 0xD83D] /\ inputDistance a1 = 2 /\
    _WriteBuffer_iteration [0xDC00; 0xD83D; 0xDE00] 0 (Create (mkCOORD 4 2) 0)
      = Returns (index a1, t1) /\
    to_size_t (index a1 + 1) = 2 /\
    _WriteBuffer_attempt [0xDC00; 0xD83D; 0xDE00] 2 t1 = Returns a2 /\
    view a2 = [0xDE00] /\ inputDistance a2 = 1 /\
    to_size_t (index a2 + 1) = 2 + 1.
Proof.
  split; [reflexivity|]. split; [reflexivity|].
  eexists _, _, _. split; [vm_compute; reflexivity|].
  split; [reflexivity|]. split; [reflexivity|].
  split; [vm_compute; reflexivity|]. split; [reflexivity|].
  split; [vm_compute; reflexivity|]. repeat split.
Qed.

(** ** C5: snapping back to the live rows *)

(** C5 (amended). [TrySnapOnInput], which [SendKeyEvent] calls first on
    every key event, sets the scroll offset to 0 when snap-on-input is on
    and the offset is not 0, and calls the scroll callback once if one is
    registered, all under the writer lock.  [Write] does not snap: it takes
    no part in this and returns with the scroll offset as it found it. *)
Theorem C5_snap_on_key_input (t : Terminal) :
  Terminal_ok t -> cursor_within (_buffer t) ->
  _snapOnInput t = true -> _scrollOffset t <> 0 ->
  (exists t',
     TrySnapOnInput t = Returns t' /\
     _scrollOffset t' = 0 /\
     trace t' =
       trace t ++ [LockForWriting_acquired] ++ scroll_notification t'
               ++ [Lock_released] /\
     (_pfnScrollPositionChanged t = true ->
      scroll_notification t' =
        [ScrollPositionChanged (ViewStartIndex t)
           (Viewport.Height (_mutableViewport t)) (GetBufferHeight t)])) /\
  (forall (fuel : nat) (s : list wchar),
     Z.of_nat (length s) < SIZE_MOD -> (2 * length s + 1 <= fuel)%nat ->
     exists t',
       Write fuel s t = Some (Returns t') /\
       _scrollOffset t' = _scrollOffset t).
Proof.
  intros Hok Hcur Hsnap Hoff. split.
  - unfold TrySnapOnInput. rewrite Hsnap.
    destruct (Z.eqb_spec (_scrollOffset t) 0) as [E|_]; [contradiction|].
    cbn [andb negb].
    destruct Hok as (_ & _ & Htop & _).
    rewrite _NotifyScrollEvent_spec
      by (unfold _VisibleStartIndex, ViewStartIndex; simpl; lia).
    cbn [obind]. eexists. split; [reflexivity|]. cbn.
    split; [reflexivity|]. split.
    + now rewrite <- !app_assoc.
    + intros Hpfn. unfold scroll_notification. cbn. rewrite Hpfn.
      unfold _VisibleStartIndex, ViewStartIndex, GetBufferHeight. cbn.
      rewrite Z.sub_0_r, Z.max_r by lia. reflexivity.
  - intros fuel s Hlen Hfuel. unfold Write, ProcessString.
    destruct (_WriteBuffer_returns fuel s (emit t LockForWriting_acquired)
                Hok Hcur Hlen Hfuel) as (t1 & -> & _ & _ & _ & Hoff1 & _).
    eexists. split; [reflexivity|]. exact Hoff1.
Qed.

Lemma scrolled_back_terminal_reached :
  exists t,
    _WriteBuffer 30 [97; 98; 99; 100; 101; 102; 103; 104; 105; 106; 107]
      (SetScrollPositionChangedCallback (Create (mkCOORD 2 2) 5) true)
    = Some (Returns t) /\
    UserScrollViewport t 1 = scrolled_back_terminal.
Proof. eexists. split; vm_compute; reflexivity. Qed.

Lemma C5_snap_on_key_input_witness :
  Terminal_ok scrolled_back_terminal /\
  cursor_within (_buffer scrolled_back_terminal) /\
  _snapOnInput scrolled_back_terminal = true /\
  _scrollOffset scrolled_back_terminal <> 0 /\
  exists t', TrySnapOnInput scrolled_back_terminal = Returns t' /\
             _scrollOffset t' = 0.
Proof.
  assert (Hok : Terminal_ok scrolled_back_terminal)
    by (vm_compute; intuition discriminate).
  assert (Hcur : cursor_within (_buffer scrolled_back_terminal))
    by (vm_compute; intuition discriminate).
  assert (Hsnap : _snapOnInput scrolled_back_terminal = true) by reflexivity.
  assert (Hoff : _scrollOffset scrolled_back_terminal <> 0) by discriminate.
  do 4 (split; [assumption|]).
  destruct (proj1 (C5_snap_on_key_input _ Hok Hcur Hsnap Hoff))
    as (t' & Hret & Hzero & _).
  exists t'. split; assumption.
Defined.

(** C5 as first stated fails for [Write]: with snap-on-input on and the
    view three rows back, a write leaves the offset at 3 and calls the
    scroll callback not at all. *)
Lemma C5_write_does_not_snap :
  _snapOnInput scrolled_back_terminal = true /\
  _pfnScrollPositionChanged scrolled_back_terminal = true /\
  _scrollOffset scrolled_back_terminal = 3 /\
  exists t',
    Write 3 [108] scrolled_back_terminal = Some (Returns t') /\
    _scrollOffset t' = 3 /\
    trace t' =
      trace scrolled_back_terminal ++ [LockForWriting_acquired; Lock_released].
Proof.
  do 3 (split; [reflexivity|]).
  eexists. split; [vm_compute; reflexivity|]. split; reflexivity.
Qed.

(** ** C6 and C7: resize *)

Lemma COORD_eqb_eq (a b : COORD) : COORD_eqb a b = true <-> a = b.
Proof.
  unfold COORD_eqb. rewrite andb_true_iff, !Z.eqb_eq.
  destruct a, b. simpl. split; [intros [-> ->]; reflexivity | now inversion 1].
Qed.

Lemma saturated_short_id (z : Z) : is_short z -> saturated_short z = z.
Proof. unfold is_short, saturated_short. lia. Qed.

Lemma saturated_short_le (z : Z) : saturated_short z <= SHRT_MAX.
Proof. unfold saturated_short, SHRT_MIN, SHRT_MAX. lia. Qed.

(** C6. Take a resize to a size other than the current one, and let
    [depth] be what [Reflow] left in [scrollbackLines] (a [SHORT] below
    [SHRT_MAX], as it counts rows of a buffer).  If the resize returns
    [S_OK], the mutable viewport has the width and height asked for and its
    top is [depth + 1], the buffer is the one [Reflow] filled, the scroll
    offset is 0 and the scroll callback, if one is registered, has been
    called once.  The resize does return [S_OK] when the allocation does not
    fail and [Reflow] does not report a failure. *)
Theorem C6_resize_success
    (Reflow : TextBuffer -> TextBuffer -> Viewport.t -> Z -> HRESULT * TextBuffer * Z)
    (allocation_fails : COORD -> bool) (t : Terminal) (viewportSize : COORD)
    (hr : HRESULT) (reflowed : TextBuffer) (depth : Z) :
  viewportSize <> Viewport.Dimensions (_mutableViewport t) ->
  Reflow (_buffer t)
         (make_TextBuffer (resized_bufferSize t viewportSize)
                          (currentAttributes (_buffer t)))
         (_mutableViewport t)
         (saturated_short (Viewport.Top (_mutableViewport t) - 1))
    = (hr, reflowed, depth) ->
  is_short depth -> depth < SHRT_MAX ->
  (forall t',
     UserResize Reflow allocation_fails t viewportSize = Returns (S_OK, t') ->
     Viewport.Width (_mutableViewport t') = X viewportSize /\
     Viewport.Height (_mutableViewport t') = Y viewportSize /\
     Viewport.Top (_mutableViewport t') = depth + 1 /\
     _buffer t' = reflowed /\
     _scrollOffset t' = 0 /\
     trace t' = trace t ++ scroll_notification t' /\
     (_pfnScrollPositionChanged t = true ->
      scroll_notification t' =
        [ScrollPositionChanged (Z.max 0 (depth + 1)) (Y viewportSize)
           (GetBufferHeight t')])) /\
  (allocation_fails (resized_bufferSize t viewportSize) = false ->
   FAILED hr = false ->
   exists t', UserResize Reflow allocation_fails t viewportSize = Returns (S_OK, t')).
Proof.
  intros Hsize Hreflow Hshort Hdepth.
  assert (Hneq : COORD_eqb viewportSize (Viewport.Dimensions (_mutableViewport t))
                 = false).
  { destruct (COORD_eqb _ _) eqn:E; trivial. apply COORD_eqb_eq in E. contradiction. }
  unfold UserResize. rewrite Hneq. fold (resized_bufferSize t viewportSize).
  rewrite Hreflow.
  assert (Hsat : saturated_short (depth + 1) = depth + 1).
  { apply saturated_short_id. unfold is_short, SHRT_MIN, SHRT_MAX in *. lia. }
  rewrite Hsat.
  rewrite _NotifyScrollEvent_spec
    by (unfold _VisibleStartIndex, ViewStartIndex, SHRT_MAX in *; simpl; lia).
  cbn [obind]. split.
  - intros t' Hret.
    destruct (allocation_fails (resized_bufferSize t viewportSize));
      [discriminate Hret|].
    unfold FAILED in Hret.
    destruct (Z.ltb_spec hr 0) as [Hneg|_].
    + injection Hret as Hhr _. unfold S_OK in Hhr. lia.
    + injection Hret as <-. cbn.
      do 6 (split; [reflexivity|]).
      intros Hpfn. unfold scroll_notification. cbn. rewrite Hpfn.
      unfold _VisibleStartIndex, ViewStartIndex. cbn.
      now rewrite Z.sub_0_r.
  - intros -> ->. eexists. reflexivity.
Qed.

Lemma C6_resize_success_witness :
  let t := Create (mkCOORD 2 2) 1 in
  mkCOORD 3 2 <> Viewport.Dimensions (_mutableViewport t) /\
  is_short 0 /\ 0 < SHRT_MAX /\
  exists t',
    UserResize blank_Reflow (fun _ => false) t (mkCOORD 3 2) = Returns (S_OK, t').
Proof.
  cbv zeta.
  assert (H1 : mkCOORD 3 2 <>
               Viewport.Dimensions (_mutableViewport (Create (mkCOORD 2 2) 1)))
    by discriminate.
  assert (H2 : is_short 0) by (vm_compute; intuition discriminate).
  assert (H3 : 0 < SHRT_MAX) by reflexivity.
  do 3 (split; [assumption|]).
  apply (proj2 (C6_resize_success blank_Reflow (fun _ => false)
                  (Create (mkCOORD 2 2) 1) (mkCOORD 3 2) S_OK _ 0
                  H1 eq_refl H2 H3)); reflexivity.
Defined.

(** C7. [UserResize] always returns.  It returns [S_FALSE] exactly when the
    size asked for is the current size of the viewport, and then the
    terminal is as it was.  When the allocation fails, or [Reflow] reports a
    failure, it returns that failure, a status that is neither [S_OK] nor
    [S_FALSE], and the terminal is as it was. *)
Theorem C7_resize_noop_and_failure
    (Reflow : TextBuffer -> TextBuffer -> Viewport.t -> Z -> HRESULT * TextBuffer * Z)
    (allocation_fails : COORD -> bool) (t : Terminal) (viewportSize : COORD) :
  exists hr t',
    UserResize Reflow allocation_fails t viewportSize = Returns (hr, t') /\
    (hr = S_FALSE <-> viewportSize = Viewport.Dimensions (_mutableViewport t)) /\
    (hr = S_FALSE -> t' = t) /\
    (viewportSize <> Viewport.Dimensions (_mutableViewport t) ->
     allocation_fails (resized_bufferSize t viewportSize) = true ->
     hr = E_OUTOFMEMORY /\ FAILED hr = true /\ t' = t) /\
    (viewportSize <> Viewport.Dimensions (_mutableViewport t) ->
     allocation_fails (resized_bufferSize t viewportSize) = false ->
     FAILED (Reflow (_buffer t)
               (make_TextBuffer (resized_bufferSize t viewportSize)
                                (currentAttributes (_buffer t)))
               (_mutableViewport t)
               (saturated_short (Viewport.Top (_mutableViewport t) - 1))).1.1
       = true ->
     hr = (Reflow (_buffer t)
             (make_TextBuffer (resized_bufferSize t viewportSize)
                              (currentAttributes (_buffer t)))
             (_mutableViewport t)
             (saturated_short (Viewport.Top (_mutableViewport t) - 1))).1.1 /\
     t' = t) /\
    (FAILED hr = true -> hr <> S_OK /\ hr <> S_FALSE /\ t' = t).
Proof.
  unfold UserResize. fold (resized_bufferSize t viewportSize).
  destruct (COORD_eqb viewportSize (Viewport.Dimensions (_mutableViewport t)))
    eqn:Heq.
  { apply COORD_eqb_eq in Heq. exists S_FALSE, t.
    split; [reflexivity|]. repeat split; trivial; try contradiction;
      discriminate. }
  assert (Hneq : viewportSize <> Viewport.Dimensions (_mutableViewport t)).
  { intros E. apply COORD_eqb_eq in E. congruence. }
  destruct (allocation_fails (resized_bufferSize t viewportSize)) eqn:Halloc.
  { exists E_OUTOFMEMORY, t. split; [reflexivity|].
    repeat split; trivial; try discriminate; try contradiction. }
  destruct (Reflow _ _ _ _) as [[hr reflowed] depth]. cbn [fst].
  destruct (FAILED hr) eqn:Hfailed.
  { exists hr, t. split; [reflexivity|].
    unfold FAILED in Hfailed. apply Z.ltb_lt in Hfailed.
    unfold S_OK, S_FALSE.
    repeat split; trivial; try discriminate; try contradiction; try lia. }
  pose proof (saturated_short_le (depth + 1)) as Hle.
  rewrite _NotifyScrollEvent_spec
    by (unfold _VisibleStartIndex, ViewStartIndex, SHRT_MAX in *; simpl; lia).
  cbn [obind]. eexists S_OK, _. split; [reflexivity|].
  unfold FAILED in Hfailed. apply Z.ltb_ge in Hfailed.
  unfold S_OK, S_FALSE, FAILED.
  repeat split; trivial; try discriminate; try contradiction; try lia;
    try (intros Hf; apply Z.ltb_lt in Hf; lia).
Qed.

(** ** C8: what the scroll callback is told *)

(** C8 (amended). Every call of the scroll callback is made by
    [_NotifyScrollEvent], and its third argument is [GetBufferHeight()], a
    [short]: the row just below the mutable viewport, that is the
    viewport's top (the rows of scrollback in use) plus its height,
    converted to [short]; it is that sum itself whenever the sum fits a
    [short].  It is then the viewport's height plus the scrollback capacity
    only when the top has reached that capacity. *)
Theorem C8_notification_reports_viewport_bottom (t t' : Terminal) :
  _NotifyScrollEvent t = Returns t' ->
  exists es,
    trace t' = trace t ++ es /\
    forall top height bottom,
      In (ScrollPositionChanged top height bottom) es ->
      bottom = GetBufferHeight t /\
      bottom = to_short (Viewport.Top (_mutableViewport t)
                         + Viewport.Height (_mutableViewport t)) /\
      is_short bottom /\
      (is_short (Viewport.Top (_mutableViewport t)
                 + Viewport.Height (_mutableViewport t)) ->
       bottom = Viewport.Top (_mutableViewport t)
                + Viewport.Height (_mutableViewport t) /\
       (bottom = Viewport.Height (_mutableViewport t) + _scrollbackLines t <->
        Viewport.Top (_mutableViewport t) = _scrollbackLines t)).
Proof.
  unfold _NotifyScrollEvent, _GetVisibleViewport.
  destruct (_pfnScrollPositionChanged t).
  - destruct (narrow_short (_VisibleStartIndex t)) as [top0|]; cbn [obind];
      [|discriminate].
    intros [= <-]. eexists. split; [reflexivity|].
    intros top height bottom [[= _ _ <-]|[]].
    unfold GetBufferHeight, Viewport.BottomExclusive.
    split; [reflexivity|]. split; [reflexivity|].
    split; [apply to_short_range|].
    intros Hfits. rewrite to_short_id by exact Hfits. repeat split; lia.
  - intros [= <-]. exists []. split; [now rewrite app_nil_r|].
    intros top height bottom [].
Qed.

Lemma C8_notification_witness :
  let t := SetScrollPositionChangedCallback (Create (mkCOORD 2 2) 5) true in
  exists t',
    _NotifyScrollEvent t = Returns t' /\
    exists es, trace t' = trace t ++ es.
Proof.
  cbv zeta. eexists. split; [reflexivity|].
  destruct (C8_notification_reports_viewport_bottom
              (SetScrollPositionChangedCallback (Create (mkCOORD 2 2) 5) true)
              _ eq_refl) as (es & Hes & _).
  exists es. exact Hes.
Defined.

(** C8 as first stated fails: in a terminal two rows high with five rows
    of scrollback, seven rows in all, the callback is told 3 once the first
    row has scrolled out of the viewport. *)
Lemma C8_third_argument_is_not_capacity :
  exists t,
    _WriteBuffer 11 [97; 98; 99; 100; 101]
      (SetScrollPositionChangedCallback (Create (mkCOORD 2 2) 5) true)
    = Some (Returns t) /\
    trace t = [TriggerRedrawAll; ScrollPositionChanged 1 2 3] /\
    Viewport.Height (_mutableViewport t) + _scrollbackLines t = 7 /\
    bufHeight (_buffer t) = 7.
Proof.
  eexists. split; [vm_compute; reflexivity|]. repeat split.
Qed.

(** ** C9: the writer lock *)

(** [UserResize] always returns, and never touches the lock. *)
Lemma UserResize_unlocked
    (Reflow : TextBuffer -> TextBuffer -> Viewport.t -> Z -> HRESULT * TextBuffer * Z)
    (allocation_fails : COORD -> bool) (t : Terminal) (viewportSize : COORD) :
  exists hr t' es,
    UserResize Reflow allocation_fails t viewportSize = Returns (hr, t') /\
    trace t' = trace t ++ es /\
    Forall (fun e => lock_event e = false) es.
Proof.
  unfold UserResize.
  destruct (COORD_eqb _ _).
  { exists S_FALSE, t, []. rewrite app_nil_r. now repeat split. }
  destruct (allocation_fails _).
  { exists E_OUTOFMEMORY, t, []. rewrite app_nil_r. now repeat split. }
  destruct (Reflow _ _ _ _) as [[hr reflowed] depth].
  destruct (FAILED hr).
  { exists hr, t, []. rewrite app_nil_r. now repeat split. }
  pose proof (saturated_short_le (depth + 1)) as Hle.
  rewrite _NotifyScrollEvent_spec
    by (unfold _VisibleStartIndex, ViewStartIndex, SHRT_MAX in *; simpl; lia).
  cbn [obind]. eexists _, _, _. split; [reflexivity|]. split; [reflexivity|].
  unfold scroll_notification.
  destruct (_pfnScrollPositionChanged _); now repeat constructor.
Qed.

(** C9 (amended). [UserResize] does not take the writer lock itself: it
    always returns, and whatever it does in between, replacing the viewport
    and the buffer included, it neither acquires nor releases the lock.
    Nor does [UserScrollViewport], which sets the scroll offset.  The lock
    is the caller's to hold: called between the caller's acquiring the
    writer lock and releasing it, a resize has all it does inside that one
    bracket, with no other lock event in between.  [Write] brackets itself:
    whenever it returns it has taken the lock before anything else and
    released it last, with no other lock event in between. *)
Theorem C9_resize_takes_no_lock
    (Reflow : TextBuffer -> TextBuffer -> Viewport.t -> Z -> HRESULT * TextBuffer * Z)
    (allocation_fails : COORD -> bool) (t : Terminal) (viewportSize : COORD) :
  (exists hr t' es,
     UserResize Reflow allocation_fails t viewportSize = Returns (hr, t') /\
     trace t' = trace t ++ es /\
     Forall (fun e => lock_event e = false) es) /\
  (forall viewTop : Z,
     trace (UserScrollViewport t viewTop) = trace t ++ [TriggerRedrawAll]) /\
  (exists hr t' es,
     UserResize Reflow allocation_fails (emit t LockForWriting_acquired)
       viewportSize = Returns (hr, t') /\
     trace (emit t' Lock_released) =
       trace t ++ [LockForWriting_acquired] ++ es ++ [Lock_released] /\
     Forall (fun e => lock_event e = false) es) /\
  (forall (fuel : nat) (s : list wchar) (t' : Terminal),
     Write fuel s t = Some (Returns t') ->
     exists es,
       trace t' = trace t ++ [LockForWriting_acquired] ++ es ++ [Lock_released] /\
       Forall (fun e => lock_event e = false) es).
Proof.
  split; [apply UserResize_unlocked|]. split; [reflexivity|].
  split; [|intros fuel s t'; apply Write_brackets_with_lock].
  destruct (UserResize_unlocked Reflow allocation_fails
              (emit t LockForWriting_acquired) viewportSize)
    as (hr & t' & es & Hret & Htrace & Hfree).
  exists hr, t', es. split; [exact Hret|]. split; [|exact Hfree].
  cbn [trace emit] in *. rewrite Htrace. now rewrite <- !app_assoc.
Qed.

(** C9 as first stated fails: a resize that replaces viewport and buffer
    and resets the scroll offset, and has acquired no lock on the way; the
    only thing it did to its surroundings is the scroll notification. *)
Lemma C9_resize_without_lock_example :
  exists t',
    UserResize blank_Reflow (fun _ => false)
      (SetScrollPositionChangedCallback (Create (mkCOORD 2 2) 1) true)
      (mkCOORD 3 2) = Returns (S_OK, t') /\
    _mutableViewport t' = Viewport.mk 1 3 2 /\
    bufferSize (_buffer t') = mkCOORD 3 3 /\
    trace t' = [ScrollPositionChanged 1 2 3] /\
    Forall (fun e => lock_event e = false) (trace t').
Proof.
  eexists. split; [vm_compute; reflexivity|].
  do 3 (split; [reflexivity|]). now repeat constructor.
Qed.

(** ** C10: [GetScrollOffset] *)

(** C10. [GetScrollOffset] returns the first visible row,
    [max(0, mutableViewportTop - scrollOffset)], not the scroll offset: with
    the offset at 0 it returns the top of the mutable viewport, which is the
    number of rows of scrollback; so after five characters in a terminal
    two columns wide and two rows high it returns 1 while the offset is 0. *)
Theorem C10_GetScrollOffset_is_visible_top (t : Terminal) :
  GetScrollOffset t =
    Z.max 0 (Viewport.Top (_mutableViewport t) - _scrollOffset t) /\
  (_scrollOffset t = 0 -> 0 <= Viewport.Top (_mutableViewport t) ->
   GetScrollOffset t = ViewStartIndex t) /\
  (exists t1,
     _WriteBuffer 11 [97; 98; 99; 100; 101] (Create (mkCOORD 2 2) 5)
       = Some (Returns t1) /\
     _scrollOffset t1 = 0 /\ ViewStartIndex t1 = 1 /\ GetScrollOffset t1 = 1).
Proof.
  split; [reflexivity|]. split.
  - intros Hoff Htop.
    unfold GetScrollOffset, _VisibleStartIndex, ViewStartIndex in *. lia.
  - eexists. split; [vm_compute; reflexivity|]. repeat split.
Qed.

(** ** Further properties *)

(** Eighty characters fill row 0 of a fresh terminal 80 columns wide and
    24 rows high without scrollback, and the next one goes to row 1: the
    cursor ends in row 1, column 1, row 0 is marked as wrapped by force,
    and nothing has been redrawn or notified. *)
Example write_81_characters :
  exists t,
    _WriteBuffer 163 (replicate 80 97 ++ [98]) (Create (mkCOORD 80 24) 0)
      = Some (Returns t) /\
    GetPosition (_buffer t) = mkCOORD 1 1 /\
    rowWrapForced (_buffer t) 0 = true /\
    rowWrapForced (_buffer t) 1 = false /\
    trace t = [].
Proof. eexists. split; [vm_compute; reflexivity|]. repeat split. Qed.

(** Eleven characters written to a fresh terminal 10 columns wide and
    one row high with five rows of scrollback: the eleventh goes to row 1,
    the viewport follows it there, so that one row of scrollback is above
    it, and no row of the ring is evicted, the buffer having six rows. *)
Example write_11_characters :
  exists t,
    _WriteBuffer 23 [48; 49; 50; 51; 52; 53; 54; 55; 56; 57; 88]
      (SetScrollPositionChangedCallback (Create (mkCOORD 10 1) 5) true)
      = Some (Returns t) /\
    GetPosition (_buffer t) = mkCOORD 1 1 /\
    ViewStartIndex t = 1 /\
    rowWrapForced (_buffer t) 0 = true /\
    trace t = [TriggerRedrawAll; ScrollPositionChanged 1 1 2].
Proof. eexists. split; [vm_compute; reflexivity|]. repeat split. Qed.

(** X4. On well-formed UTF-16 input the view handed to the buffer in any
    pass of the loop is exactly one character unit, a single code unit
    that is no surrogate or a whole surrogate pair, and the buffer consumes
    it whole or not at all: no pair is ever divided between two writes. *)
Theorem X4_views_are_whole_units (s : list wchar) (t0 : Terminal) (i : Z)
    (t : Terminal) :
  well_formed_utf16 s -> Z.of_nat (length s) < SIZE_MOD ->
  loop_reaches s t0 i t -> i < Z.of_nat (length s) ->
  exists a,
    _WriteBuffer_attempt s i t = Returns a /\
    ((exists c, view a = [c] /\ is_surrogate c = false) \/
     (exists h l, view a = [h; l] /\
                  is_high_surrogate h = true /\ is_low_surrogate l = true)) /\
    (inputDistance a = 0 \/ inputDistance a = Z.of_nat (length (view a))).
Proof.
  intros Hwf Hlen Hreach Hlt.
  destruct (loop_reaches_unit_start s t0 i t Hwf Hlen Hreach) as [Hi Hdrop].
  destruct (lookup_lt_is_Some_2 s (Z.to_nat i)) as [c Hc]; [lia|].
  rewrite (drop_S s c (Z.to_nat i) Hc) in Hdrop.
  destruct (well_formed_utf16_cons _ _ Hdrop)
    as [(Hsur & Hrest) | (l & rest & Heq & Hhigh & Hlow & Hrest)].
  - destruct (_WriteBuffer_attempt_single s i t c) as (a & Ha & Hview & Hcase);
      trivial; [lia|].
    exists a. split; [exact Ha|]. split; [left; now exists c|].
    rewrite Hview. simpl. destruct Hcase as [(-> & _) | (-> & _)]; auto.
  - assert (Hl : s !! Z.to_nat (i + 1) = Some l).
    { replace (Z.to_nat (i + 1)) with (S (Z.to_nat i)) by lia.
      rewrite <- (Nat.add_0_r (S (Z.to_nat i))), <- lookup_drop, Heq.
      reflexivity. }
    destruct (_WriteBuffer_attempt_pair s i t c l) as (a & Ha & Hview & Hcase);
      trivial; [lia|].
    exists a. split; [exact Ha|]. split; [right; now exists c, l|].
    rewrite Hview. simpl. destruct Hcase as [(-> & _) | (-> & _)]; auto.
Qed.

Lemma X4_views_are_whole_units_witness :
  let s := [97; 0xD83D; 0xDE00] in
  let t0 := Create (mkCOORD 2 2) 1 in
  well_formed_utf16 s /\ Z.of_nat (length s) < SIZE_MOD /\
  exists t, loop_reaches s t0 1 t /\ 1 < Z.of_nat (length s) /\
    exists a, _WriteBuffer_attempt s 1 t = Returns a.
Proof.
  cbv zeta.
  assert (Hwf : well_formed_utf16 [97; 0xD83D; 0xDE00]).
  { apply wf_single; [reflexivity|]. apply wf_pair; try reflexivity.
    apply wf_end. }
  assert (Hlen : Z.of_nat (length [97; 0xD83D; 0xDE00]) < SIZE_MOD) by reflexivity.
  split; [exact Hwf|]. split; [exact Hlen|].
  destruct (_WriteBuffer_iteration [97; 0xD83D; 0xDE00] 0 (Create (mkCOORD 2 2) 1))
    as [[i' t]|] eqn:Hit; [|discriminate Hit].
  assert (Hi' : to_size_t (i' + 1) = 1).
  { vm_compute in Hit. injection Hit as <- _. reflexivity. }
  exists t.
  assert (H0 : 0 < Z.of_nat (length [97; 0xD83D; 0xDE00])) by reflexivity.
  pose proof (loop_pass _ _ 0 (Create (mkCOORD 2 2) 1) i' t (loop_start _ _)
                H0 Hit) as Hreach.
  rewrite Hi' in Hreach.
  assert (Hlt : 1 < Z.of_nat (length [97; 0xD83D; 0xDE00])) by reflexivity.
  split; [exact Hreach|]. split; [exact Hlt|].
  destruct (X4_views_are_whole_units _ _ 1 t Hwf Hlen Hreach Hlt) as (a & Ha & _).
  exists a. exact Ha.
Defined.

(** ** Scrolling by the user *)

(** X1. After [UserScrollViewport(viewTop)] the first visible row, which
    [GetScrollOffset] returns, is [viewTop] brought into
    [[0, top of the mutable viewport]]; the scroll offset lies between 0 and
    that top; the visible viewport has the size of the mutable one and its
    last row is the one [_VisibleEndIndex] gives; one redraw is requested;
    buffer and mutable viewport are untouched; and scrolling to the same row
    again changes nothing more of the offset. *)
Theorem X1_UserScrollViewport_shows_row (t : Terminal) (viewTop : Z) :
  0 <= Viewport.Top (_mutableViewport t) <= SHRT_MAX ->
  1 <= Viewport.Height (_mutableViewport t) ->
  let t' := UserScrollViewport t viewTop in
  let shown := Z.min (Viewport.Top (_mutableViewport t)) (Z.max 0 viewTop) in
  GetScrollOffset t' = shown /\
  0 <= _scrollOffset t' <= Viewport.Top (_mutableViewport t) /\
  _GetVisibleViewport t' =
    Returns (Viewport.mk shown (Viewport.Width (_mutableViewport t))
                         (Viewport.Height (_mutableViewport t))) /\
  _VisibleEndIndex t' = shown + Viewport.Height (_mutableViewport t) - 1 /\
  _buffer t' = _buffer t /\
  _mutableViewport t' = _mutableViewport t /\
  trace t' = trace t ++ [TriggerRedrawAll] /\
  _scrollOffset (UserScrollViewport t' viewTop) = _scrollOffset t'.
Proof.
  intros Htop Hh. cbv zeta.
  unfold GetScrollOffset, _GetVisibleViewport, _VisibleStartIndex,
    _VisibleEndIndex, ViewStartIndex, ViewEndIndex, UserScrollViewport,
    Viewport.BottomInclusive, SHRT_MAX in *.
  cbn [_scrollOffset _mutableViewport _buffer trace emit set_scrollOffset].
  unfold ViewStartIndex. 
  assert (Hshown :
    Z.max 0 (Viewport.Top (_mutableViewport t)
             - Z.max 0 (Viewport.Top (_mutableViewport t) - Z.max 0 viewTop))
    = Z.min (Viewport.Top (_mutableViewport t)) (Z.max 0 viewTop)) by lia.
  rewrite Hshown.
  rewrite narrow_short_fits by (unfold is_short, SHRT_MIN, SHRT_MAX; lia).
  repeat split; try reflexivity; lia.
Qed.

Lemma X1_UserScrollViewport_shows_row_witness :
  0 <= Viewport.Top (_mutableViewport scrolled_back_terminal) <= SHRT_MAX /\
  1 <= Viewport.Height (_mutableViewport scrolled_back_terminal) /\
  GetScrollOffset (UserScrollViewport scrolled_back_terminal 9) = 4.
Proof.
  assert (H1 : 0 <= Viewport.Top (_mutableViewport scrolled_back_terminal)
               <= SHRT_MAX) by (vm_compute; intuition discriminate).
  assert (H2 : 1 <= Viewport.Height (_mutableViewport scrolled_back_terminal))
    by (vm_compute; discriminate).
  split; [exact H1|]. split; [exact H2|].
  exact (proj1 (X1_UserScrollViewport_shows_row scrolled_back_terminal 9 H1 H2)).
Defined.

(** X2. With the scroll offset between 0 and the top of the mutable
    viewport, the row below the viewport within [short] and a callback
    registered, [_NotifyScrollEvent] calls it once with a window that lies
    inside the height it reports: its top is [GetScrollOffset], not
    negative, top plus height is at most the reported bottom, and reaches
    it exactly when the offset is 0. *)
Theorem X2_notification_window_inside (t : Terminal) :
  _pfnScrollPositionChanged t = true ->
  0 <= _scrollOffset t <= Viewport.Top (_mutableViewport t) ->
  Viewport.Top (_mutableViewport t) <= SHRT_MAX ->
  is_short (Viewport.BottomExclusive (_mutableViewport t)) ->
  exists top height bottom,
    _NotifyScrollEvent t =
      Returns (emit t (ScrollPositionChanged top height bottom)) /\
    top = GetScrollOffset t /\
    height = Viewport.Height (_mutableViewport t) /\
    bottom = GetBufferHeight t /\
    0 <= top /\ top + height <= bottom /\
    (top + height = bottom <-> _scrollOffset t = 0).
Proof.
  intros Hpfn Hoff Htop Hfits.
  unfold _NotifyScrollEvent, _GetVisibleViewport. rewrite Hpfn.
  rewrite (GetBufferHeight_fits t Hfits).
  unfold GetScrollOffset, _VisibleStartIndex, ViewStartIndex, SHRT_MAX in *.
  rewrite narrow_short_fits by (unfold is_short, SHRT_MIN, SHRT_MAX; lia).
  cbn [obind]. eexists _, _, _. split; [reflexivity|]. cbn.
  repeat split; lia.
Qed.

Lemma X2_notification_window_inside_witness :
  _pfnScrollPositionChanged scrolled_back_terminal = true /\
  0 <= _scrollOffset scrolled_back_terminal
    <= Viewport.Top (_mutableViewport scrolled_back_terminal) /\
  Viewport.Top (_mutableViewport scrolled_back_terminal) <= SHRT_MAX /\
  is_short (Viewport.BottomExclusive (_mutableViewport scrolled_back_terminal)) /\
  exists top height bottom,
    _NotifyScrollEvent scrolled_back_terminal =
      Returns (emit scrolled_back_terminal
                 (ScrollPositionChanged top height bottom)).
Proof.
  assert (H1 : _pfnScrollPositionChanged scrolled_back_terminal = true)
    by reflexivity.
  assert (H2 : 0 <= _scrollOffset scrolled_back_terminal
               <= Viewport.Top (_mutableViewport scrolled_back_terminal))
    by (vm_compute; intuition discriminate).
  assert (H3 : Viewport.Top (_mutableViewport scrolled_back_terminal) <= SHRT_MAX)
    by (vm_compute; discriminate).
  assert (H4 : is_short (Viewport.BottomExclusive
                           (_mutableViewport scrolled_back_terminal)))
    by (vm_compute; intuition discriminate).
  do 4 (split; [assumption|]).
  destruct (X2_notification_window_inside _ H1 H2 H3 H4)
    as (top & height & bottom & Hcall & _).
  exists top, height, bottom. exact Hcall.
Defined.

(** ** Resizing again *)

(** X3. A resize never touches the scrollback capacity, the snap-on-input
    flag or the callback slot, and leaves the scroll offset as it was or at
    0.  After a resize has returned [S_OK], asking for the same size again,
    whatever [Reflow] and the allocator would do, returns [S_FALSE] and
    changes nothing. *)
Theorem X3_resize_again_is_noop
    (Reflow Reflow' : TextBuffer -> TextBuffer -> Viewport.t -> Z
                      -> HRESULT * TextBuffer * Z)
    (allocation_fails allocation_fails' : COORD -> bool)
    (t : Terminal) (viewportSize : COORD) :
  exists hr t',
    UserResize Reflow allocation_fails t viewportSize = Returns (hr, t') /\
    _scrollbackLines t' = _scrollbackLines t /\
    _snapOnInput t' = _snapOnInput t /\
    _pfnScrollPositionChanged t' = _pfnScrollPositionChanged t /\
    (_scrollOffset t' = _scrollOffset t \/ _scrollOffset t' = 0) /\
    (hr = S_OK ->
     Viewport.Dimensions (_mutableViewport t') = viewportSize /\
     UserResize Reflow' allocation_fails' t' viewportSize
       = Returns (S_FALSE, t')).
Proof.
  unfold UserResize at 1.
  destruct (COORD_eqb viewportSize (Viewport.Dimensions (_mutableViewport t))).
  { exists S_FALSE, t. split; [reflexivity|]. repeat split; auto; discriminate. }
  destruct (allocation_fails _).
  { exists E_OUTOFMEMORY, t. split; [reflexivity|].
    repeat split; auto; discriminate. }
  destruct (Reflow _ _ _ _) as [[hr reflowed] depth].
  destruct (FAILED hr) eqn:Hfailed.
  { exists hr, t. split; [reflexivity|].
    apply Z.ltb_lt in Hfailed. unfold S_OK.
    do 3 (split; [reflexivity|]). split; [now left|].
    intros ->. lia. }
  pose proof (saturated_short_le (depth + 1)) as Hle.
  rewrite _NotifyScrollEvent_spec
    by (unfold _VisibleStartIndex, ViewStartIndex, SHRT_MAX in *; simpl; lia).
  cbn [obind]. eexists S_OK, _. split; [reflexivity|]. cbn.
  do 3 (split; [reflexivity|]). split; [now right|].
  intros _. destruct viewportSize as [x y]. split; [reflexivity|].
  unfold UserResize, COORD_eqb. cbn. now rewrite !Z.eqb_refl.
Qed.

(** ** Key events on their way out *)

Lemma length_omap_le {A B : Type} (f : A -> option B) (l : list A) :
  (length (omap f l) <= length l)%nat.
Proof.
  induction l as [|a l IH]; [reflexivity|].
  change (omap f (a :: l))
    with (match f a with Some y => y :: omap f l | None => omap f l end).
  destruct (f a); simpl; lia.
Qed.

Lemma _KeyEventsToText_from_app (wstr : list wchar) (evs : list IInputEvent) :
  _KeyEventsToText_from wstr evs = wstr ++ _KeyEventsToText evs.
Proof.
  unfold _KeyEventsToText. revert wstr.
  induction evs as [|[k|ty] rest IH]; intros wstr; simpl.
  - now rewrite app_nil_r.
  - rewrite (IH (wstr ++ [charData k])), (IH [charData k]).
    now rewrite <- app_assoc.
  - apply IH.
Qed.

(** X5. [_KeyEventsToText] gives one code unit for each key event of the
    queue, in the order of the queue, whatever the key event is (key up,
    key down, null character), and nothing for any other event; so the text
    of two queues one after the other is the two texts one after the other.
    [passAlongInput] calls the write-input callback once with that text,
    also when the text is empty, and does nothing when no callback is
    registered. *)
Theorem X5_key_events_to_text (evs evs' : list IInputEvent) :
  _KeyEventsToText evs =
    omap (fun ev => match ev with
                    | KeyInput k => Some (charData k)
                    | OtherInput _ => None
                    end) evs /\
  _KeyEventsToText (evs ++ evs') = _KeyEventsToText evs ++ _KeyEventsToText evs' /\
  (length (_KeyEventsToText evs) <= length evs)%nat /\
  passAlongInput true evs = [_KeyEventsToText evs] /\
  passAlongInput false evs = [] /\
  passAlongInput true (map OtherInput (omap (fun ev => match ev with
                                                        | OtherInput ty => Some ty
                                                        | KeyInput _ => None
                                                        end) evs)) = [[]].
Proof.
  assert (Hmap : forall l, _KeyEventsToText l =
    omap (fun ev => match ev with
                    | KeyInput k => Some (charData k)
                    | OtherInput _ => None
                    end) l).
  { induction l as [|[k|ty] rest IH].
    - reflexivity.
    - unfold _KeyEventsToText. simpl.
      rewrite _KeyEventsToText_from_app, IH. reflexivity.
    - unfold _KeyEventsToText in *. simpl. exact IH. }
  split; [apply Hmap|]. split.
  { rewrite !Hmap. apply omap_app. }
  split.
  { rewrite Hmap. apply length_omap_le. }
  split; [reflexivity|]. split; [reflexivity|].
  unfold passAlongInput. simpl. f_equal. rewrite Hmap.
  induction evs as [|[k|ty] rest IH]; simpl; auto.
Qed.

(** ** Key events on their way in *)

(** X6. [SendKeyEvent] first snaps the view back ([TrySnapOnInput]) and
    then answers true exactly when the translator made a sequence of the
    key event and the chord is one the terminal resolves to a character
    itself: Escape, Ctrl+H, Ctrl+Space, or an Alt chord other than
    Alt+Space for which the platform gives a character.  The character
    handed to the translator is ESC for Escape whatever the modifiers,
    else backspace for Ctrl+H and space for Ctrl+Space also when Alt is
    down, else the platform's character for the Alt chord, else null.  A
    key without any of this is never answered true. *)
Theorem X6_SendKeyEvent_answer
    (MapVirtualKeyW : Z -> Z)
    (ToUnicodeEx : Z -> Z -> list Z -> Z -> Z * (wchar * wchar))
    (HandleKey : KeyEvent -> bool)
    (t : Terminal) (vkey scanCode : Z) (states : ControlKeyStates) :
  0 <= Viewport.Top (_mutableViewport t) <= SHRT_MAX ->
  let platform :=
    _CharacterFromKeyEvent MapVirtualKeyW ToUnicodeEx vkey scanCode states in
  let ch :=
    if vkey =? VK_ESCAPE then UNICODE_ESC
    else if IsCtrlPressed states && (vkey =? 0x48) then UNICODE_BACKSPACE
    else if IsCtrlPressed states && (vkey =? VK_SPACE) then UNICODE_SPACE
    else if IsAltPressed states && negb (vkey =? VK_SPACE) then platform
    else UNICODE_NULL in
  exists t',
    TrySnapOnInput t = Returns t' /\
    SendKeyEvent MapVirtualKeyW ToUnicodeEx HandleKey t vkey scanCode states =
      Returns (HandleKey (mkKeyEvent true 0 vkey scanCode ch states)
               && resolves_character platform vkey states, t') /\
    (_snapOnInput t = true -> _scrollOffset t' = 0) /\
    (_snapOnInput t = false -> t' = t) /\
    TrySnapOnInput t' = Returns t' /\
    (vkey <> VK_ESCAPE -> IsCtrlPressed states = false ->
     IsAltPressed states = false ->
     SendKeyEvent MapVirtualKeyW ToUnicodeEx HandleKey t vkey scanCode states =
       Returns (false, t')).
Proof.
  intros Htop. cbv zeta.
  assert (Hsnap : exists t',
    TrySnapOnInput t = Returns t' /\
    (_snapOnInput t = true -> _scrollOffset t' = 0) /\
    (_snapOnInput t = false -> t' = t) /\
    TrySnapOnInput t' = Returns t').
  { unfold TrySnapOnInput at 1. destruct (_snapOnInput t) eqn:Es.
    - destruct (Z.eqb_spec (_scrollOffset t) 0) as [E|_]; cbn [andb negb].
      + exists t. split; [reflexivity|]. split; [auto|].
        split; [discriminate|].
        unfold TrySnapOnInput. rewrite Es, E. reflexivity.
      + rewrite _NotifyScrollEvent_spec
          by (unfold _VisibleStartIndex, ViewStartIndex, SHRT_MAX in *; simpl; lia).
        cbn [obind]. eexists. split; [reflexivity|]. split; [reflexivity|].
        split; [discriminate|].
        unfold TrySnapOnInput. cbn. rewrite Es. reflexivity.
    - exists t. split; [reflexivity|]. split; [discriminate|].
      split; [reflexivity|].
      unfold TrySnapOnInput. rewrite Es. reflexivity. }
  destruct Hsnap as (t' & Hret & Hon & Hoff & Hagain).
  exists t'. split; [exact Hret|].
  unfold SendKeyEvent, resolves_character. rewrite Hret. cbn [obind].
  unfold UNICODE_NULL, UNICODE_ESC, UNICODE_BACKSPACE, UNICODE_SPACE,
    VK_ESCAPE, VK_SPACE.
  set (platform :=
         _CharacterFromKeyEvent MapVirtualKeyW ToUnicodeEx vkey scanCode states).
  split; [|split; [exact Hon|split; [exact Hoff|split; [exact Hagain|]]]].
  - destruct (Z.eqb_spec vkey 27) as [->|Hesc]; [reflexivity|].
    destruct (IsCtrlPressed states), (IsAltPressed states);
      destruct (Z.eqb_spec vkey 72) as [->|H48]; cbn;
      try reflexivity;
      destruct (Z.eqb_spec vkey 32) as [->|Hsp]; cbn; try reflexivity;
      now rewrite ?andb_false_r.
  - intros Hesc Hctrl Halt. rewrite Hctrl, Halt.
    destruct (Z.eqb_spec vkey 27) as [->|_]; [contradiction|].
    cbn. now rewrite andb_false_r.
Qed.

Lemma X6_SendKeyEvent_answer_witness :
  0 <= Viewport.Top (_mutableViewport scrolled_back_terminal) <= SHRT_MAX /\
  exists t',
    SendKeyEvent (fun _ => 0) (fun _ _ _ _ => (1, (97, 0))) (fun _ => true)
      scrolled_back_terminal VK_ESCAPE 1 (mkControlKeyStates false false false)
    = Returns (true, t') /\ _scrollOffset t' = 0.
Proof.
  assert (H1 : 0 <= Viewport.Top (_mutableViewport scrolled_back_terminal)
               <= SHRT_MAX) by (vm_compute; intuition discriminate).
  split; [exact H1|].
  destruct (X6_SendKeyEvent_answer (fun _ => 0) (fun _ _ _ _ => (1, (97, 0)))
              (fun _ => true) scrolled_back_terminal VK_ESCAPE 1
              (mkControlKeyStates false false false) H1)
    as (t' & _ & Hsend & Hon & _).
  exists t'. split; [exact Hsend|]. apply Hon. reflexivity.
Defined.



(** ** Settings *)

Lemma copy_color_entries_spec (n : nat) :
  forall (i : Z) (entry : Z -> Z) (table : list Z),
    0 <= i -> i + Z.of_nat n <= Z.of_nat (length table) ->
    exists table',
      copy_color_entries n i entry table = Returns table' /\
      length table' = length table /\
      forall k : nat,
        table' !! k =
          if (Z.to_nat i <=? k)%nat && (k <? Z.to_nat i + n)%nat
          then Some (entry (Z.of_nat k)) else table !! k.
Proof.
  induction n as [|n IH]; intros i entry table Hi Hlen.
  - exists table. split; [reflexivity|]. split; [reflexivity|].
    intros k. destruct (Nat.leb_spec (Z.to_nat i) k);
      destruct (Nat.ltb_spec k (Z.to_nat i + 0)); simpl; trivial; lia.
  - cbn [copy_color_entries]. unfold colorTable_set.
    destruct (Z.leb_spec 0 i); [|lia].
    destruct (Z.ltb_spec i (Z.of_nat (length table))); [|lia].
    cbn [andb obind].
    destruct (IH (i + 1) entry (<[Z.to_nat i := entry i]> table))
      as (table' & Hrun & Hlen' & Hlook).
    { lia. }
    { rewrite length_insert. lia. }
    exists table'. split; [exact Hrun|].
    split; [now rewrite Hlen', length_insert|].
    intros k. rewrite Hlook.
    destruct (Nat.eq_dec k (Z.to_nat i)) as [->|Hne].
    + destruct (Nat.leb_spec (Z.to_nat (i + 1)) (Z.to_nat i)); [lia|].
      destruct (Nat.leb_spec (Z.to_nat i) (Z.to_nat i)); [|lia].
      destruct (Nat.ltb_spec (Z.to_nat i) (Z.to_nat i + S n)); [|lia].
      cbn [andb]. rewrite list_lookup_insert_eq by lia.
      now rewrite Z2Nat.id by lia.
    + rewrite list_lookup_insert_ne by lia.
      destruct (Nat.leb_spec (Z.to_nat (i + 1)) k);
        destruct (Nat.ltb_spec k (Z.to_nat (i + 1) + n));
        destruct (Nat.leb_spec (Z.to_nat i) k);
        destruct (Nat.ltb_spec k (Z.to_nat i + S n)); cbn [andb];
        trivial; lia.
Qed.

Lemma copy_color_entries_short (n : nat) :
  forall (i : Z) (entry : Z -> Z) (table : list Z),
    0 <= i <= Z.of_nat (length table) ->
    Z.of_nat (length table) < i + Z.of_nat n ->
    copy_color_entries n i entry table = Throws.
Proof.
  induction n as [|n IH]; intros i entry table Hi Hlen; [lia|].
  cbn [copy_color_entries]. unfold colorTable_set.
  destruct (Z.leb_spec 0 i); [|lia].
  destruct (Z.ltb_spec i (Z.of_nat (length table))); [|reflexivity].
  cbn [andb obind]. apply IH; rewrite length_insert; lia.
Qed.

Lemma UpdateSettings_returns (ct : ConfiguredTerminal) (settings : ICoreSettings) :
  (16 <= length (_colorTable ct))%nat ->
  exists table,
    UpdateSettings ct settings =
      Returns (mkConfiguredTerminal
                 (set_snapOnInput (core ct) (SnapOnInput settings))
                 (DefaultForeground settings) (DefaultBackground settings)
                 (CursorHeight settings, CursorColor settings,
                  cursorShape_of (CursorShape settings))
                 table (WordDelimiters settings) (CopyOnSelect settings)
                 (SuppressApplicationTitle settings) (StartingTitle settings)
                 (_title ct)) /\
    length table = length (_colorTable ct) /\
    (forall k : nat, (k < 16)%nat ->
       table !! k = Some (GetColorTableEntry settings (Z.of_nat k))) /\
    (forall k : nat, (16 <= k)%nat -> table !! k = _colorTable ct !! k).
Proof.
  intros Hlen. unfold UpdateSettings.
  destruct (copy_color_entries_spec 16 0 (GetColorTableEntry settings)
              (_colorTable ct)) as (table & -> & Hl & Hlook); [lia|lia|].
  cbn [obind]. exists table. split; [reflexivity|]. split; [exact Hl|].
  split; intros k Hk; rewrite Hlook; change (Z.to_nat 0) with 0%nat.
  - destruct (Nat.leb_spec 0 k); [|lia].
    destruct (Nat.ltb_spec k (0 + 16)); [reflexivity|lia].
  - destruct (Nat.ltb_spec k (0 + 16)); [lia|]. now rewrite andb_false_r.
Qed.

(** X8. [UpdateSettings] returns when the colour table has at least 16
    entries, and throws when it has fewer.  It then holds the colours,
    cursor style, word delimiters, copy-on-select and title settings it was
    given; entries 0 to 15 of the colour table are those of the settings
    and every entry from 16 on is the one it was.  Of the terminal itself
    only the snap-on-input flag changes: buffer, viewport, scroll offset
    and scrollback capacity stay, whatever history size, columns and rows
    the settings name; the title stays too.  Applying the same settings
    again changes nothing. *)
Theorem X8_UpdateSettings_applies (ct : ConfiguredTerminal)
    (settings : ICoreSettings) :
  ((length (_colorTable ct) < 16)%nat -> UpdateSettings ct settings = Throws) /\
  ((16 <= length (_colorTable ct))%nat ->
   exists ct',
     UpdateSettings ct settings = Returns ct' /\
     length (_colorTable ct') = length (_colorTable ct) /\
     (forall k : nat, (k < 16)%nat ->
        _colorTable ct' !! k = Some (GetColorTableEntry settings (Z.of_nat k))) /\
     (forall k : nat, (16 <= k)%nat ->
        _colorTable ct' !! k = _colorTable ct !! k) /\
     _snapOnInput (core ct') = SnapOnInput settings /\
     _buffer (core ct') = _buffer (core ct) /\
     _mutableViewport (core ct') = _mutableViewport (core ct) /\
     _scrollOffset (core ct') = _scrollOffset (core ct) /\
     _scrollbackLines (core ct') = _scrollbackLines (core ct) /\
     trace (core ct') = trace (core ct) /\
     _title ct' = _title ct /\
     (_defaultFg ct', _defaultBg ct', _wordDelimiters ct', _copyOnSelect ct',
      _suppressApplicationTitle ct', _startingTitle ct') =
       (DefaultForeground settings, DefaultBackground settings,
        WordDelimiters settings, CopyOnSelect settings,
        SuppressApplicationTitle settings, StartingTitle settings) /\
     cursorStyle ct' =
       (CursorHeight settings, CursorColor settings,
        match CursorShape settings with
        | Style_Underscore => Type_Underscore
        | Style_FilledBox => Type_FullBox
        | Style_EmptyBox => Type_EmptyBox
        | Style_Vintage => Type_Legacy
        | Style_Bar | Style_other _ => Type_VerticalBar
        end) /\
     UpdateSettings ct' settings = Returns ct').
Proof.
  split.
  - intros Hshort. unfold UpdateSettings.
    rewrite copy_color_entries_short by lia. reflexivity.
  - intros Hlen.
    destruct (UpdateSettings_returns ct settings Hlen)
      as (table & Hrun & Hl & Hlow & Hhigh).
    eexists. split; [exact Hrun|]. cbn.
    do 11 (split; [first [assumption | reflexivity]|]).
    split; [now destruct (CursorShape settings)|].
    match goal with |- UpdateSettings ?c _ = _ =>
      destruct (UpdateSettings_returns c settings) as (table2 & Hrun2 & Hl2 & Hlow2 & Hhigh2)
    end.
    { cbn. lia. }
    rewrite Hrun2. cbn. do 2 f_equal.
    apply list_eq. intros k. cbn in Hlow2, Hhigh2.
    destruct (Nat.lt_ge_cases k 16) as [Hk|Hk].
    + now rewrite Hlow2, Hlow.
    + now rewrite Hhigh2.
Qed.





(** ** The viewport follows the cursor *)

(** Before [_AdjustCursorPosition] is called, a pass has changed nothing but
    the rows of the buffer. *)
Lemma _WriteBuffer_attempt_frame (s : list wchar) (i : Z) (t : Terminal)
    (a : Attempt) :
  _WriteBuffer_attempt s i t = Returns a ->
  exists b,
    written a = set_buffer t b /\
    cursor b = cursor (_buffer t) /\
    bufferSize b = bufferSize (_buffer t) /\
    currentAttributes b = currentAttributes (_buffer t).
Proof.
  unfold _WriteBuffer_attempt.
  destruct (s !! Z.to_nat i) as [wch|]; [|discriminate].
  set (k := if (55296 <=? wch) && (wch <=? 57343) then 2%nat else 1%nat).
  pose proof (TextBuffer_Write_frame (_buffer t) (substr s i k)) as Hframe.
  destruct (TextBuffer_Write _ _) as [[b c] n].
  cbv zeta in Hframe. cbn [fst] in Hframe.
  destruct Hframe as (Hsize & Hcursor & Hattr & _).
  destruct (0 <? n).
  - destruct (narrow_short c); cbn [obind]; [|discriminate].
    intros [= <-]. exists b. cbn. auto.
  - intros [= <-]. eexists. split; [reflexivity|].
    unfold SetWrapForced. destruct (0 <=? _); [|auto].
    destruct (rows b !! _); cbn; auto.
Qed.

Lemma _WriteBuffer_iteration_viewport (s : list wchar) (i i' : Z)
    (t t' : Terminal) :
  Terminal_ok t -> cursor_within (_buffer t) -> cursor_in_viewport t ->
  0 <= i < Z.of_nat (length s) -> Z.of_nat (length s) < SIZE_MOD ->
  _WriteBuffer_iteration s i t = Returns (i', t') ->
  cursor_in_viewport t' /\
  Viewport.Top (_mutableViewport t) <= Viewport.Top (_mutableViewport t')
    <= Viewport.Top (_mutableViewport t) + 1 /\
  Viewport.Dimensions (_mutableViewport t') =
    Viewport.Dimensions (_mutableViewport t) /\
  Y (GetPosition (_buffer t)) <= Y (GetPosition (_buffer t'))
    <= Y (GetPosition (_buffer t)) + 1 /\
  _scrollbackLines t' = _scrollbackLines t /\
  _pfnScrollPositionChanged t' = _pfnScrollPositionChanged t.
Proof.
  intros Hok Hcur (Hin & Hbot) Hi Hlen Hit.
  unfold _WriteBuffer_iteration in Hit.
  destruct (_WriteBuffer_attempt s i t) as [a|] eqn:Ha; [|discriminate].
  cbn [obind] in Hit.
  destruct (_WriteBuffer_attempt_frame s i t a Ha)
    as (b & Hw & Hcursor & Hsize & _).
  assert (Hprop : Terminal_ok (written a) /\
    (proposedCursorPosition a = mkCOORD (X (proposedCursorPosition a))
                                        (Y (GetPosition (_buffer t))) \/
     proposedCursorPosition a = mkCOORD 0 (Y (GetPosition (_buffer t)) + 1))).
  { destruct (Z.lt_ge_cases (X (GetPosition (_buffer t))) (bufWidth (_buffer t)))
      as [Hroom|Hfull].
    - destruct (_WriteBuffer_attempt_room s i t Hok Hcur Hi Hlen Hroom)
        as (a' & Ha' & _ & _ & _ & HpY & _ & Hok' & _).
      rewrite Ha in Ha'. injection Ha' as <-. split; [exact Hok'|].
      left. rewrite <- HpY. now destruct (proposedCursorPosition a).
    - destruct (_WriteBuffer_attempt_full s i t Hok Hcur Hi Hfull)
        as (a' & Ha' & _ & _ & Hp & _ & Hok' & _).
      rewrite Ha in Ha'. injection Ha' as <-. auto. }
  destruct Hprop as (Hok' & Hp).
  destruct Hok as ((HW & HH & Hrows) & Hh & Htop & Hoff).
  destruct Hcur as (HX & HY).
  assert (Hshort : is_short (Y (proposedCursorPosition a))).
  { unfold is_short, SHRT_MIN, SHRT_MAX in *.
    destruct Hp as [-> | ->]; cbn [Y]; lia. }
  destruct (_AdjustCursorPosition_returns (written a) (proposedCursorPosition a)
              Hok' Hshort)
    as (t1 & Hret & Hbuf & Hvp & _ & _ & Hlines & _ & Hpfn).
  rewrite Hret in Hit. cbn [obind] in Hit. injection Hit as _ <-.
  destruct (IncrementCircularBuffer_iter_ok
              (Z.to_nat (overflowing_rows (written a) (proposedCursorPosition a)))
              (_buffer (written a)) (proj1 Hok')) as (_ & Hsize1).
  assert (Hsz : bufferSize (_buffer t1) = bufferSize (_buffer t)).
  { rewrite Hbuf. cbn [SetPosition set_cursor bufferSize]. rewrite Hsize1, Hw.
    exact Hsize. }
  assert (Hpos : GetPosition (_buffer t1) =
                 mkCOORD (X (proposedCursorPosition a))
                         (Y (proposedCursorPosition a)
                          - overflowing_rows (written a) (proposedCursorPosition a)))
    by (rewrite Hbuf; reflexivity).
  unfold cursor_in_viewport, bufHeight, overflowing_rows, bufHeight,
    Viewport.BottomInclusive, Viewport.BottomExclusive, Viewport.Dimensions,
    SHRT_MAX in *.
  rewrite Hsz, Hpos, Hvp, Hlines, Hpfn, Hw.
  cbn [_buffer _mutableViewport _scrollbackLines _pfnScrollPositionChanged
       set_buffer X Y].
  rewrite Hsize.
  destruct Hp as [-> | ->]; cbn [X Y];
    match goal with |- context [if ?c then _ else _] => destruct c eqn:Hc end;
    [apply Z.ltb_lt in Hc | apply Z.ltb_ge in Hc
    |apply Z.ltb_lt in Hc | apply Z.ltb_ge in Hc];
    cbn [Viewport.Top Viewport.Width Viewport.Height];
    repeat split; try lia; f_equal; lia.
Qed.

(** What every series of [_WriteBuffer] calls keeps. *)
Lemma written_from_viewport (t0 t : Terminal) :
  Terminal_ok t0 -> cursor_within (_buffer t0) -> cursor_in_viewport t0 ->
  written_from t0 t ->
  Terminal_ok t /\ cursor_within (_buffer t) /\ cursor_in_viewport t /\
  Viewport.Top (_mutableViewport t0) <= Viewport.Top (_mutableViewport t) /\
  Viewport.Dimensions (_mutableViewport t) =
    Viewport.Dimensions (_mutableViewport t0) /\
  Y (GetPosition (_buffer t0)) <= Y (GetPosition (_buffer t)) /\
  bufferSize (_buffer t) = bufferSize (_buffer t0) /\
  _scrollOffset t = _scrollOffset t0 /\
  _scrollbackLines t = _scrollbackLines t0 /\
  _snapOnInput t = _snapOnInput t0 /\
  _pfnScrollPositionChanged t = _pfnScrollPositionChanged t0 /\
  continues_unlocked t0 t.
Proof.
  intros Hok0 Hcur0 Hin0 Hfrom.
  induction Hfrom as [|t _ IH|t s i i' t' _ IH Hi Hlen Hit|t _ IH].
  - repeat split; trivial; try lia; try apply Hok0; try apply Hcur0;
      try apply Hin0.
    now apply continues_unlocked_refl.
  - exact IH.
  - destruct IH as (Hok & Hcur & Hin & Htop & Hdim & Hrow & Hsize & Hoff
                    & Hlines & Hsnap & Hpfn & Hlock).
    destruct (_WriteBuffer_iteration_spec s i t Hok Hcur Hi Hlen)
      as (i1 & t1 & Hit1 & Hok1 & Hcur1 & Hsize1 & Hoff1 & Hsnap1 & _).
    rewrite Hit in Hit1. injection Hit1 as <- <-.
    destruct (_WriteBuffer_iteration_viewport s i i' t t' Hok Hcur Hin Hi
                Hlen Hit) as (Hin1 & Htop1 & Hdim1 & Hrow1 & Hlines1 & Hpfn1).
    split; [exact Hok1|]. split; [exact Hcur1|]. split; [exact Hin1|].
    split; [lia|]. split; [congruence|]. split; [lia|].
    do 5 (split; [congruence|]).
    eapply continues_unlocked_trans; [exact Hlock|].
    exact (_WriteBuffer_iteration_unlocked _ _ _ _ _ Hit).
  - exact IH.
Qed.

(** X10. Through every series of [_WriteBuffer] calls that starts with the
    cursor's row inside the mutable viewport and the viewport inside the
    buffer, this stays so after each return of [_AdjustCursorPosition]: the
    viewport always holds the row of the cursor and never reaches past the
    last row of the buffer.  The viewport keeps its size and never moves
    up, nor does the cursor move to a row above.  Writing changes neither
    the scroll offset nor the scrollback capacity, the snap-on-input flag
    or the callback slot, and takes no lock; so for a view scrolled back by
    no more than the rows above the viewport, the first visible row moves
    down by as many rows as the viewport does. *)
Theorem X10_viewport_follows_cursor (t0 t : Terminal) :
  Terminal_ok t0 -> cursor_within (_buffer t0) -> cursor_in_viewport t0 ->
  written_from t0 t ->
  cursor_in_viewport t /\
  Viewport.Top (_mutableViewport t0) <= Viewport.Top (_mutableViewport t) /\
  Viewport.Dimensions (_mutableViewport t) =
    Viewport.Dimensions (_mutableViewport t0) /\
  Y (GetPosition (_buffer t0)) <= Y (GetPosition (_buffer t)) /\
  _scrollOffset t = _scrollOffset t0 /\
  _scrollbackLines t = _scrollbackLines t0 /\
  _snapOnInput t = _snapOnInput t0 /\
  _pfnScrollPositionChanged t = _pfnScrollPositionChanged t0 /\
  continues_unlocked t0 t /\
  (_scrollOffset t0 <= Viewport.Top (_mutableViewport t0) ->
   GetScrollOffset t - GetScrollOffset t0 =
     Viewport.Top (_mutableViewport t) - Viewport.Top (_mutableViewport t0)).
Proof.
  intros Hok0 Hcur0 Hin0 Hfrom.
  destruct (written_from_viewport t0 t Hok0 Hcur0 Hin0 Hfrom)
    as (Hok & _ & Hin & Htop & Hdim & Hrow & _ & Hoff & Hlines & Hsnap
        & Hpfn & Hlock).
  do 9 (split; [assumption|]).
  intros Hback. unfold GetScrollOffset, _VisibleStartIndex, ViewStartIndex.
  rewrite Hoff. lia.
Qed.

Lemma Create_cursor_in_viewport (viewportSize : COORD) (scrollbackLines : Z) :
  1 <= Y viewportSize <= SHRT_MAX -> 0 <= scrollbackLines ->
  cursor_in_viewport (Create viewportSize scrollbackLines).
Proof.
  intros HY Hlines.
  unfold cursor_in_viewport, Create, Viewport.BottomInclusive,
    Viewport.BottomExclusive, bufHeight, ClampToShortMax, SHRT_MAX in *.
  cbn. lia.
Qed.

Lemma X10_viewport_follows_cursor_witness :
  let t0 := Create (mkCOORD 2 2) 5 in
  Terminal_ok t0 /\ cursor_within (_buffer t0) /\ cursor_in_viewport t0 /\
  exists t, written_from t0 t /\ cursor_in_viewport t.
Proof.
  cbv zeta.
  destruct (Create_ok (mkCOORD 2 2) 5) as [Hok Hcur];
    [vm_compute; intuition discriminate | vm_compute; discriminate |].
  assert (Hin : cursor_in_viewport (Create (mkCOORD 2 2) 5)).
  { apply Create_cursor_in_viewport; vm_compute; intuition discriminate. }
  split; [exact Hok|]. split; [exact Hcur|]. split; [exact Hin|].
  destruct (_WriteBuffer_iteration [97; 98] 0 (Create (mkCOORD 2 2) 5))
    as [[i' t]|] eqn:Hit; [|discriminate Hit].
  exists t.
  assert (Hfrom : written_from (Create (mkCOORD 2 2) 5) t).
  { apply (written_pass _ _ [97; 98] 0 i' t (written_start _)); trivial.
    - vm_compute. intuition discriminate.
    - reflexivity. }
  split; [exact Hfrom|].
  apply (X10_viewport_follows_cursor _ t Hok Hcur Hin Hfrom).
Defined.

(** ** Every row keeps a cell for each column *)

Lemma TextBuffer_Write_rows_ok (b : TextBuffer) (view : list wchar) :
  rows_ok b -> rows_ok (TextBuffer_Write b view).1.1.
Proof.
  intros Hrs. unfold TextBuffer_Write.
  destruct ((0 <=? Y (GetPosition b)) && (Y (GetPosition b) <? bufHeight b)
            && (0 <=? X (GetPosition b))); [|exact Hrs].
  destruct (rows b !! Z.to_nat (Y (GetPosition b))) as [r|] eqn:Hr;
    [|exact Hrs].
  pose proof (WriteLine_length (character_units view) (currentAttributes b)
                (bufWidth b) (X (GetPosition b)) (cells r)) as Hl.
  destruct (WriteLine _ _ _ _ _) as [[cs c] n]. cbn [fst] in *.
  unfold rows_ok, bufWidth in *. cbn [rows set_rows bufferSize].
  apply Forall_insert; [exact Hrs|]. cbn [cells]. rewrite Hl.
  rewrite Forall_lookup in Hrs. exact (Hrs _ _ Hr).
Qed.

Lemma SetWrapForced_rows_ok (b : TextBuffer) (y : Z) (w : bool) :
  rows_ok b -> rows_ok (SetWrapForced b y w).
Proof.
  intros Hrs. unfold SetWrapForced.
  destruct (0 <=? y); [|exact Hrs].
  destruct (rows b !! Z.to_nat y) as [r|] eqn:Hr; [|exact Hrs].
  unfold rows_ok, bufWidth in *. cbn [rows set_rows bufferSize].
  apply Forall_insert; [exact Hrs|]. cbn [cells].
  rewrite Forall_lookup in Hrs. exact (Hrs _ _ Hr).
Qed.

Lemma IncrementCircularBuffer_iter_rows_ok (n : nat) (b : TextBuffer) :
  0 <= bufWidth b -> rows_ok b ->
  rows_ok (Nat.iter n IncrementCircularBuffer b) /\
  bufferSize (Nat.iter n IncrementCircularBuffer b) = bufferSize b.
Proof.
  intros HW Hrs. induction n as [|n [IH Hsize]]; [now split|].
  rewrite Nat.iter_succ.
  set (bn := Nat.iter n IncrementCircularBuffer b) in *.
  split; [|exact Hsize].
  unfold rows_ok, IncrementCircularBuffer, bufWidth in *.
  cbn [rows set_rows bufferSize]. rewrite Hsize in *.
  apply Forall_app_2; [now apply Forall_tail|].
  constructor; [|constructor].
  unfold blankROW. cbn [cells]. rewrite length_replicate. lia.
Qed.

Lemma _WriteBuffer_attempt_rows_ok (s : list wchar) (i : Z) (t : Terminal)
    (a : Attempt) :
  _WriteBuffer_attempt s i t = Returns a ->
  rows_ok (_buffer t) -> rows_ok (_buffer (written a)).
Proof.
  unfold _WriteBuffer_attempt.
  destruct (s !! Z.to_nat i) as [wch|]; [|discriminate].
  set (k := if (55296 <=? wch) && (wch <=? 57343) then 2%nat else 1%nat).
  intros Ha Hrs.
  pose proof (TextBuffer_Write_rows_ok (_buffer t) (substr s i k) Hrs) as Hw.
  destruct (TextBuffer_Write _ _) as [[b c] n]. cbn [fst] in Hw.
  destruct (0 <? n).
  - destruct (narrow_short c); cbn [obind] in Ha; [|discriminate].
    injection Ha as <-. exact Hw.
  - injection Ha as <-. cbn [written _buffer set_buffer].
    now apply SetWrapForced_rows_ok.
Qed.

Lemma _WriteBuffer_iteration_rows_ok (s : list wchar) (i i' : Z)
    (t t' : Terminal) :
  Terminal_ok t -> cursor_within (_buffer t) ->
  0 <= i < Z.of_nat (length s) -> Z.of_nat (length s) < SIZE_MOD ->
  _WriteBuffer_iteration s i t = Returns (i', t') ->
  rows_ok (_buffer t) -> rows_ok (_buffer t').
Proof.
  intros Hok Hcur Hi Hlen Hit Hrs.
  unfold _WriteBuffer_iteration in Hit.
  destruct (_WriteBuffer_attempt s i t) as [a|] eqn:Ha; [|discriminate].
  cbn [obind] in Hit.
  pose proof (_WriteBuffer_attempt_rows_ok s i t a Ha Hrs) as Hrs1.
  destruct (_WriteBuffer_attempt_frame s i t a Ha)
    as (b & Hw & Hcursor & Hsize & _).
  assert (Hok1 : Terminal_ok (written a) /\
                 is_short (Y (proposedCursorPosition a))).
  { destruct Hok as ((HW & HH & Hrows) & Hvp). destruct Hcur as (HX & HY).
    destruct (Z.lt_ge_cases (X (GetPosition (_buffer t))) (bufWidth (_buffer t)))
      as [Hroom|Hfull].
    - destruct (_WriteBuffer_attempt_room s i t
                  (conj (conj HW (conj HH Hrows)) Hvp) (conj HX HY) Hi Hlen Hroom)
        as (a' & Ha' & _ & _ & _ & HpY & _ & Hok' & _).
      rewrite Ha in Ha'. injection Ha' as <-. split; [exact Hok'|].
      unfold is_short, SHRT_MIN, SHRT_MAX in *. lia.
    - destruct (_WriteBuffer_attempt_full s i t
                  (conj (conj HW (conj HH Hrows)) Hvp) (conj HX HY) Hi Hfull)
        as (a' & Ha' & _ & _ & Hp & _ & Hok' & _).
      rewrite Ha in Ha'. injection Ha' as <-. split; [exact Hok'|].
      rewrite Hp. unfold is_short, SHRT_MIN, SHRT_MAX in *. cbn [Y]. lia. }
  destruct Hok1 as [Hok1 Hshort].
  destruct (_AdjustCursorPosition_returns (written a) (proposedCursorPosition a)
              Hok1 Hshort) as (t1 & Hret & Hbuf & _).
  rewrite Hret in Hit. cbn [obind] in Hit. injection Hit as _ <-.
  rewrite Hbuf.
  destruct (IncrementCircularBuffer_iter_rows_ok
              (Z.to_nat (overflowing_rows (written a) (proposedCursorPosition a)))
              (_buffer (written a))) as [Hrs2 Hsize2]; trivial.
  { destruct Hok1 as ((HW & _) & _). lia. }
Qed.

Lemma written_from_rows_ok (t0 t : Terminal) :
  Terminal_ok t0 -> cursor_within (_buffer t0) -> rows_ok (_buffer t0) ->
  written_from t0 t ->
  Terminal_ok t /\ cursor_within (_buffer t) /\ rows_ok (_buffer t).
Proof.
  intros Hok0 Hcur0 Hrs0 Hfrom.
  induction Hfrom as [|t _ IH|t s i i' t' _ IH Hi Hlen Hit|t _ IH].
  - auto.
  - exact IH.
  - destruct IH as (Hok & Hcur & Hrs).
    destruct (_WriteBuffer_iteration_spec s i t Hok Hcur Hi Hlen)
      as (i1 & t1 & Hit1 & Hok1 & Hcur1 & _).
    rewrite Hit in Hit1. injection Hit1 as <- <-.
    split; [exact Hok1|]. split; [exact Hcur1|].
    exact (_WriteBuffer_iteration_rows_ok s i i' t t' Hok Hcur Hi Hlen Hit Hrs).
  - exact IH.
Qed.

(** ** Text that fits the row *)

Lemma put_text_length (s : list wchar) :
  forall (cs : list Cell) (col : nat) (attr : TextAttribute),
    length (put_text cs col attr s) = length cs.
Proof.
  induction s as [|c rest IH]; intros cs col attr; [reflexivity|].
  cbn [put_text]. now rewrite IH, length_insert.
Qed.

Lemma put_text_lookup (s : list wchar) :
  forall (cs : list Cell) (col : nat) (attr : TextAttribute) (k : nat),
    (col + length s <= length cs)%nat ->
    put_text cs col attr s !! k =
      if (col <=? k)%nat && (k <? col + length s)%nat
      then option_map (fun c => mkCell [c] attr) (s !! (k - col)%nat)
      else cs !! k.
Proof.
  induction s as [|c rest IH]; intros cs col attr k Hfit.
  - cbn [put_text length]. destruct (Nat.leb_spec col k);
      destruct (Nat.ltb_spec k (col + 0)); cbn [andb]; trivial; lia.
  - cbn [put_text]. cbn [length] in Hfit.
    rewrite IH by (rewrite length_insert; lia).
    destruct (Nat.eq_dec k col) as [->|Hne].
    + destruct (Nat.leb_spec (S col) col); [lia|].
      destruct (Nat.leb_spec col col); [|lia].
      destruct (Nat.ltb_spec col (col + length (c :: rest)));
        [|cbn [length] in *; lia].
      cbn [andb]. rewrite Nat.sub_diag. cbn.
      apply list_lookup_insert_eq. lia.
    + rewrite list_lookup_insert_ne by lia.
      cbn [length].
      destruct (Nat.leb_spec (S col) k); destruct (Nat.leb_spec col k);
        destruct (Nat.ltb_spec k (S col + length rest));
        destruct (Nat.ltb_spec k (col + S (length rest)));
        cbn [andb]; trivial; try lia.
      replace (k - col)%nat with (S (k - S col)) by lia. reflexivity.
Qed.

(** Handed a position on a row of the buffer that is not below the mutable
    viewport, [_AdjustCursorPosition] sets the cursor there and does nothing
    else. *)
Lemma _AdjustCursorPosition_in_place (t : Terminal) (p : COORD) :
  Y p < bufHeight (_buffer t) ->
  Y p <= Viewport.BottomInclusive (_mutableViewport t) ->
  _AdjustCursorPosition t p =
    Returns (set_buffer t (SetPosition (_buffer t) p)).
Proof.
  intros Hrow Hvp. unfold _AdjustCursorPosition.
  destruct (Z.ltb_spec 0 (Y p - bufHeight (_buffer t) + 1)); [lia|].
  cbn [_buffer set_buffer _mutableViewport GetPosition SetPosition set_cursor
       cursor position].
  destruct (Z.ltb_spec (Viewport.BottomInclusive (_mutableViewport t)) (Y p));
    [lia|].
  reflexivity.
Qed.

(** A pass on a code unit that is no surrogate, with a column left on the
    cursor's row and the row inside the viewport: the unit goes into the
    cell under the cursor and the cursor moves on by one column. *)
Lemma _WriteBuffer_iteration_plain (s : list wchar) (i : Z) (t : Terminal)
    (c : wchar) (r : ROW) :
  0 <= i -> Z.of_nat (length s) < SIZE_MOD ->
  s !! Z.to_nat i = Some c -> is_surrogate c = false ->
  buffer_ok (_buffer t) ->
  0 <= X (GetPosition (_buffer t)) < bufWidth (_buffer t) ->
  0 <= Y (GetPosition (_buffer t)) < bufHeight (_buffer t) ->
  Y (GetPosition (_buffer t)) <= Viewport.BottomInclusive (_mutableViewport t) ->
  rows (_buffer t) !! Z.to_nat (Y (GetPosition (_buffer t))) = Some r ->
  _WriteBuffer_iteration s i t =
    Returns (i, set_buffer t
      (mkTextBuffer
         (<[Z.to_nat (Y (GetPosition (_buffer t))) :=
              mkROW (<[Z.to_nat (X (GetPosition (_buffer t))) :=
                         mkCell [c] (currentAttributes (_buffer t))]> (cells r))
                    (wrapForced r)]> (rows (_buffer t)))
         (bufferSize (_buffer t))
         (mkCursor (mkCOORD (X (GetPosition (_buffer t)) + 1)
                            (Y (GetPosition (_buffer t))))
                   (deferDepth (cursor (_buffer t))))
         (currentAttributes (_buffer t)))).
Proof.
  intros Hi Hlen Hc Hsur (HW & HH & Hrows) HX HY Hvp Hr.
  assert (Hin : i < Z.of_nat (length s)).
  { apply lookup_lt_Some in Hc. lia. }
  unfold _WriteBuffer_iteration, _WriteBuffer_attempt. rewrite Hc.
  unfold is_surrogate in Hsur. rewrite Hsur, (substr_single s i c Hc).
  unfold TextBuffer_Write.
  destruct (Z.leb_spec 0 (Y (GetPosition (_buffer t)))); [|lia].
  destruct (Z.ltb_spec (Y (GetPosition (_buffer t))) (bufHeight (_buffer t)));
    [|lia].
  destruct (Z.leb_spec 0 (X (GetPosition (_buffer t)))); [|lia].
  cbn [andb]. rewrite Hr. cbn [character_units WriteLine].
  destruct (Z.ltb_spec (X (GetPosition (_buffer t))) (bufWidth (_buffer t)));
    [|lia].
  cbn [length]. change (Z.of_nat 1) with 1. change (0 + 1) with 1.
  change (0 <? 1) with true. cbv iota.
  unfold SHRT_MAX in *.
  rewrite narrow_short_fits by (unfold is_short, SHRT_MIN, SHRT_MAX; lia).
  cbn [obind written proposedCursorPosition index].
  rewrite to_short_id by (unfold is_short, SHRT_MIN, SHRT_MAX; lia).
  replace (i + (1 - 1)) with i by lia.
  rewrite to_size_t_id by lia.
  rewrite _AdjustCursorPosition_in_place
    by (unfold bufHeight in *; cbn; unfold GetPosition in *; lia).
  cbn [obind]. reflexivity.
Qed.

Lemma _WriteBuffer_loop_plain (s : list wchar) :
  forall (rest : list wchar) (i : Z) (t : Terminal) (r : ROW) (fuel : nat),
    0 <= i -> Z.of_nat (length s) < SIZE_MOD ->
    drop (Z.to_nat i) s = rest ->
    Forall (fun c => is_surrogate c = false) rest ->
    buffer_ok (_buffer t) ->
    0 <= X (GetPosition (_buffer t)) ->
    X (GetPosition (_buffer t)) + Z.of_nat (length rest) <= bufWidth (_buffer t) ->
    0 <= Y (GetPosition (_buffer t)) < bufHeight (_buffer t) ->
    Y (GetPosition (_buffer t)) <= Viewport.BottomInclusive (_mutableViewport t) ->
    rows (_buffer t) !! Z.to_nat (Y (GetPosition (_buffer t))) = Some r ->
    (length rest <= fuel)%nat ->
    _WriteBuffer_loop fuel s i t =
      Some (Returns (set_buffer t
        (mkTextBuffer
           (<[Z.to_nat (Y (GetPosition (_buffer t))) :=
                mkROW (put_text (cells r)
                         (Z.to_nat (X (GetPosition (_buffer t))))
                         (currentAttributes (_buffer t)) rest)
                      (wrapForced r)]> (rows (_buffer t)))
           (bufferSize (_buffer t))
           (mkCursor (mkCOORD (X (GetPosition (_buffer t))
                               + Z.of_nat (length rest))
                              (Y (GetPosition (_buffer t))))
                     (deferDepth (cursor (_buffer t))))
           (currentAttributes (_buffer t))))).
Proof.
  induction rest as [|c rest IH];
    intros i t r fuel Hi Hlen Hdrop Hplain Hb HX Hfit HY Hvp Hr Hfuel.
  - assert (Hend : Z.of_nat (length s) <= i).
    { apply (f_equal length) in Hdrop. rewrite length_drop in Hdrop.
      simpl in Hdrop. lia. }
    assert (Hloop : _WriteBuffer_loop fuel s i t = Some (Returns t)).
    { destruct fuel; cbn [_WriteBuffer_loop];
        destruct (Z.ltb_spec i (Z.of_nat (length s))); trivial; lia. }
    rewrite Hloop. do 2 f_equal.
    cbn [put_text length Z.of_nat]. rewrite Z.add_0_r.
    destruct t as [vp lines b off snap pfn tr]. cbn in *.
    unfold set_buffer. cbn. f_equal.
    destruct b as [rs size [[x y] depth] attr]. cbn in *. f_equal.
    destruct r as [cs wf]. cbn. symmetry. now apply list_insert_id.
  - assert (Hc : s !! Z.to_nat i = Some c).
    { rewrite <- (Nat.add_0_r (Z.to_nat i)), <- lookup_drop, Hdrop.
      reflexivity. }
    assert (Hin : i < Z.of_nat (length s)).
    { apply lookup_lt_Some in Hc. lia. }
    rewrite (drop_S s c (Z.to_nat i) Hc) in Hdrop. injection Hdrop as Hdrop.
    apply Forall_cons in Hplain as [Hsur Hplain].
    cbn [length] in Hfit, Hfuel.
    destruct fuel as [|fuel]; [lia|]. cbn [_WriteBuffer_loop].
    destruct (Z.ltb_spec i (Z.of_nat (length s))); [|lia].
    rewrite (_WriteBuffer_iteration_plain s i t c r) by (trivial; lia).
    rewrite to_size_t_id by lia.
    pose proof Hb as (HW & HH & Hrows).
    set (y := Z.to_nat (Y (GetPosition (_buffer t)))) in *.
    assert (Hy : (y < length (rows (_buffer t)))%nat) by (subst y; lia).
    set (r1 := mkROW (<[Z.to_nat (X (GetPosition (_buffer t))) :=
                         mkCell [c] (currentAttributes (_buffer t))]> (cells r))
                     (wrapForced r)).
    set (t1 := set_buffer t _).
    assert (Hpos1 : GetPosition (_buffer t1) =
                    mkCOORD (X (GetPosition (_buffer t)) + 1)
                            (Y (GetPosition (_buffer t)))) by reflexivity.
    assert (Hsize1 : bufferSize (_buffer t1) = bufferSize (_buffer t))
      by reflexivity.
    assert (Hrows1 : rows (_buffer t1) = <[y := r1]> (rows (_buffer t)))
      by reflexivity.
    assert (Hb1 : buffer_ok (_buffer t1)).
    { unfold buffer_ok, bufWidth, bufHeight in *.
      rewrite Hsize1, Hrows1, length_insert. auto. }
    assert (Hr1 : rows (_buffer t1) !! Z.to_nat (Y (GetPosition (_buffer t1)))
                  = Some r1).
    { rewrite Hrows1, Hpos1. cbn [Y]. fold y.
      apply list_lookup_insert_eq. exact Hy. }
    assert (Hdrop1 : drop (Z.to_nat (i + 1)) s = rest).
    { replace (Z.to_nat (i + 1)) with (S (Z.to_nat i)) by lia. exact Hdrop. }
    assert (HX1 : 0 <= X (GetPosition (_buffer t1)))
      by (rewrite Hpos1; cbn [X]; lia).
    assert (Hfit1 : X (GetPosition (_buffer t1)) + Z.of_nat (length rest)
                    <= bufWidth (_buffer t1)).
    { unfold bufWidth. rewrite Hpos1, Hsize1. cbn [X].
      unfold bufWidth in Hfit. lia. }
    assert (HY1 : 0 <= Y (GetPosition (_buffer t1)) < bufHeight (_buffer t1)).
    { unfold bufHeight. rewrite Hpos1, Hsize1. exact HY. }
    assert (Hvp1 : Y (GetPosition (_buffer t1))
                   <= Viewport.BottomInclusive (_mutableViewport t1)).
    { rewrite Hpos1. exact Hvp. }
    rewrite (IH (i + 1) t1 r1 fuel ltac:(lia) Hlen Hdrop1 Hplain Hb1 HX1 Hfit1
               HY1 Hvp1 Hr1 ltac:(lia)).
    do 2 f_equal. rewrite Hpos1, Hrows1. cbn [X Y]. fold y.
    rewrite list_insert_insert_eq.
    subst t1 r1. unfold set_buffer.
    cbn [_buffer cursor position X Y rows bufferSize currentAttributes
         deferDepth cells wrapForced _mutableViewport _scrollbackLines
         _scrollOffset _snapOnInput _pfnScrollPositionChanged trace].
    replace (Z.to_nat (X (GetPosition (_buffer t)) + 1))
      with (S (Z.to_nat (X (GetPosition (_buffer t))))) by lia.
    cbn [put_text length].
    replace (X (GetPosition (_buffer t)) + 1 + Z.of_nat (length rest))
      with (X (GetPosition (_buffer t)) + Z.of_nat (S (length rest))) by lia.
    reflexivity.
Qed.

(** X11. Text without surrogates that fits what is left of the cursor's
    row, the row not being below the mutable viewport, is written in as
    many passes as it has code units: [_WriteBuffer] returns; the cursor
    has moved right by the length of the text, on the same row; read back,
    the cells from the old cursor column on hold the code units of the
    text, one to a cell, in order, with the current attributes; every other
    cell of the buffer and every forced-wrap flag is as it was; and nothing
    else of the terminal has changed: no row evicted, the viewport where it
    was, no redraw, no notification, the deferred-draw depth of the cursor
    back at its old value. *)
Theorem X11_plain_text_lands_in_row (fuel : nat) (s : list wchar)
    (t : Terminal) :
  Terminal_ok t -> cursor_within (_buffer t) -> rows_ok (_buffer t) ->
  Y (GetPosition (_buffer t))
    <= Viewport.BottomInclusive (_mutableViewport t) ->
  Forall (fun c => is_surrogate c = false) s ->
  X (GetPosition (_buffer t)) + Z.of_nat (length s) <= bufWidth (_buffer t) ->
  (length s <= fuel)%nat ->
  exists t',
    _WriteBuffer fuel s t = Some (Returns t') /\
    GetPosition (_buffer t') =
      mkCOORD (X (GetPosition (_buffer t)) + Z.of_nat (length s))
              (Y (GetPosition (_buffer t))) /\
    (forall (k : nat) (c : wchar),
       s !! k = Some c ->
       cell_at (_buffer t')
               (mkCOORD (X (GetPosition (_buffer t)) + Z.of_nat k)
                        (Y (GetPosition (_buffer t))))
         = Some (mkCell [c] (currentAttributes (_buffer t)))) /\
    (forall p : COORD,
       0 <= X p -> 0 <= Y p ->
       ~ (Y p = Y (GetPosition (_buffer t)) /\
          X (GetPosition (_buffer t)) <= X p
            < X (GetPosition (_buffer t)) + Z.of_nat (length s)) ->
       cell_at (_buffer t') p = cell_at (_buffer t) p) /\
    (forall y : Z, rowWrapForced (_buffer t') y = rowWrapForced (_buffer t) y) /\
    rows_ok (_buffer t') /\
    bufferSize (_buffer t') = bufferSize (_buffer t) /\
    currentAttributes (_buffer t') = currentAttributes (_buffer t) /\
    deferDepth (cursor (_buffer t')) = deferDepth (cursor (_buffer t)) /\
    t' = set_buffer t (_buffer t').
Proof.
  intros (Hb & Hh & Htop & Hoff) (HX & HY) Hrs Hvp Hplain Hfit Hfuel.
  pose proof Hb as (HW & HH & Hrows).
  destruct (lookup_lt_is_Some_2 (rows (_buffer t))
              (Z.to_nat (Y (GetPosition (_buffer t))))) as [r Hr]; [lia|].
  assert (Hcells : Z.of_nat (length (cells r)) = bufWidth (_buffer t)).
  { unfold rows_ok in Hrs. rewrite Forall_lookup in Hrs. exact (Hrs _ _ Hr). }
  assert (Hlen : Z.of_nat (length s) < SIZE_MOD)
    by (unfold SIZE_MOD, SHRT_MAX in *; lia).
  unfold _WriteBuffer.
  rewrite (_WriteBuffer_loop_plain s s 0
             (set_buffer t (StartDeferDrawing (_buffer t))) r fuel
             ltac:(lia) Hlen eq_refl Hplain Hb (proj1 HX) Hfit HY Hvp Hr Hfuel).
  eexists. split; [reflexivity|].
  unfold EndDeferDrawing, StartDeferDrawing, set_cursor, set_buffer,
    GetPosition in *.
  cbn [_buffer cursor position rows bufferSize currentAttributes deferDepth
       X Y].
  set (x := X (position (cursor (_buffer t)))) in *.
  set (y := Y (position (cursor (_buffer t)))) in *.
  assert (Hput : (Z.to_nat x + length s <= length (cells r))%nat) by lia.
  split; [reflexivity|]. split; [|split; [|split; [|split]]].
  - intros k c Hk. unfold cell_at. cbn [rows X Y].
    rewrite list_lookup_insert_eq by lia. cbn [cells].
    rewrite put_text_lookup by exact Hput.
    pose proof (lookup_lt_Some _ _ _ Hk) as Hlt.
    destruct (Nat.leb_spec (Z.to_nat x) (Z.to_nat (x + Z.of_nat k))); [|lia].
    destruct (Nat.ltb_spec (Z.to_nat (x + Z.of_nat k)) (Z.to_nat x + length s));
      [|lia].
    cbn [andb].
    replace (Z.to_nat (x + Z.of_nat k) - Z.to_nat x)%nat with k by lia.
    now rewrite Hk.
  - intros p HpX HpY Hout. unfold cell_at. cbn [rows].
    destruct (Nat.eq_dec (Z.to_nat (Y p)) (Z.to_nat y)) as [E|E].
    + rewrite E, list_lookup_insert_eq, Hr by lia. cbn [cells].
      rewrite put_text_lookup by exact Hput.
      destruct (Nat.leb_spec (Z.to_nat x) (Z.to_nat (X p)));
        destruct (Nat.ltb_spec (Z.to_nat (X p)) (Z.to_nat x + length s));
        cbn [andb]; trivial.
      exfalso. apply Hout. lia.
    + now rewrite list_lookup_insert_ne by lia.
  - intros y'. unfold rowWrapForced. cbn [rows].
    destruct (0 <=? y'); [|reflexivity].
    destruct (Nat.eq_dec (Z.to_nat y') (Z.to_nat y)) as [E|E].
    + now rewrite E, list_lookup_insert_eq, Hr by lia.
    + now rewrite list_lookup_insert_ne by lia.
  - unfold rows_ok, bufWidth. cbn [rows bufferSize].
    apply Forall_insert; [exact Hrs|]. cbn [cells].
    now rewrite put_text_length.
  - split; [reflexivity|]. split; [reflexivity|]. split; [lia|].
    reflexivity.
Qed.

Lemma Create_rows_ok (viewportSize : COORD) (scrollbackLines : Z) :
  0 <= X viewportSize ->
  rows_ok (_buffer (Create viewportSize scrollbackLines)).
Proof.
  intros HX. unfold rows_ok, Create, make_TextBuffer, bufWidth. cbn.
  apply Forall_replicate. cbn. rewrite length_replicate. lia.
Qed.

Lemma X11_plain_text_lands_in_row_witness :
  let t := Create (mkCOORD 10 3) 5 in
  let s := [104; 105] in
  Terminal_ok t /\ cursor_within (_buffer t) /\ rows_ok (_buffer t) /\
  Y (GetPosition (_buffer t))
    <= Viewport.BottomInclusive (_mutableViewport t) /\
  Forall (fun c => is_surrogate c = false) s /\
  X (GetPosition (_buffer t)) + Z.of_nat (length s) <= bufWidth (_buffer t) /\
  (length s <= 2)%nat /\
  exists t',
    _WriteBuffer 2 s t = Some (Returns t') /\
    GetPosition (_buffer t') = mkCOORD 2 0 /\
    cell_at (_buffer t') (mkCOORD 1 0) = Some (mkCell [105] 0).
Proof.
  cbv zeta.
  destruct (Create_ok (mkCOORD 10 3) 5) as [Hok Hcur];
    [vm_compute; intuition discriminate | vm_compute; discriminate |].
  assert (Hrs : rows_ok (_buffer (Create (mkCOORD 10 3) 5)))
    by (apply Create_rows_ok; vm_compute; discriminate).
  assert (Hvp : Y (GetPosition (_buffer (Create (mkCOORD 10 3) 5)))
                <= Viewport.BottomInclusive
                     (_mutableViewport (Create (mkCOORD 10 3) 5)))
    by (vm_compute; discriminate).
  assert (Hplain : Forall (fun c => is_surrogate c = false) [104; 105])
    by (repeat constructor).
  assert (Hfit : X (GetPosition (_buffer (Create (mkCOORD 10 3) 5)))
                 + Z.of_nat (length [104; 105])
                 <= bufWidth (_buffer (Create (mkCOORD 10 3) 5)))
    by (vm_compute; discriminate).
  assert (Hfuel : (length [104; 105] <= 2)%nat) by (simpl; lia).
  do 7 (split; [assumption|]).
  destruct (X11_plain_text_lands_in_row 2 [104; 105] _ Hok Hcur Hrs Hvp Hplain
              Hfit Hfuel) as (t' & Hrun & Hpos & Hcells & _).
  exists t'. split; [exact Hrun|]. split; [exact Hpos|].
  exact (Hcells 1%nat 105 eq_refl).
Defined.

(** ** Text written in pieces *)

Lemma _WriteBuffer_loop_fuel_le (fuel fuel' : nat) (s : list wchar) (i : Z)
    (t : Terminal) (r : outcome Terminal) :
  (fuel <= fuel')%nat ->
  _WriteBuffer_loop fuel s i t = Some r ->
  _WriteBuffer_loop fuel' s i t = Some r.
Proof.
  intros Hle Hrun. induction Hle as [|fuel' _ IH]; [exact Hrun|].
  now apply _WriteBuffer_loop_fuel.
Qed.

(** What a pass leaves of the index: the loop's increment brings it to the
    index of the pass plus the input consumed. *)
Lemma _WriteBuffer_attempt_index (s : list wchar) (i : Z) (t : Terminal)
    (a : Attempt) :
  0 <= i < Z.of_nat (length s) -> Z.of_nat (length s) < SIZE_MOD ->
  _WriteBuffer_attempt s i t = Returns a ->
  0 <= inputDistance a <= Z.of_nat (length s) - i /\
  to_size_t (index a + 1) = i + inputDistance a.
Proof.
  intros Hi Hlen. unfold _WriteBuffer_attempt.
  destruct (s !! Z.to_nat i) as [wch|]; [|discriminate].
  set (k := if (55296 <=? wch) && (wch <=? 57343) then 2%nat else 1%nat).
  assert (Hk : (1 <= k)%nat) by (subst k; destruct (_ && _); lia).
  destruct (substr_length s i k Hi Hk) as [_ Hv].
  pose proof (TextBuffer_Write_bounds (_buffer t) (substr s i k)) as Hb.
  destruct (TextBuffer_Write _ _) as [[b c] n].
  destruct (Z.ltb_spec 0 n).
  - destruct (narrow_short c); cbn [obind]; [|discriminate].
    intros [= <-]. cbn [inputDistance index]. split; [lia|].
    rewrite (to_size_t_id (i + (n - 1))) by lia.
    rewrite to_size_t_id by lia. lia.
  - intros [= <-]. cbn [inputDistance index]. split; [lia|].
    rewrite to_size_t_retry by lia. lia.
Qed.

Lemma substr_app_l (s1 s2 : list wchar) (i : Z) (k : nat) :
  (Z.to_nat i + k <= length s1)%nat ->
  substr (s1 ++ s2) i k = substr s1 i k.
Proof.
  intros Hin. unfold substr.
  rewrite drop_app_le by lia. apply take_app_le.
  rewrite length_drop. lia.
Qed.

Lemma substr_app_r (s1 s2 : list wchar) (j : Z) (k : nat) :
  0 <= j ->
  substr (s1 ++ s2) (Z.of_nat (length s1) + j) k = substr s2 j k.
Proof.
  intros Hj. unfold substr.
  replace (Z.to_nat (Z.of_nat (length s1) + j))
    with (length s1 + Z.to_nat j)%nat by lia.
  now rewrite drop_app_add.
Qed.

(** Where a character unit of the first piece begins, a pass on the whole
    text is the pass on the piece. *)
Lemma _WriteBuffer_iteration_app_l (s1 s2 : list wchar) (i : Z) (t : Terminal) :
  0 <= i < Z.of_nat (length s1) ->
  well_formed_utf16 (drop (Z.to_nat i) s1) ->
  _WriteBuffer_iteration (s1 ++ s2) i t = _WriteBuffer_iteration s1 i t.
Proof.
  intros Hi Hwf. unfold _WriteBuffer_iteration. f_equal.
  unfold _WriteBuffer_attempt.
  rewrite lookup_app_l by lia.
  destruct (s1 !! Z.to_nat i) as [wch|] eqn:Hw; [|reflexivity].
  rewrite (drop_S s1 wch (Z.to_nat i) Hw) in Hwf.
  destruct (well_formed_utf16_cons _ _ Hwf)
    as [(Hsur & _) | (l & rest & Heq & _)].
  - unfold is_surrogate in Hsur. rewrite Hsur.
    rewrite substr_app_l by lia. reflexivity.
  - assert (Hl : (S (Z.to_nat i) < length s1)%nat).
    { apply (f_equal length) in Heq. rewrite length_drop in Heq.
      simpl in Heq. lia. }
    destruct ((55296 <=? wch) && (wch <=? 57343));
      rewrite substr_app_l by lia; reflexivity.
Qed.

Lemma _WriteBuffer_loop_app_l (s1 s2 : list wchar) (t0 : Terminal) (f1 : nat) :
  forall (i : Z) (t t1 : Terminal) (f2 : nat) (r : outcome Terminal),
    well_formed_utf16 s1 -> Z.of_nat (length (s1 ++ s2)) < SIZE_MOD ->
    loop_reaches s1 t0 i t ->
    _WriteBuffer_loop f1 s1 i t = Some (Returns t1) ->
    _WriteBuffer_loop f2 (s1 ++ s2) (Z.of_nat (length s1)) t1 = Some r ->
    _WriteBuffer_loop (f1 + f2) (s1 ++ s2) i t = Some r.
Proof.
  induction f1 as [|f1 IH]; intros i t t1 f2 r Hwf Hlen Hreach Hrun1 Hrun2;
    pose proof Hlen as Hlen'; rewrite length_app, Nat2Z.inj_add in Hlen';
    destruct (loop_reaches_unit_start s1 t0 i t Hwf ltac:(lia) Hreach)
      as [Hi Hstart].
  - cbn [_WriteBuffer_loop] in Hrun1.
    destruct (Z.ltb_spec i (Z.of_nat (length s1))); [discriminate|].
    injection Hrun1 as <-. assert (i = Z.of_nat (length s1)) as -> by lia.
    exact Hrun2.
  - cbn [_WriteBuffer_loop] in Hrun1.
    destruct (Z.ltb_spec i (Z.of_nat (length s1))) as [Hlt|Hge].
    + destruct (_WriteBuffer_iteration s1 i t) as [[i' t']|] eqn:Hit;
        [|discriminate].
      cbn [Nat.add _WriteBuffer_loop].
      rewrite length_app, Nat2Z.inj_add.
      destruct (Z.ltb_spec i (Z.of_nat (length s1) + Z.of_nat (length s2)));
        [|lia].
      rewrite _WriteBuffer_iteration_app_l, Hit by (trivial; lia).
      apply (IH _ t' t1); trivial.
      exact (loop_pass s1 t0 i t i' t' Hreach Hlt Hit).
    + injection Hrun1 as <-. assert (i = Z.of_nat (length s1)) as -> by lia.
      apply (_WriteBuffer_loop_fuel_le f2); [lia | exact Hrun2].
Qed.

(** From the end of the first piece on, the loop on the whole text is the
    loop on the second piece. *)
Lemma _WriteBuffer_loop_app_r (s1 s2 : list wchar) (fuel : nat) :
  forall (j : Z) (t : Terminal),
    Z.of_nat (length (s1 ++ s2)) < SIZE_MOD ->
    0 <= j <= Z.of_nat (length s2) ->
    _WriteBuffer_loop fuel (s1 ++ s2) (Z.of_nat (length s1) + j) t =
      _WriteBuffer_loop fuel s2 j t.
Proof.
  induction fuel as [|fuel IH]; intros j t Hlen Hj;
    pose proof Hlen as Hlen'; rewrite length_app, Nat2Z.inj_add in Hlen';
    cbn [_WriteBuffer_loop]; rewrite length_app, Nat2Z.inj_add.
  - destruct (Z.ltb_spec (Z.of_nat (length s1) + j)
                (Z.of_nat (length s1) + Z.of_nat (length s2)));
      destruct (Z.ltb_spec j (Z.of_nat (length s2))); trivial; lia.
  - destruct (Z.ltb_spec (Z.of_nat (length s1) + j)
                (Z.of_nat (length s1) + Z.of_nat (length s2)));
      destruct (Z.ltb_spec j (Z.of_nat (length s2))); trivial; try lia.
    destruct (_WriteBuffer_iteration s2 j t) as [[i2 t2]|] eqn:Hit2.
    + destruct (_WriteBuffer_iteration_index s2 j i2 t t2 Hit2)
        as (a2 & Ha2 & ->).
      destruct (_WriteBuffer_attempt_index s2 j t a2 ltac:(lia) ltac:(lia) Ha2)
        as [Hn2 Hnext2].
      assert (Hit1 : exists i1,
        _WriteBuffer_iteration (s1 ++ s2) (Z.of_nat (length s1) + j) t
          = Returns (i1, t2) /\
        to_size_t (i1 + 1) = Z.of_nat (length s1) + to_size_t (index a2 + 1)).
      { unfold _WriteBuffer_iteration, _WriteBuffer_attempt in *.
        rewrite lookup_app_r by lia.
        replace (Z.to_nat (Z.of_nat (length s1) + j) - length s1)%nat
          with (Z.to_nat j) by lia.
        destruct (s2 !! Z.to_nat j) as [wch|]; [|discriminate].
        rewrite substr_app_r by lia.
        set (k := if (55296 <=? wch) && (wch <=? 57343) then 2%nat else 1%nat)
          in *.
        destruct (TextBuffer_Write (_buffer t) (substr s2 j k)) as [[b c] n].
        destruct (Z.ltb_spec 0 n).
        - destruct (narrow_short c); cbn [obind] in *; [|discriminate].
          injection Ha2 as <-.
          cbn [written proposedCursorPosition index inputDistance] in *.
          destruct (_AdjustCursorPosition _ _); cbn [obind] in *;
            [|discriminate].
          injection Hit2 as <-. eexists. split; [reflexivity|].
          rewrite Hnext2.
          rewrite (to_size_t_id (Z.of_nat (length s1) + j + (n - 1))) by lia.
          rewrite to_size_t_id by lia. lia.
        - cbn [obind] in *. injection Ha2 as <-.
          cbn [written proposedCursorPosition index inputDistance] in *.
          destruct (_AdjustCursorPosition _ _); cbn [obind] in *;
            [|discriminate].
          injection Hit2 as <-. eexists. split; [reflexivity|].
          rewrite Hnext2. rewrite to_size_t_retry by lia. lia. }
      destruct Hit1 as (i1 & -> & ->). rewrite Hnext2. apply IH; trivial. lia.
    + assert (Hit1 :
        _WriteBuffer_iteration (s1 ++ s2) (Z.of_nat (length s1) + j) t = Throws).
      { unfold _WriteBuffer_iteration, _WriteBuffer_attempt in *.
        rewrite lookup_app_r by lia.
        replace (Z.to_nat (Z.of_nat (length s1) + j) - length s1)%nat
          with (Z.to_nat j) by lia.
        destruct (s2 !! Z.to_nat j) as [wch|]; [|reflexivity].
        rewrite substr_app_r by lia.
        destruct (TextBuffer_Write (_buffer t) _) as [[b c] n].
        destruct (0 <? n).
        - destruct (narrow_short c); cbn [obind] in *; [|reflexivity].
          cbn [written proposedCursorPosition] in *.
          destruct (_AdjustCursorPosition _ _); cbn [obind] in *;
            [discriminate | reflexivity].
        - cbn [obind] in *. cbn [written proposedCursorPosition] in *.
          destruct (_AdjustCursorPosition _ _); cbn [obind] in *;
            [discriminate | reflexivity]. }
      now rewrite Hit1.
Qed.

Lemma StartDeferDrawing_EndDeferDrawing (t : Terminal) :
  set_buffer (set_buffer t (EndDeferDrawing (_buffer t)))
    (StartDeferDrawing (EndDeferDrawing (_buffer t))) = t.
Proof.
  destruct t as [vp lines [rs size [pos depth] attr] off snap pfn tr].
  unfold set_buffer, StartDeferDrawing, EndDeferDrawing, set_cursor. cbn.
  replace (depth - 1 + 1) with depth by lia. reflexivity.
Qed.

Lemma EndDeferDrawing_StartDeferDrawing (t : Terminal) :
  set_buffer (set_buffer t (StartDeferDrawing (_buffer t)))
    (EndDeferDrawing (StartDeferDrawing (_buffer t))) = t.
Proof.
  destruct t as [vp lines [rs size [pos depth] attr] off snap pfn tr].
  unfold set_buffer, StartDeferDrawing, EndDeferDrawing, set_cursor. cbn.
  replace (depth + 1 - 1) with depth by lia. reflexivity.
Qed.

(** Writing a text in two pieces leaves what writing it in one leaves. *)
Lemma _WriteBuffer_app (s1 s2 : list wchar) (t t1 : Terminal) (f1 f2 : nat)
    (r : outcome Terminal) :
  well_formed_utf16 s1 -> Z.of_nat (length (s1 ++ s2)) < SIZE_MOD ->
  _WriteBuffer f1 s1 t = Some (Returns t1) ->
  _WriteBuffer f2 s2 t1 = Some r ->
  _WriteBuffer (f1 + f2) (s1 ++ s2) t = Some r.
Proof.
  intros Hend Hlen Hrun1 Hrun2. unfold _WriteBuffer in *.
  destruct (_WriteBuffer_loop f1 s1 0 _) as [[u1|]|] eqn:Hloop1;
    try discriminate.
  injection Hrun1 as <-.
  rewrite StartDeferDrawing_EndDeferDrawing in Hrun2.
  destruct (_WriteBuffer_loop f2 s2 0 u1) as [r2|] eqn:Hloop2;
    [|discriminate].
  rewrite <- (_WriteBuffer_loop_app_r s1 s2 f2 0 u1 Hlen ltac:(lia)) in Hloop2.
  rewrite Z.add_0_r in Hloop2.
  rewrite (_WriteBuffer_loop_app_l s1 s2 _ f1 0 _ u1 f2 r2 Hend Hlen
             (loop_start s1 _) Hloop1 Hloop2).
  exact Hrun2.
Qed.

(** X12. A text written in two pieces leaves the terminal that writing it
    in one piece leaves, when the first piece is well-formed UTF-16, so
    that the cut does not divide a surrogate pair: buffer, cursor, viewport
    and the calls made to the outside are the same.  On a well-formed
    terminal each of the three writes returns.  Writing the empty text
    changes nothing. *)
Theorem X12_write_in_pieces (s1 s2 : list wchar) (t : Terminal)
    (f1 f2 f : nat) :
  Terminal_ok t -> cursor_within (_buffer t) ->
  well_formed_utf16 s1 -> Z.of_nat (length (s1 ++ s2)) < SIZE_MOD ->
  (2 * length s1 + 1 <= f1)%nat -> (2 * length s2 + 1 <= f2)%nat ->
  (2 * length (s1 ++ s2) + 1 <= f)%nat ->
  (exists t1 t2,
     _WriteBuffer f1 s1 t = Some (Returns t1) /\
     _WriteBuffer f2 s2 t1 = Some (Returns t2) /\
     _WriteBuffer f (s1 ++ s2) t = Some (Returns t2)) /\
  _WriteBuffer f [] t = Some (Returns t).
Proof.
  intros Hok Hcur Hend Hlen Hf1 Hf2 Hf.
  pose proof Hlen as Hlen'. rewrite length_app, Nat2Z.inj_add in Hlen'.
  split.
  - destruct (_WriteBuffer_returns f1 s1 t Hok Hcur ltac:(lia) Hf1)
      as (t1 & Hrun1 & Hok1 & Hcur1 & _).
    destruct (_WriteBuffer_returns f2 s2 t1 Hok1 Hcur1 ltac:(lia) Hf2)
      as (t2 & Hrun2 & _).
    destruct (_WriteBuffer_returns f (s1 ++ s2) t Hok Hcur Hlen Hf)
      as (t' & Hrun & _).
    exists t1, t2. split; [exact Hrun1|]. split; [exact Hrun2|].
    pose proof (_WriteBuffer_app s1 s2 t t1 f1 f2 _ Hend Hlen Hrun1 Hrun2)
      as Hboth.
    unfold _WriteBuffer in Hrun, Hboth |- *.
    destruct (_WriteBuffer_loop f (s1 ++ s2) 0 _) as [[u|]|] eqn:Hloop;
      try discriminate.
    destruct (_WriteBuffer_loop (f1 + f2) (s1 ++ s2) 0 _) as [[u'|]|] eqn:Hloop';
      try discriminate.
    apply (_WriteBuffer_loop_fuel_le f (f + (f1 + f2))) in Hloop; [|lia].
    apply (_WriteBuffer_loop_fuel_le (f1 + f2) (f + (f1 + f2))) in Hloop'; [|lia].
    rewrite Hloop in Hloop'. injection Hloop' as ->. exact Hboth.
  - unfold _WriteBuffer.
    assert (Hloop : forall u, _WriteBuffer_loop f [] 0 u = Some (Returns u))
      by (intros u; destruct f; reflexivity).
    rewrite Hloop. now rewrite EndDeferDrawing_StartDeferDrawing.
Qed.

Lemma X12_write_in_pieces_witness :
  let t := Create (mkCOORD 2 2) 1 in
  let s1 := [97; 98; 0xD83D; 0xDE00] in
  let s2 := [99; 100; 101] in
  Terminal_ok t /\ cursor_within (_buffer t) /\ well_formed_utf16 s1 /\
  Z.of_nat (length (s1 ++ s2)) < SIZE_MOD /\
  exists t1 t2,
    _WriteBuffer 9 s1 t = Some (Returns t1) /\
    _WriteBuffer 7 s2 t1 = Some (Returns t2) /\
    _WriteBuffer 15 (s1 ++ s2) t = Some (Returns t2).
Proof.
  cbv zeta.
  destruct (Create_ok (mkCOORD 2 2) 1) as [Hok Hcur];
    [vm_compute; intuition discriminate | vm_compute; discriminate |].
  assert (Hend : well_formed_utf16 [97; 98; 0xD83D; 0xDE00]).
  { do 2 (apply wf_single; [reflexivity|]). apply wf_pair; try reflexivity.
    apply wf_end. }
  assert (Hlen : Z.of_nat (length ([97; 98; 0xD83D; 0xDE00] ++ [99; 100; 101]))
                 < SIZE_MOD) by reflexivity.
  do 4 (split; [assumption|]).
  refine (proj1 (X12_write_in_pieces _ _ _ 9 7 15 Hok Hcur Hend Hlen _ _ _));
    simpl; lia.
Defined.

(** ** Wrapping to the next row *)

(** The pass that finds the cursor's row full. *)
Lemma _WriteBuffer_attempt_wrap (s : list wchar) (i : Z) (t : Terminal)
    (r : ROW) :
  0 <= i < Z.of_nat (length s) ->
  buffer_ok (_buffer t) ->
  X (GetPosition (_buffer t)) = bufWidth (_buffer t) ->
  0 <= Y (GetPosition (_buffer t)) < bufHeight (_buffer t) ->
  rows (_buffer t) !! Z.to_nat (Y (GetPosition (_buffer t))) = Some r ->
  exists a,
    _WriteBuffer_attempt s i t = Returns a /\
    index a = to_size_t (i - 1) /\
    proposedCursorPosition a = mkCOORD 0 (Y (GetPosition (_buffer t)) + 1) /\
    written a =
      set_buffer t
        (set_rows (_buffer t)
           (<[Z.to_nat (Y (GetPosition (_buffer t))) := mkROW (cells r) true]>
              (rows (_buffer t)))).
Proof.
  intros Hi (HW & HH & Hrows) HX HY Hr. unfold _WriteBuffer_attempt.
  destruct (lookup_lt_is_Some_2 s (Z.to_nat i)) as [wch Hw]; [lia|].
  rewrite Hw. unfold TextBuffer_Write.
  destruct (Z.leb_spec 0 (Y (GetPosition (_buffer t)))); [|lia].
  destruct (Z.ltb_spec (Y (GetPosition (_buffer t))) (bufHeight (_buffer t)));
    [|lia].
  destruct (Z.leb_spec 0 (X (GetPosition (_buffer t)))); [|lia].
  cbn [andb]. rewrite Hr, WriteLine_full by lia.
  change (0 <? 0) with false. cbv iota.
  eexists. split; [reflexivity|].
  cbn [index proposedCursorPosition written].
  split; [reflexivity|].
  rewrite to_short_id by (unfold is_short, SHRT_MIN, SHRT_MAX in *; lia).
  split; [reflexivity|]. f_equal.
  unfold SetWrapForced.
  destruct (Z.leb_spec 0 (Y (GetPosition (_buffer t)))); [|lia].
  cbn [rows set_rows]. rewrite list_lookup_insert_eq by lia.
  cbn [cells]. unfold set_rows. cbn [rows bufferSize cursor currentAttributes].
  now rewrite list_insert_insert_eq.
Qed.

(** The two passes that take a code unit to the next row: the first finds
    the row full, the second writes the unit in column 0 of the row that
    [_AdjustCursorPosition] has moved the cursor to. *)
Lemma _WriteBuffer_wrap_passes (s : list wchar) (i : Z) (t : Terminal)
    (c : wchar) (r r1 : ROW) :
  Terminal_ok t ->
  0 <= i -> Z.of_nat (length s) < SIZE_MOD ->
  s !! Z.to_nat i = Some c -> is_surrogate c = false ->
  X (GetPosition (_buffer t)) = bufWidth (_buffer t) ->
  0 <= Y (GetPosition (_buffer t)) < bufHeight (_buffer t) ->
  rows (_buffer t) !! Z.to_nat (Y (GetPosition (_buffer t))) = Some r ->
  let y := Y (GetPosition (_buffer t)) in
  let n := overflowing_rows t (mkCOORD 0 (y + 1)) in
  let y1 := y + 1 - n in
  let be :=
    Nat.iter (Z.to_nat n) IncrementCircularBuffer
      (set_rows (_buffer t)
         (<[Z.to_nat y := mkROW (cells r) true]> (rows (_buffer t)))) in
  let vp := _mutableViewport t in
  rows be !! Z.to_nat y1 = Some r1 ->
  exists i1 t1 t2,
    _WriteBuffer_iteration s i t = Returns (i1, t1) /\
    to_size_t (i1 + 1) = i /\
    _WriteBuffer_iteration s i t1 = Returns (i, t2) /\
    _buffer t2 =
      mkTextBuffer
        (<[Z.to_nat y1 :=
             mkROW (<[0%nat := mkCell [c] (currentAttributes (_buffer t))]>
                      (cells r1))
                   (wrapForced r1)]> (rows be))
        (bufferSize (_buffer t))
        (mkCursor (mkCOORD 1 y1) (deferDepth (cursor (_buffer t))))
        (currentAttributes (_buffer t)) /\
    _mutableViewport t2 =
      (if Viewport.BottomInclusive vp <? y1
       then Viewport.mk (y1 - (Viewport.Height vp - 1))
                        (Viewport.Width vp) (Viewport.Height vp)
       else vp) /\
    trace t2 =
      trace t ++ replicate (Z.to_nat n) IncrementCircularBuffer_called
              ++ (if (0 <? n) || (Viewport.BottomInclusive vp <? y1)
                  then TriggerRedrawAll :: scroll_notification t2 else []) /\
    _scrollOffset t2 = _scrollOffset t /\
    _pfnScrollPositionChanged t2 = _pfnScrollPositionChanged t.
Proof.
  intros Hok Hi Hlen Hc Hsur HX HY Hr. cbv zeta. intros Hr1.
  pose proof Hok as (Hb & Hh & Htop & Hoff).
  pose proof Hb as (HW & HH & Hrows).
  assert (Hin : i < Z.of_nat (length s)).
  { apply lookup_lt_Some in Hc. lia. }
  destruct (_WriteBuffer_attempt_wrap s i t r ltac:(lia) Hb HX HY Hr)
    as (a & Ha & Hidx & Hp & Hw).
  set (y := Y (GetPosition (_buffer t))) in *.
  set (bw := set_rows (_buffer t)
               (<[Z.to_nat y := mkROW (cells r) true]> (rows (_buffer t)))) in *.
  assert (Hokw : Terminal_ok (set_buffer t bw)).
  { unfold Terminal_ok, buffer_ok, bufWidth, bufHeight in *. cbn.
    rewrite length_insert. auto. }
  assert (Hshort : is_short (Y (mkCOORD 0 (y + 1)))).
  { unfold is_short, SHRT_MIN, SHRT_MAX in *. cbn [Y]. lia. }
  destruct (_AdjustCursorPosition_returns (set_buffer t bw) (mkCOORD 0 (y + 1))
              Hokw Hshort)
    as (t1 & Hret & Hbuf & Hvp & Htrace & Hoff1 & Hlines1 & Hsnap1 & Hpfn1).
  change (overflowing_rows (set_buffer t bw) (mkCOORD 0 (y + 1)))
    with (overflowing_rows t (mkCOORD 0 (y + 1))) in *.
  set (n := overflowing_rows t (mkCOORD 0 (y + 1))) in *.
  cbn [_buffer _mutableViewport set_buffer trace X Y _scrollOffset] in *.
  set (be := Nat.iter (Z.to_nat n) IncrementCircularBuffer bw) in *.
  destruct (IncrementCircularBuffer_iter_ok (Z.to_nat n) bw (proj1 Hokw))
    as (Hbe & Hsize).
  fold be in Hbe, Hsize.
  assert (Hn : 0 <= n <= 1 /\ y + 1 - n < bufHeight (_buffer t)).
  { subst n. unfold overflowing_rows. cbn [Y]. lia. }
  assert (Hpos1 : GetPosition (_buffer t1) = mkCOORD 0 (y + 1 - n))
    by (rewrite Hbuf; reflexivity).
  assert (Hsize1 : bufferSize (_buffer t1) = bufferSize (_buffer t))
    by (rewrite Hbuf; exact Hsize).
  assert (Hrows1 : rows (_buffer t1) = rows be) by (rewrite Hbuf; reflexivity).
  assert (Hit1 : _WriteBuffer_iteration s i t =
                 Returns (to_size_t (i - 1), t1)).
  { unfold _WriteBuffer_iteration. rewrite Ha. cbn [obind].
    rewrite Hw, Hp, Hret. cbn [obind]. now rewrite Hidx. }
  assert (Hb1 : buffer_ok (_buffer t1)).
  { unfold buffer_ok, bufWidth, bufHeight in *. rewrite Hsize1, Hrows1.
    rewrite Hsize in Hbe. exact Hbe. }
  assert (Hvp1 : y + 1 - n <= Viewport.BottomInclusive (_mutableViewport t1)).
  { rewrite Hvp.
    destruct (Z.ltb_spec (Viewport.BottomInclusive (_mutableViewport t))
                (y + 1 - n)); unfold Viewport.BottomInclusive in *; cbn; lia. }
  pose proof (_WriteBuffer_iteration_plain s i t1 c r1 Hi Hlen Hc Hsur Hb1)
    as Hit2.
  rewrite Hpos1, Hrows1 in Hit2. cbn [X Y] in Hit2.
  change (Z.to_nat 0) with 0%nat in Hit2. change (0 + 1) with 1 in Hit2.
  specialize (Hit2 ltac:(unfold bufWidth in *; rewrite Hsize1; lia)
                   ltac:(unfold bufHeight in *; rewrite Hsize1; lia)
                   Hvp1 Hr1).
  eexists _, t1, _. split; [exact Hit1|].
  split; [apply to_size_t_retry; lia|].
  split; [exact Hit2|].
  cbn [_buffer _mutableViewport trace _scrollOffset set_buffer
       _pfnScrollPositionChanged].
  assert (Hattr : currentAttributes (_buffer t1) = currentAttributes (_buffer t)).
  { rewrite Hbuf. cbn. subst be. clear. induction (Z.to_nat n); auto. }
  assert (Hdepth : deferDepth (cursor (_buffer t1)) =
                   deferDepth (cursor (_buffer t))).
  { rewrite Hbuf. cbn. subst be. clear. induction (Z.to_nat n); auto. }
  rewrite Hsize1, Hattr, Hdepth.
  split; [reflexivity|]. split; [exact Hvp|].
  split; [exact Htrace|]. split; [exact Hoff1 | exact Hpfn1].
Qed.

(** X13. A code unit that is no surrogate, met with the cursor past the
    last column of a row that is not the last row of the buffer, goes to
    the next row in two passes of the loop of [_WriteBuffer]: the first
    leaves the index where it was, the second writes the unit.  After them
    the unit is in column 0 of the next row and the cursor in column 1
    there; the row the cursor was on is marked as wrapped by force; every
    other cell of the buffer is as it was; no row has been evicted.  The
    viewport has moved down by one row when the cursor was on its bottom
    row, with one redraw and one scroll notification, and has stayed, with
    no call made, when the next row was inside it. *)
Theorem X13_wrap_inside_buffer (s : list wchar) (i : Z) (t : Terminal)
    (c : wchar) :
  Terminal_ok t -> rows_ok (_buffer t) ->
  0 <= i -> Z.of_nat (length s) < SIZE_MOD ->
  s !! Z.to_nat i = Some c -> is_surrogate c = false ->
  X (GetPosition (_buffer t)) = bufWidth (_buffer t) ->
  0 <= Y (GetPosition (_buffer t)) ->
  Y (GetPosition (_buffer t)) + 1 < bufHeight (_buffer t) ->
  let y := Y (GetPosition (_buffer t)) in
  let vp := _mutableViewport t in
  exists i1 t1 t2,
    _WriteBuffer_iteration s i t = Returns (i1, t1) /\
    to_size_t (i1 + 1) = i /\
    _WriteBuffer_iteration s i t1 = Returns (i, t2) /\
    GetPosition (_buffer t2) = mkCOORD 1 (y + 1) /\
    cell_at (_buffer t2) (mkCOORD 0 (y + 1))
      = Some (mkCell [c] (currentAttributes (_buffer t))) /\
    rowWrapForced (_buffer t2) y = true /\
    (forall p : COORD,
       0 <= X p -> 0 <= Y p -> p <> mkCOORD 0 (y + 1) ->
       cell_at (_buffer t2) p = cell_at (_buffer t) p) /\
    (forall y' : Z,
       y' <> y -> rowWrapForced (_buffer t2) y' = rowWrapForced (_buffer t) y') /\
    (Viewport.BottomInclusive vp = y ->
     _mutableViewport t2 =
       Viewport.mk (Viewport.Top vp + 1) (Viewport.Width vp) (Viewport.Height vp)
     /\ trace t2 = trace t ++ TriggerRedrawAll :: scroll_notification t2) /\
    (y < Viewport.BottomInclusive vp ->
     _mutableViewport t2 = vp /\ trace t2 = trace t).
Proof.
  intros Hok Hrs Hi Hlen Hc Hsur HX HY0 HY1. cbv zeta.
  pose proof Hok as (Hb & Hh & Htop & Hoff).
  pose proof Hb as (HW & HH & Hrows).
  set (y := Y (GetPosition (_buffer t))) in *.
  destruct (lookup_lt_is_Some_2 (rows (_buffer t)) (Z.to_nat y)) as [r Hr];
    [lia|].
  destruct (lookup_lt_is_Some_2 (rows (_buffer t)) (Z.to_nat (y + 1)))
    as [rn Hrn]; [lia|].
  assert (Hn : overflowing_rows t (mkCOORD 0 (y + 1)) = 0).
  { unfold overflowing_rows. cbn [Y]. lia. }
  assert (Hcells : Z.of_nat (length (cells rn)) = bufWidth (_buffer t)).
  { unfold rows_ok in Hrs. rewrite Forall_lookup in Hrs. exact (Hrs _ _ Hrn). }
  destruct (_WriteBuffer_wrap_passes s i t c r rn Hok Hi Hlen Hc Hsur HX
              ltac:(fold y; lia) Hr)
    as (i1 & t1 & t2 & Hit1 & Hi1 & Hit2 & Hbuf & Hvp & Htrace & _ & _).
  { fold y. rewrite Hn. change (Z.to_nat 0) with 0%nat.
    unfold Nat.iter. cbn [nat_rect rows set_rows].
    rewrite Z.sub_0_r, list_lookup_insert_ne by lia. exact Hrn. }
  fold y in Hbuf, Hvp, Htrace. rewrite Hn in Hbuf, Hvp, Htrace.
  change (Z.to_nat 0) with 0%nat in Hbuf, Htrace.
  unfold Nat.iter in Hbuf.
  cbn [nat_rect rows set_rows replicate Z.ltb Z.compare orb app]
    in Hbuf, Htrace.
  rewrite Z.sub_0_r in Hbuf, Hvp, Htrace.
  exists i1, t1, t2. do 3 (split; [assumption|]).
  rewrite Hbuf. unfold cell_at, rowWrapForced, GetPosition.
  cbn [rows cursor position X Y].
  assert (Hy : (Z.to_nat y < length (rows (_buffer t)))%nat) by lia.
  assert (Hy1 : (Z.to_nat (y + 1) < length (rows (_buffer t)))%nat) by lia.
  split; [reflexivity|]. split; [|split; [|split; [|split; [|split]]]].
  - rewrite list_lookup_insert_eq by (rewrite length_insert; lia).
    cbn [cells]. apply list_lookup_insert_eq. lia.
  - destruct (Z.leb_spec 0 y); [|lia].
    rewrite list_lookup_insert_ne by lia.
    now rewrite list_lookup_insert_eq by lia.
  - intros p HpX HpY Hp.
    destruct (Nat.eq_dec (Z.to_nat (Y p)) (Z.to_nat (y + 1))) as [E1|E1].
    + rewrite E1, list_lookup_insert_eq, Hrn by (rewrite length_insert; lia).
      cbn [cells]. apply list_lookup_insert_ne.
      intros E0. apply Hp. destruct p as [px py]. cbn in *. f_equal; lia.
    + rewrite list_lookup_insert_ne by lia.
      destruct (Nat.eq_dec (Z.to_nat (Y p)) (Z.to_nat y)) as [E2|E2].
      * now rewrite E2, list_lookup_insert_eq, Hr by lia.
      * now rewrite list_lookup_insert_ne by lia.
  - intros y' Hy'. destruct (Z.leb_spec 0 y'); [|reflexivity].
    destruct (Nat.eq_dec (Z.to_nat y') (Z.to_nat (y + 1))) as [E1|E1].
    + now rewrite E1, list_lookup_insert_eq, Hrn by (rewrite length_insert; lia).
    + rewrite list_lookup_insert_ne by lia.
      now rewrite list_lookup_insert_ne by lia.
  - intros Hbottom. rewrite Hvp, Htrace.
    destruct (Z.ltb_spec (Viewport.BottomInclusive (_mutableViewport t)) (y + 1));
      [|lia].
    split; [|reflexivity]. f_equal.
    unfold Viewport.BottomInclusive in *. lia.
  - intros Hinside. rewrite Hvp, Htrace.
    destruct (Z.ltb_spec (Viewport.BottomInclusive (_mutableViewport t)) (y + 1));
      [lia|].
    split; [reflexivity | apply app_nil_r].
Qed.

Lemma X13_wrap_inside_buffer_witness :
  let t := first_row_full_terminal in
  let s := [97; 98; 99] in
  Terminal_ok t /\ rows_ok (_buffer t) /\
  0 <= 2 /\ Z.of_nat (length s) < SIZE_MOD /\
  s !! Z.to_nat 2 = Some 99 /\ is_surrogate 99 = false /\
  X (GetPosition (_buffer t)) = bufWidth (_buffer t) /\
  0 <= Y (GetPosition (_buffer t)) /\
  Y (GetPosition (_buffer t)) + 1 < bufHeight (_buffer t) /\
  exists i1 t1 t2,
    _WriteBuffer_iteration s 2 t = Returns (i1, t1) /\
    _WriteBuffer_iteration s 2 t1 = Returns (2, t2) /\
    cell_at (_buffer t2) (mkCOORD 0 1) = Some (mkCell [99] 0) /\
    rowWrapForced (_buffer t2) 0 = true.
Proof.
  cbv zeta.
  assert (Hok : Terminal_ok first_row_full_terminal)
    by (vm_compute; intuition discriminate).
  assert (Hrs : rows_ok (_buffer first_row_full_terminal))
    by (repeat constructor).
  assert (Hi : 0 <= 2) by lia.
  assert (Hlen : Z.of_nat (length [97; 98; 99]) < SIZE_MOD) by reflexivity.
  assert (Hc : [97; 98; 99] !! Z.to_nat 2 = Some 99) by reflexivity.
  assert (Hsur : is_surrogate 99 = false) by reflexivity.
  assert (HX : X (GetPosition (_buffer first_row_full_terminal))
               = bufWidth (_buffer first_row_full_terminal)) by reflexivity.
  assert (HY0 : 0 <= Y (GetPosition (_buffer first_row_full_terminal)))
    by (vm_compute; discriminate).
  assert (HY1 : Y (GetPosition (_buffer first_row_full_terminal)) + 1
                < bufHeight (_buffer first_row_full_terminal)) by reflexivity.
  do 9 (split; [assumption|]).
  destruct (X13_wrap_inside_buffer [97; 98; 99] 2 first_row_full_terminal 99
              Hok Hrs Hi Hlen Hc Hsur HX HY0 HY1)
    as (i1 & t1 & t2 & Hit1 & _ & Hit2 & _ & Hcell & Hwrap & _).
  exists i1, t1, t2. split; [exact Hit1|]. split; [exact Hit2|].
  split; [exact Hcell | exact Hwrap].
Defined.

(** X14. A code unit that is no surrogate, met with the cursor past the
    last column of the last row of the buffer, scrolls the buffer: in two
    passes of the loop of [_WriteBuffer] one row, the oldest, is evicted,
    and only one.  Every row that remains is one row further up with its
    cells as they were, the row the cursor was on, now the last but one,
    marked as wrapped by force; the last row is blank but for the unit in
    its column 0, and the cursor is in column 1 of it.  The viewport,
    already at the end of the buffer, stays where it is; one redraw is
    requested and the scroll position is notified once, after the
    eviction. *)
Theorem X14_wrap_on_last_row_scrolls (s : list wchar) (i : Z) (t : Terminal)
    (c : wchar) :
  Terminal_ok t -> rows_ok (_buffer t) ->
  0 <= i -> Z.of_nat (length s) < SIZE_MOD ->
  s !! Z.to_nat i = Some c -> is_surrogate c = false ->
  X (GetPosition (_buffer t)) = bufWidth (_buffer t) ->
  Y (GetPosition (_buffer t)) = bufHeight (_buffer t) - 1 ->
  Viewport.BottomExclusive (_mutableViewport t) = bufHeight (_buffer t) ->
  let last_row := bufHeight (_buffer t) - 1 in
  exists i1 t1 t2,
    _WriteBuffer_iteration s i t = Returns (i1, t1) /\
    to_size_t (i1 + 1) = i /\
    _WriteBuffer_iteration s i t1 = Returns (i, t2) /\
    GetPosition (_buffer t2) = mkCOORD 1 last_row /\
    cell_at (_buffer t2) (mkCOORD 0 last_row)
      = Some (mkCell [c] (currentAttributes (_buffer t))) /\
    (forall x : Z,
       1 <= x < bufWidth (_buffer t) ->
       cell_at (_buffer t2) (mkCOORD x last_row)
         = Some (blankCell (currentAttributes (_buffer t)))) /\
    (forall p : COORD,
       0 <= X p -> 0 <= Y p < last_row ->
       cell_at (_buffer t2) p = cell_at (_buffer t) (mkCOORD (X p) (Y p + 1))) /\
    (2 <= bufHeight (_buffer t) ->
     rowWrapForced (_buffer t2) (last_row - 1) = true) /\
    bufferSize (_buffer t2) = bufferSize (_buffer t) /\
    _mutableViewport t2 = _mutableViewport t /\
    _scrollOffset t2 = _scrollOffset t /\
    _pfnScrollPositionChanged t2 = _pfnScrollPositionChanged t /\
    trace t2 =
      trace t ++ [IncrementCircularBuffer_called; TriggerRedrawAll]
              ++ scroll_notification t2.
Proof.
  intros Hok Hrs Hi Hlen Hc Hsur HX HY Hbottom. cbv zeta.
  pose proof Hok as (Hb & Hh & Htop & Hoff).
  pose proof Hb as (HW & HH & Hrows).
  set (H := bufHeight (_buffer t)) in *.
  destruct (lookup_lt_is_Some_2 (rows (_buffer t))
              (Z.to_nat (Y (GetPosition (_buffer t))))) as [r Hr]; [lia|].
  assert (Hn : overflowing_rows t (mkCOORD 0 (Y (GetPosition (_buffer t)) + 1))
               = 1).
  { unfold overflowing_rows. cbn [Y]. fold H. lia. }
  set (blank := blankROW (bufWidth (_buffer t)) (currentAttributes (_buffer t))).
  assert (Hlen_tail : forall (k : nat) (x : ROW),
    length (tail (<[k := x]> (rows (_buffer t)))) = Z.to_nat (H - 1)).
  { intros k x. rewrite length_tl, length_insert. lia. }
  destruct (_WriteBuffer_wrap_passes s i t c r blank Hok Hi Hlen Hc Hsur HX
              ltac:(fold H; lia) Hr)
    as (i1 & t1 & t2 & Hit1 & Hi1 & Hit2 & Hbuf & Hvp & Htrace & Hoff2 & Hpfn).
  { rewrite Hn, HY. change (Z.to_nat 1) with 1%nat.
    unfold Nat.iter. cbn [nat_rect]. unfold IncrementCircularBuffer.
    cbn [rows set_rows].
    replace (H - 1 + 1 - 1) with (H - 1) by lia.
    rewrite lookup_app_r by (rewrite Hlen_tail; lia).
    rewrite Hlen_tail, Nat.sub_diag. reflexivity. }
  rewrite Hn in Hbuf, Hvp, Htrace.
  change (Z.to_nat 1) with 1%nat in Hbuf, Htrace.
  unfold Nat.iter in Hbuf. cbn [nat_rect] in Hbuf.
  unfold IncrementCircularBuffer in Hbuf.
  cbn [rows set_rows replicate Z.ltb Z.compare orb app bufWidth bufferSize
       currentAttributes] in Hbuf, Htrace.
  fold (bufWidth (_buffer t)) in Hbuf. fold blank in Hbuf.
  rewrite HY in Hbuf, Hvp, Hr.
  replace (H - 1 + 1 - 1) with (H - 1) in Hbuf, Hvp by lia.
  exists i1, t1, t2. do 3 (split; [assumption|]).
  rewrite Hbuf. unfold cell_at, rowWrapForced, GetPosition.
  cbn [rows cursor position X Y bufferSize].
  set (old := <[Z.to_nat (H - 1) := mkROW (cells r) true]> (rows (_buffer t)))
    in *.
  assert (Hlen_old : length (tail old) = Z.to_nat (H - 1))
    by (subst old; apply Hlen_tail).
  assert (Hlast : (Z.to_nat (H - 1) < length (tail old ++ [blank]))%nat).
  { rewrite length_app, Hlen_old. simpl. lia. }
  split; [reflexivity|].
  split; [|split; [|split; [|split; [|split; [|split; [|split; [|split]]]]]]].
  - rewrite list_lookup_insert_eq by exact Hlast. cbn [cells].
    apply list_lookup_insert_eq. subst blank. unfold blankROW. cbn [cells].
    rewrite length_replicate. lia.
  - intros x Hx. rewrite list_lookup_insert_eq by exact Hlast. cbn [cells].
    rewrite list_lookup_insert_ne by lia.
    subst blank. unfold blankROW. cbn [cells].
    apply lookup_replicate_2. lia.
  - intros p HpX HpY.
    rewrite list_lookup_insert_ne by lia.
    rewrite lookup_app_l by (rewrite Hlen_old; lia).
    rewrite lookup_tail.
    replace (Z.to_nat (Y p + 1)) with (S (Z.to_nat (Y p))) by lia.
    subst old.
    destruct (Nat.eq_dec (S (Z.to_nat (Y p))) (Z.to_nat (H - 1))) as [E|E].
    + now rewrite E, list_lookup_insert_eq, Hr by lia.
    + now rewrite list_lookup_insert_ne by lia.
  - intros H2. destruct (Z.leb_spec 0 (H - 1 - 1)); [|lia].
    rewrite list_lookup_insert_ne by lia.
    rewrite lookup_app_l by (rewrite Hlen_old; lia).
    rewrite lookup_tail.
    replace (S (Z.to_nat (H - 1 - 1))) with (Z.to_nat (H - 1)) by lia.
    subst old. now rewrite list_lookup_insert_eq by lia.
  - reflexivity.
  - rewrite Hvp.
    destruct (Z.ltb_spec (Viewport.BottomInclusive (_mutableViewport t)) (H - 1));
      [|reflexivity].
    unfold Viewport.BottomInclusive, Viewport.BottomExclusive in *. lia.
  - exact Hoff2.
  - exact Hpfn.
  - rewrite Htrace. reflexivity.
Qed.

Lemma X14_wrap_on_last_row_scrolls_witness :
  let t := last_row_full_terminal in
  let s := [97; 98; 99; 100; 101; 102; 103] in
  Terminal_ok t /\ rows_ok (_buffer t) /\
  0 <= 6 /\ Z.of_nat (length s) < SIZE_MOD /\
  s !! Z.to_nat 6 = Some 103 /\ is_surrogate 103 = false /\
  X (GetPosition (_buffer t)) = bufWidth (_buffer t) /\
  Y (GetPosition (_buffer t)) = bufHeight (_buffer t) - 1 /\
  Viewport.BottomExclusive (_mutableViewport t) = bufHeight (_buffer t) /\
  exists i1 t1 t2,
    _WriteBuffer_iteration s 6 t = Returns (i1, t1) /\
    _WriteBuffer_iteration s 6 t1 = Returns (6, t2) /\
    cell_at (_buffer t2) (mkCOORD 0 2) = Some (mkCell [103] 0) /\
    cell_at (_buffer t2) (mkCOORD 0 0) = Some (mkCell [99] 0) /\
    trace t2 =
      trace t ++ [IncrementCircularBuffer_called; TriggerRedrawAll;
                  ScrollPositionChanged 1 2 3].
Proof.
  cbv zeta.
  assert (Hok : Terminal_ok last_row_full_terminal)
    by (vm_compute; intuition discriminate).
  assert (Hrs : rows_ok (_buffer last_row_full_terminal))
    by (repeat constructor).
  assert (Hi : 0 <= 6) by lia.
  assert (Hlen : Z.of_nat (length [97; 98; 99; 100; 101; 102; 103]) < SIZE_MOD)
    by reflexivity.
  assert (Hc : [97; 98; 99; 100; 101; 102; 103] !! Z.to_nat 6 = Some 103)
    by reflexivity.
  assert (Hsur : is_surrogate 103 = false) by reflexivity.
  assert (HX : X (GetPosition (_buffer last_row_full_terminal))
               = bufWidth (_buffer last_row_full_terminal)) by reflexivity.
  assert (HY : Y (GetPosition (_buffer last_row_full_terminal))
               = bufHeight (_buffer last_row_full_terminal) - 1) by reflexivity.
  assert (Hbottom : Viewport.BottomExclusive
                      (_mutableViewport last_row_full_terminal)
                    = bufHeight (_buffer last_row_full_terminal)) by reflexivity.
  do 9 (split; [assumption|]).
  destruct (X14_wrap_on_last_row_scrolls [97; 98; 99; 100; 101; 102; 103] 6
              last_row_full_terminal 103 Hok Hrs Hi Hlen Hc Hsur HX HY Hbottom)
    as (i1 & t1 & t2 & Hit1 & _ & Hit2 & _ & Hcell & _ & Hup & _ & _ & Hvp
        & Hoff & Hpfn & Htrace).
  exists i1, t1, t2. split; [exact Hit1|]. split; [exact Hit2|].
  split; [exact Hcell|].
  split; [rewrite (Hup (mkCOORD 0 0)) by (vm_compute; intuition discriminate);
          reflexivity|].
  rewrite Htrace. unfold scroll_notification, _VisibleStartIndex,
    ViewStartIndex, GetBufferHeight. rewrite Hvp, Hpfn, Hoff. reflexivity.
Defined.

(** ** The terminal in use *)

Lemma TrySnapOnInput_returns (t : Terminal) :
  0 <= Viewport.Top (_mutableViewport t) <= SHRT_MAX ->
  exists t',
    TrySnapOnInput t = Returns t' /\
    _buffer t' = _buffer t /\
    _mutableViewport t' = _mutableViewport t /\
    _scrollbackLines t' = _scrollbackLines t /\
    (_scrollOffset t' = _scrollOffset t \/ _scrollOffset t' = 0).
Proof.
  intros Htop. unfold TrySnapOnInput.
  destruct (_snapOnInput t && negb (_scrollOffset t =? 0)).
  - rewrite _NotifyScrollEvent_spec
      by (unfold _VisibleStartIndex, ViewStartIndex, SHRT_MAX in *; simpl; lia).
    cbn [obind]. eexists. split; [reflexivity|]. cbn.
    do 3 (split; [reflexivity|]). now right.
  - exists t. do 4 (split; [reflexivity|]). now left.
Qed.

(** What holds of a terminal in use, as long as it is not resized. *)
Lemma api_reachable_invariant (viewportSize : COORD) (scrollbackLines : Z)
    (t : Terminal) :
  1 <= X viewportSize <= SHRT_MAX -> 1 <= Y viewportSize <= SHRT_MAX ->
  0 <= scrollbackLines ->
  api_reachable (Create viewportSize scrollbackLines) t ->
  Terminal_ok t /\ cursor_within (_buffer t) /\ cursor_in_viewport t /\
  rows_ok (_buffer t) /\
  _scrollOffset t <= Viewport.Top (_mutableViewport t) /\
  Viewport.Dimensions (_mutableViewport t) = viewportSize /\
  bufferSize (_buffer t) =
    mkCOORD (X viewportSize)
            (Z.min SHRT_MAX (Y viewportSize + scrollbackLines)) /\
  _scrollbackLines t = scrollbackLines.
Proof.
  intros HX HY Hlines Hreach.
  induction Hreach as [|t fuel s t' _ IH Hlen Hrun|t viewTop _ IH
                       |t MapVirtualKeyW ToUnicodeEx HandleKey vkey scanCode
                          states handled t' _ IH Hkey|t pfn _ IH].
  - destruct (Create_ok viewportSize scrollbackLines HX (proj1 HY))
      as [Hok Hcur].
    split; [exact Hok|]. split; [exact Hcur|].
    split; [now apply Create_cursor_in_viewport|].
    split; [apply Create_rows_ok; lia|].
    destruct viewportSize as [w h].
    unfold Create, Viewport.FromDimensions, Viewport.Dimensions,
      ClampToShortMax, SHRT_MAX in *. cbn in *.
    repeat split; try lia. f_equal. lia.
  - destruct IH as (Hok & Hcur & Hin & Hrs & Hoff & Hdim & Hsize & Hl).
    unfold Write, ProcessString in Hrun.
    destruct (_WriteBuffer fuel s (emit t LockForWriting_acquired))
      as [[t2|]|] eqn:Hw; try discriminate.
    injection Hrun as <-.
    pose proof (_WriteBuffer_written_from (emit t LockForWriting_acquired)
                  fuel s _ t2 Hlen (written_start _) Hw) as Hfrom.
    destruct (written_from_viewport (emit t LockForWriting_acquired) t2
                Hok Hcur Hin Hfrom)
      as (Hok2 & Hcur2 & Hin2 & Htop2 & Hdim2 & _ & Hsize2 & Hoff2 & Hl2 & _).
    destruct (written_from_rows_ok (emit t LockForWriting_acquired) t2
                Hok Hcur Hrs Hfrom) as (_ & _ & Hrs2).
    cbn [_mutableViewport _buffer _scrollOffset _scrollbackLines emit] in *.
    split; [exact Hok2|]. split; [exact Hcur2|]. split; [exact Hin2|].
    split; [exact Hrs2|].
    split; [lia|]. repeat split; congruence.
  - destruct IH as (Hok & Hcur & Hin & Hrs & Hoff & Hdim & Hsize & Hl).
    destruct (UserScrollViewport_ok t viewTop Hok) as [Hok' Hoff'].
    split; [exact Hok'|]. split; [exact Hcur|]. split; [exact Hin|].
    split; [exact Hrs|].
    split; [apply Hoff'|]. auto.
  - destruct IH as (Hok & Hcur & Hin & Hrs & Hoff & Hdim & Hsize & Hl).
    pose proof Hok as (Hb & Hh & Htop & Hoff0).
    destruct (TrySnapOnInput_returns t Htop)
      as (t1 & Hsnap & Hbuf & Hvp & Hl1 & Hoff1).
    unfold SendKeyEvent in Hkey. rewrite Hsnap in Hkey. cbn [obind] in Hkey.
    injection Hkey as _ <-.
    unfold Terminal_ok, cursor_in_viewport in *.
    rewrite Hbuf, Hvp, Hl1.
    split; [|split; [exact Hcur|split; [exact Hin|split; [exact Hrs|split; [|auto]]]]].
    + split; [exact Hb|]. split; [exact Hh|]. split; [exact Htop|].
      destruct Hoff1 as [-> | ->]; lia.
    + destruct Hoff1 as [-> | ->]; lia.
  - exact IH.
Qed.

(** X15. A terminal made by [Create] with a viewport between 1 and
    [SHRT_MAX] columns wide and rows high and a scrollback capacity that is
    not negative stays well formed through every series of [Write],
    [UserScrollViewport], [SendKeyEvent] and
    [SetScrollPositionChangedCallback] calls, in any order and with any
    arguments: buffer and viewport keep their sizes, every row keeps a cell
    for each column, the cursor stays on a row of the buffer that the
    mutable viewport holds, the viewport stays inside the buffer, and the
    scroll offset stays between 0 and the top of the mutable viewport, so
    that [GetScrollOffset] is that top less the offset.  In every such
    state the next call returns and does not throw: [Write] of any text,
    [SendKeyEvent] of any key whatever the platform and the input
    translator answer, and the scroll notification. *)
Theorem X15_terminal_in_use_stays_well_formed (viewportSize : COORD)
    (scrollbackLines : Z) (t : Terminal) :
  1 <= X viewportSize <= SHRT_MAX -> 1 <= Y viewportSize <= SHRT_MAX ->
  0 <= scrollbackLines ->
  api_reachable (Create viewportSize scrollbackLines) t ->
  Terminal_ok t /\ cursor_within (_buffer t) /\ cursor_in_viewport t /\
  rows_ok (_buffer t) /\
  0 <= _scrollOffset t <= Viewport.Top (_mutableViewport t) /\
  GetScrollOffset t = Viewport.Top (_mutableViewport t) - _scrollOffset t /\
  Viewport.Dimensions (_mutableViewport t) = viewportSize /\
  bufferSize (_buffer t) =
    mkCOORD (X viewportSize)
            (Z.min SHRT_MAX (Y viewportSize + scrollbackLines)) /\
  _scrollbackLines t = scrollbackLines /\
  (forall (fuel : nat) (s : list wchar),
     Z.of_nat (length s) < SIZE_MOD -> (2 * length s + 1 <= fuel)%nat ->
     exists t', Write fuel s t = Some (Returns t')) /\
  (forall (MapVirtualKeyW : Z -> Z)
          (ToUnicodeEx : Z -> Z -> list Z -> Z -> Z * (wchar * wchar))
          (HandleKey : KeyEvent -> bool) (vkey scanCode : Z)
          (states : ControlKeyStates),
     exists handled t',
       SendKeyEvent MapVirtualKeyW ToUnicodeEx HandleKey t vkey scanCode states
         = Returns (handled, t')) /\
  (exists t', _NotifyScrollEvent t = Returns t').
Proof.
  intros HX HY Hlines Hreach.
  destruct (api_reachable_invariant viewportSize scrollbackLines t HX HY
              Hlines Hreach)
    as (Hok & Hcur & Hin & Hrs & Hoff & Hdim & Hsize & Hl).
  pose proof Hok as (Hb & Hh & Htop & Hoff0).
  split; [exact Hok|]. split; [exact Hcur|]. split; [exact Hin|].
  split; [exact Hrs|]. split; [lia|].
  split; [unfold GetScrollOffset, _VisibleStartIndex, ViewStartIndex; lia|].
  do 3 (split; [assumption|]).
  split; [|split].
  - intros fuel s Hlen Hfuel. unfold Write, ProcessString.
    destruct (_WriteBuffer_returns fuel s (emit t LockForWriting_acquired)
                Hok Hcur Hlen Hfuel) as (t' & -> & _).
    now eexists.
  - intros MapVirtualKeyW ToUnicodeEx HandleKey vkey scanCode states.
    destruct (TrySnapOnInput_returns t Htop) as (t1 & Hsnap & _).
    unfold SendKeyEvent. rewrite Hsnap. cbn [obind]. now eexists _, _.
  - rewrite _NotifyScrollEvent_spec
      by (unfold _VisibleStartIndex, ViewStartIndex, SHRT_MAX in *; lia).
    now eexists.
Qed.

Lemma X15_terminal_in_use_stays_well_formed_witness :
  1 <= X (mkCOORD 2 2) <= SHRT_MAX /\ 1 <= Y (mkCOORD 2 2) <= SHRT_MAX /\
  0 <= 5 /\
  api_reachable (Create (mkCOORD 2 2) 5)
    (UserScrollViewport seven_characters_terminal 1) /\
  GetScrollOffset (UserScrollViewport seven_characters_terminal 1) = 1.
Proof.
  assert (HX : 1 <= X (mkCOORD 2 2) <= SHRT_MAX)
    by (vm_compute; intuition discriminate).
  assert (HY : 1 <= Y (mkCOORD 2 2) <= SHRT_MAX)
    by (vm_compute; intuition discriminate).
  assert (Hlines : 0 <= 5) by lia.
  assert (Hw : Write 15 [97; 98; 99; 100; 101; 102; 103] (Create (mkCOORD 2 2) 5)
               = Some (Returns seven_characters_terminal))
    by (vm_compute; reflexivity).
  assert (Hlen : Z.of_nat (length [97; 98; 99; 100; 101; 102; 103]) < SIZE_MOD)
    by reflexivity.
  pose proof (api_UserScrollViewport _ _ 1
                (api_Write _ _ _ _ _ (api_start (Create (mkCOORD 2 2) 5))
                   Hlen Hw)) as Hreach.
  do 3 (split; [assumption|]). split; [exact Hreach|].
  destruct (X15_terminal_in_use_stays_well_formed _ _ _ HX HY Hlines Hreach)
    as (_ & _ & _ & _ & _ & Hget & _).
  rewrite Hget. reflexivity.
Defined.
